(** * Hash join of two columns: host orchestration of [join_compute_api.h]

    The development embeds the host code of [src/hash-join/join_compute_api.h]
    (the transposer [pairs_to_decoupled], the orchestrator [GenericJoinHash] and
    its two entry points [LeftJoinHash] and [InnerJoinHash]) as executable
    functions over an explicit host state, and proves properties of the join
    result, of the cardinality estimator and of the error paths.

    Conventions.
    - [size_type] is instantiated at the 32-bit signed [int]; every arithmetic
      operation of the source is written with its two's-complement wrap-around
      ([to_size_type]), the one computation done in [size_t] with [to_size_t].
    - A column is the list of its values; the row count travels separately, as
      in the source.
    - The CUDA runtime is an oracle ([device]): it says which status every
      runtime call and kernel launch reports, in which order the atomic slot
      reservations of a probe launch arrive, and what fresh memory contains.
    - The kernels and the hash table live in [join_kernels.cuh], which is not
      part of the sources at hand; they are modelled from the specification. *)

From Stdlib Require Import ZArith List Bool Lia Permutation Finite.
Import ListNotations.
Open Scope Z_scope.

(* ================================================================== *)
(** ** Machine integers *)

Definition INT_MAX : Z := 2147483647.

(** Conversion of a mathematical integer to [size_type] (32-bit, signed). *)
Definition to_size_type (z : Z) : Z := (z + 2147483648) mod 4294967296 - 2147483648.

(** Conversion to [size_t] (64-bit, unsigned). *)
Definition to_size_t (z : Z) : Z := z mod 18446744073709551616.

Definition DEFAULT_HASH_TBL_OCCUPANCY : Z := 50.
Definition DEFAULT_CUDA_BLOCK_SIZE : Z := 128.
Definition DEFAULT_CUDA_CACHE_SIZE : Z := 128.

(** [size_type hash_tbl_size = (size_type)((size_t) b_count * 100 / DEFAULT_HASH_TBL_OCCUPANCY)] *)
Definition hash_tbl_size (b_count : Z) : Z :=
  to_size_type (to_size_t (to_size_t b_count * 100) / DEFAULT_HASH_TBL_OCCUPANCY).

(* ================================================================== *)
(** ** Data model *)

Definition cudaError_t : Type := Z.
Definition cudaSuccess : cudaError_t := 0.

Inductive JoinType : Type := INNER_JOIN | LEFT_JOIN.

(** [template<typename size_type> struct join_pair { size_type first, second; };] *)
Record join_pair : Type := mk_pair { first : Z; second : Z }.

Definition column : Type := list Z.

(** [mgpu::mem_t<size_type>]: a device array, given by its contents. *)
Definition mem_t : Type := list Z.

(** Element [i] of a column ([a[i]] in the kernels). *)
Definition at_row (c : column) (i : Z) : Z := nth (Z.to_nat i) c 0.

(** The row indices [0 .. n-1]. *)
Definition iota (n : Z) : list Z := map Z.of_nat (seq 0 (Z.to_nat n)).

(** Reasons for which a call does not come back with a status. *)
Inductive trap : Type :=
| DivideByZero     (* integer division by zero *)
| OutOfBounds      (* access outside of an allocated array *)
| BadAlloc.        (* allocation of a negative number of elements *)

(** The runtime calls and kernel launches of [GenericJoinHash]; the ones that
    sit in a loop carry the number of the iteration. *)
Inductive api : Type :=
| cudaMalloc_joined_idx
| cudaMemsetAsync_joined_idx
| hash_tbl_prefetch
| build_hash_tbl_launch
| probe_hash_tbl_count_common_launch (k : nat)
| cudaMemcpy_common_probe (k : nat)
| cudaFree_common_probe (k : nat)
| cudaGetDevice (n : nat)
| cudaMallocManaged_tempOut (n : nat)
| cudaMemPrefetchAsync_tempOut (n : nat)
| cudaMemset_joined_idx (n : nat)
| probe_hash_tbl_launch (n : nat)
| cudaDeviceSynchronize (n : nat)
| cudaMemcpy_joined_idx (n : nat)
| cudaFree_tempOut (n : nat)
| cudaFree_joined_idx.

(** What the host can observe of the device work it issued. *)
Inductive event : Type :=
| ev_build_hash_tbl (b_count : Z)
| ev_probe_hash_tbl_count_common (a_sample_size : Z)
| ev_probe_hash_tbl (scanSize : Z)
| ev_free_tempOut (scanSize : Z)
| ev_alloc_joined_output (size : Z)
| ev_pairs_to_decoupled (output_npairs : Z).

(** The device, as far as the host code depends on it: the status it reports
    for every call, the order in which the slot reservations of the [n]-th
    launch of the materializing probe arrive, and the value found in memory
    that was allocated and not yet written. *)
Record device : Type := mk_device {
  status : api -> cudaError_t;
  arrival : nat -> list join_pair -> list join_pair;
  uninit : Z
}.

(** The state the host code works on: the caller's output parameter, the
    error register read by [cudaGetLastError], and the device work issued. *)
Record host : Type := mk_host {
  joined_output : mem_t;
  last_error : cudaError_t;
  trace : list event
}.

(* ================================================================== *)
(** ** The monad of the host code: state, early [return], trap, fuel *)

Inductive result (A : Type) : Type :=
| Next (x : A) (h : host)
| Return (e : cudaError_t) (h : host)
| Trap (r : trap)
| OutOfFuel.

Arguments Next {A} x h.
Arguments Return {A} e h.
Arguments Trap {A} r.
Arguments OutOfFuel {A}.

Definition M (A : Type) : Type := host -> result A.

Definition ret {A} (x : A) : M A := fun h => Next x h.

Definition bind {A B} (m : M A) (f : A -> M B) : M B :=
  fun h => match m h with
           | Next x h' => f x h'
           | Return e h' => Return e h'
           | Trap r => Trap r
           | OutOfFuel => OutOfFuel
           end.

Definition return_ {A} (e : cudaError_t) : M A := fun h => Return e h.
Definition trap_ {A} (r : trap) : M A := fun _ => Trap r.
Definition out_of_fuel {A} : M A := fun _ => OutOfFuel.

Notation "x <- m ;; f" := (bind m (fun x => f))
  (at level 61, m at next level, right associativity).
Notation "m ;;; f" := (bind m (fun _ => f))
  (at level 61, right associativity).

(** Lifting of a partial pure computation; [None] is an access out of bounds. *)
Definition in_bounds {A} (o : option A) : M A :=
  match o with Some x => ret x | None => trap_ OutOfBounds end.

Definition log (ev : event) : M unit :=
  fun h => Next tt (mk_host (joined_output h) (last_error h) (trace h ++ [ev])).

Definition set_joined_output (m : mem_t) : M unit :=
  fun h => Next tt (mk_host m (last_error h) (trace h)).

Definition get_joined_output : M mem_t := fun h => Next (joined_output h) h.

(** Integer division of two [size_type] values. *)
Definition divide (x y : Z) : M Z :=
  if y =? 0 then trap_ DivideByZero else ret (to_size_type (Z.quot x y)).

(* ================================================================== *)
(** ** The hash table and the kernels *)

(** Modelled from the spec: the type [concurrent_unordered_multimap] of
    [join_kernels.cuh] is missing.  The spec describes a fixed-capacity
    multimap of (key, row-index) entries in which a bucket may hold several
    entries with one key and a lookup yields all entries matching a key. *)
Record multimap : Type := mk_multimap {
  capacity : Z;
  entries : list (Z * Z)
}.

Definition new_multimap (n : Z) : multimap := mk_multimap n [].

(** Modelled from the spec: the kernel [build_hash_tbl] is missing.  One worker
    per row [i] of [b] inserts [(b[i], i)] into the shared table. *)
Definition build_hash_tbl (tbl : multimap) (b : column) (b_count : Z) : multimap :=
  mk_multimap (capacity tbl)
              (entries tbl ++ map (fun i => (at_row b i, i)) (iota b_count)).

(** Modelled from the spec: a further key column is optional on either side
    (a null pointer when absent); a component takes part in the comparison
    when it is supplied. *)
Definition component_eq (a2 b2 : option column) (i j : Z) : bool :=
  match a2, b2 with
  | Some x, Some y => at_row x i =? at_row y j
  | _, _ => true
  end.

(** Modelled from the spec: the matches of row [i] of [a], found by looking
    its key up in the table and comparing the other key components. *)
Definition row_matches (tbl : multimap) (a : column) (a2 b2 a3 b3 : option column)
           (i : Z) : list join_pair :=
  map (fun e => mk_pair i (snd e))
      (filter (fun e => (fst e =? at_row a i)
                        && component_eq a2 b2 i (snd e)
                        && component_eq a3 b3 i (snd e))
              (entries tbl)).

(** Modelled from the spec: all matches of the first [n] rows of [a], that
    is what the workers of a probe kernel launched over [n] rows find. *)
Definition table_matches (tbl : multimap) (a : column) (n : Z)
           (a2 b2 a3 b3 : option column) : list join_pair :=
  flat_map (row_matches tbl a a2 b2 a3 b3) (iota n).

(** Modelled from the spec: the kernel [probe_hash_tbl_count_common] is
    missing.  It probes the first [a_sample_size] rows and increments a global
    counter per match, writing no output; the value is the final counter. *)
Definition probe_hash_tbl_count_common (join_type : JoinType) (tbl : multimap)
           (a : column) (a_sample_size : Z) (a2 b2 a3 b3 : option column) : Z :=
  to_size_type (Z.of_nat (length (table_matches tbl a a_sample_size a2 b2 a3 b3))).

(** Modelled from the spec: the kernel [probe_hash_tbl] is missing.  One worker
    per row of [a]; every match reserves a slot with the global counter and
    writes its (left-index, right-index) pair; the reservations arrive in an
    order chosen by the device, and a pair whose slot is not below [scanSize]
    is not in the buffer.  The value is the buffer and the final counter.
    The spec describes one probe for both join types. *)
Definition probe_hash_tbl (dev : device) (n : nat) (join_type : JoinType)
           (tbl : multimap) (a : column) (a_count : Z) (a2 b2 a3 b3 : option column)
           (scanSize : Z) : list join_pair * Z :=
  let found := arrival dev n (table_matches tbl a a_count a2 b2 a3 b3) in
  (firstn (Z.to_nat scanSize) found, to_size_type (Z.of_nat (length found))).

(* ================================================================== *)
(** ** The transposer *)

(** [output_data[i] = v]; [None] outside of the array. *)
Fixpoint store (m : mem_t) (i : nat) (v : Z) : option mem_t :=
  match m, i with
  | [], _ => None
  | _ :: m', O => Some (v :: m')
  | x :: m', S i' => option_map (cons x) (store m' i' v)
  end.

Definition store_at (m : mem_t) (i : Z) (v : Z) : option mem_t :=
  if i <? 0 then None else store m (Z.to_nat i) v.

(** [joined[i]]; [None] for a slot that no pair was written to. *)
Definition load_pair (joined : list join_pair) (i : Z) : option join_pair :=
  if i <? 0 then None else nth_error joined (Z.to_nat i).

(** [mgpu::transform(k, count, context)]: the body [k] is run for the indices
    [0 .. count-1]. *)
Fixpoint transform (k : Z -> mem_t -> option mem_t) (indices : list Z)
         (m : mem_t) : option mem_t :=
  match indices with
  | [] => Some m
  | index :: rest =>
      match k index m with
      | Some m' => transform k rest m'
      | None => None
      end
  end.

Definition pairs_to_decoupled (output : mem_t) (output_npairs : Z)
           (joined : list join_pair) (flip_indices : bool) : option mem_t :=
  if 0 <? output_npairs then
    let k := fun (index : Z) (output_data : mem_t) =>
      match load_pair joined index with
      | None => None
      | Some p =>
          match store_at output_data index
                         (if flip_indices then second p else first p) with
          | None => None
          | Some output_data' =>
              store_at output_data' (to_size_type (index + output_npairs))
                       (if flip_indices then first p else second p)
          end
      end in
    transform k (iota output_npairs) output
  else Some output.

(* ================================================================== *)
(** ** The orchestrator *)

Section Orchestrator.

Variable dev : device.

(** Modelled from the spec: the macro [CUDA_RT_CALL] is missing.  A runtime
    call that reports a non-success status ends the current call, and the
    status goes to the caller unchanged. *)
Definition CUDA_RT_CALL (call : api) : M unit :=
  if status dev call =? cudaSuccess then ret tt else return_ (status dev call).

(** A kernel launch (or an asynchronous request): when the device refuses it,
    the work is not done and the status is left in the error register. *)
Definition issue (call : api) : M bool :=
  fun h =>
    let e := status dev call in
    if e =? cudaSuccess then Next true h
    else Next false (mk_host (joined_output h) e (trace h)).

(** [cudaGetLastError()]: reads the error register and resets it. *)
Definition cudaGetLastError : M cudaError_t :=
  fun h => Next (last_error h) (mk_host (joined_output h) cudaSuccess (trace h)).

(** [mgpu::mem_t<size_type>(count, context)] *)
Definition new_mem_t (count : Z) : M mem_t :=
  if count <? 0 then trap_ BadAlloc
  else ret (repeat (uninit dev) (Z.to_nat count)).

Section Join.

Variable join_type : JoinType.
Variables (a : column) (a_count : Z) (b : column) (b_count : Z).
Variables a2 b2 a3 b3 : option column.
Variable flip_results : bool.

(** The [do { ... } while(true)] loop of the estimate; [k] counts the
    iterations.  The value is the final [scanSize] and [a_sample_size].
    The allocation and reset of [d_common_probe] are not wrapped in
    [CUDA_RT_CALL] and their status is dropped; the test of [error] after the
    launch reads the local variable, which the launch does not assign. *)
Fixpoint estimate_loop (fuel : nat) (k : nat) (hash_tbl : multimap)
         (error : cudaError_t) (a_sample_size size_ratio : Z) : M (Z * Z) :=
  match fuel with
  | O => out_of_fuel
  | S fuel' =>
      let a_sample_size :=
        if a_count <? a_sample_size then a_count else a_sample_size in
      log (ev_probe_hash_tbl_count_common a_sample_size) ;;;
      ran <- issue (probe_hash_tbl_count_common_launch k) ;;
      let d_common_probe :=
        if ran : bool
        then probe_hash_tbl_count_common join_type hash_tbl a a_sample_size a2 b2 a3 b3
        else 0 in
      if negb (error =? cudaSuccess) then return_ error else
      CUDA_RT_CALL (cudaMemcpy_common_probe k) ;;;
      let scanSize := d_common_probe in
      let scanSize := to_size_type (scanSize * size_ratio) in
      CUDA_RT_CALL (cudaFree_common_probe k) ;;;
      if (0 <? scanSize) || (a_sample_size =? a_count) then
        ret (scanSize, a_sample_size)
      else if scanSize =? 0 then
        let a_sample_size := to_size_type (a_sample_size * 2) in
        let size_ratio := to_size_type (Z.quot size_ratio 2) in
        let size_ratio := if size_ratio =? 0 then 1 else size_ratio in
        estimate_loop fuel' (S k) hash_tbl error a_sample_size size_ratio
      else
        estimate_loop fuel' (S k) hash_tbl error a_sample_size size_ratio
  end.

(** The [while(cont)] loop of the materializing probe; [n] counts the
    iterations.  The value is [error], [h_actual_found] and [tempOut].
    [error] is assigned the status of [cudaDeviceSynchronize] and not tested
    inside the loop. *)
Fixpoint probe_loop (fuel : nat) (n : nat) (hash_tbl : multimap) (scanSize : Z)
  : M (cudaError_t * Z * list join_pair) :=
  match fuel with
  | O => out_of_fuel
  | S fuel' =>
      CUDA_RT_CALL (cudaGetDevice n) ;;;
      CUDA_RT_CALL (cudaMallocManaged_tempOut n) ;;;
      CUDA_RT_CALL (cudaMemPrefetchAsync_tempOut n) ;;;
      CUDA_RT_CALL (cudaMemset_joined_idx n) ;;;
      log (ev_probe_hash_tbl scanSize) ;;;
      ran <- issue (probe_hash_tbl_launch n) ;;
      let probed :=
        if ran : bool
        then probe_hash_tbl dev n join_type hash_tbl a a_count a2 b2 a3 b3 scanSize
        else ([], 0) in
      let tempOut := fst probed in
      let error := status dev (cudaDeviceSynchronize n) in
      CUDA_RT_CALL (cudaMemcpy_joined_idx n) ;;;
      let h_actual_found := snd probed in
      if scanSize <? h_actual_found then
        let scanSize' := to_size_type (scanSize * 2) in
        CUDA_RT_CALL (cudaFree_tempOut n) ;;;
        log (ev_free_tempOut scanSize) ;;;
        probe_loop fuel' (S n) hash_tbl scanSize'
      else
        ret (error, h_actual_found, tempOut)
  end.

(** Lines 82-114: the counter, the hash table over [b] and its build kernel.
    The value is the table and the local variable [error]. *)
Definition init_phase : M (multimap * cudaError_t) :=
  (* allocate a counter and reset *)
  CUDA_RT_CALL cudaMalloc_joined_idx ;;;
  CUDA_RT_CALL cudaMemsetAsync_joined_idx ;;;
  (* step 1: initialize a HT for table B (right) *)
  let hash_tbl := new_multimap (hash_tbl_size b_count) in
  issue hash_tbl_prefetch ;;;
  error <- cudaGetLastError ;;
  if negb (error =? cudaSuccess) then return_ error else
  (* step 2: build the HT *)
  log (ev_build_hash_tbl b_count) ;;;
  ran <- issue build_hash_tbl_launch ;;
  let hash_tbl := if ran : bool then build_hash_tbl hash_tbl b b_count else hash_tbl in
  error <- cudaGetLastError ;;
  if negb (error =? cudaSuccess) then return_ error else
  ret (hash_tbl, error).

(** Lines 122-158: the sample of [a], the ratio used to extrapolate, and the
    loop.  The value is the final [scanSize] and [a_sample_size]. *)
Definition estimate (fuel : nat) (hash_tbl : multimap) (error : cudaError_t) : M (Z * Z) :=
  sample <- (if to_size_type (5 * b_count) <? a_count then
               q <- divide a_count b_count ;;
               ret (b_count, to_size_type (q + 1))
             else ret (a_count, 1)) ;;
  estimate_loop fuel 0 hash_tbl error (fst sample) (snd sample).

(** Lines 202-207: the output array and the transposition into it. *)
Definition transpose_phase (error : cudaError_t) (h_actual_found : Z)
           (tempOut : list join_pair) : M unit :=
  let size := to_size_type (2 * h_actual_found) in
  log (ev_alloc_joined_output size) ;;;
  fresh <- new_mem_t size ;;
  set_joined_output fresh ;;;
  log (ev_pairs_to_decoupled h_actual_found) ;;;
  output <- get_joined_output ;;
  output' <- in_bounds (pairs_to_decoupled output h_actual_found tempOut flip_results) ;;
  set_joined_output output' ;;;
  (* free memory used for the counters *)
  CUDA_RT_CALL cudaFree_joined_idx ;;;
  return_ error.

Definition GenericJoinHash (fuel : nat) : M unit :=
  init <- init_phase ;;
  let hash_tbl := fst init in
  let error := snd init in
  est <- estimate fuel hash_tbl error ;;
  let scanSize := fst est in
  (* Checking if any common elements exists. If not, then there is no point
     scanning again. *)
  if scanSize =? 0 then return_ error else
  found <- probe_loop fuel 0 hash_tbl scanSize ;;
  transpose_phase (fst (fst found)) (snd (fst found)) (snd found).

End Join.

Definition LeftJoinHash (fuel : nat) (a : column) (a_count : Z) (b : column) (b_count : Z)
           (a2 b2 a3 b3 : option column) : M unit :=
  GenericJoinHash LEFT_JOIN a a_count b b_count a2 b2 a3 b3 false fuel.

Definition InnerJoinHash (fuel : nat) (a : column) (a_count : Z) (b : column) (b_count : Z)
           (a2 b2 a3 b3 : option column) : M unit :=
  if a_count <? b_count then
    GenericJoinHash INNER_JOIN b b_count a a_count b2 a2 b3 a3 true fuel
  else
    GenericJoinHash INNER_JOIN a a_count b b_count a2 b2 a3 b3 false fuel.

End Orchestrator.

(** A device on which nothing fails, reservations arrive in row order and
    fresh memory holds zeros; and the state of a caller that passes a fresh,
    empty [joined_output] with no error pending. *)
Definition quiet_device : device := mk_device (fun _ => cudaSuccess) (fun _ l => l) 0.
Definition fresh_host : host := mk_host [] cudaSuccess [].

(** The hypotheses on the device used below: no call fails; every launch of
    the materializing probe reserves one slot per match, in any order. *)
Definition no_faults (dev : device) : Prop := forall call, status dev call = cudaSuccess.
Definition fair (dev : device) : Prop := forall n l, Permutation (arrival dev n l) l.

(* ================================================================== *)
(** ** The cross-matching set and the pairs of an output *)

(** Rows [i] of the left side and [j] of the right side have equal keys, in
    every key component that is supplied. *)
Definition component_agree (a2 b2 : option column) (i j : Z) : Prop :=
  match a2, b2 with
  | Some x, Some y => at_row x i = at_row y j
  | _, _ => True
  end.

Definition keys_agree (a b : column) (a2 b2 a3 b3 : option column) (i j : Z) : Prop :=
  at_row a i = at_row b j /\ component_agree a2 b2 i j /\ component_agree a3 b3 i j.

Definition key_match (a b : column) (a2 b2 a3 b3 : option column) (i j : Z) : bool :=
  (at_row b j =? at_row a i) && component_eq a2 b2 i j && component_eq a3 b3 i j.

(** All pairs (left row, right row) of the two columns with equal keys. *)
Definition cross_matches (a b : column) (a2 b2 a3 b3 : option column) : list join_pair :=
  filter (fun p => key_match a b a2 b2 a3 b3 (first p) (second p))
         (map (fun ij => mk_pair (fst ij) (snd ij))
              (list_prod (iota (Z.of_nat (length a))) (iota (Z.of_nat (length b))))).

Definition swap (p : join_pair) : join_pair := mk_pair (second p) (first p).

(** The pairs held by a transposed output: entry [k] of the first half with
    entry [k] of the second half. *)
Definition decoupled (out : mem_t) : list join_pair :=
  let n := Nat.div (length out) 2 in
  map (fun lr => mk_pair (fst lr) (snd lr)) (combine (firstn n out) (skipn n out)).

Definition to_pair (ij : Z * Z) : join_pair := mk_pair (fst ij) (snd ij).

Definition oriented (flip : bool) (p : join_pair) : join_pair :=
  if flip then swap p else p.

(* ================================================================== *)
(** ** Sizes, observations on states, devices with one failing call *)

(** The ratio the estimate starts with. *)
Definition first_ratio (a_count b_count : Z) : Z :=
  if 5 * b_count <? a_count then a_count / b_count + 1 else 1.

(** The sizes at which no computation in [size_type] wraps around, whichever
    of the two columns is probed: five times a row count, the number of
    matches times the ratio, and twice the number of matches. *)
Definition fits_size_type (a b : column) (matches : Z) : Prop :=
  5 * Z.of_nat (length a) <= INT_MAX /\
  5 * Z.of_nat (length b) <= INT_MAX /\
  matches * first_ratio (Z.of_nat (length a)) (Z.of_nat (length b)) <= INT_MAX /\
  matches * first_ratio (Z.of_nat (length b)) (Z.of_nat (length a)) <= INT_MAX /\
  2 * matches <= INT_MAX.

Definition same_output (h h' : host) : Prop := joined_output h' = joined_output h.

(** A status that comes from the device or from the error register. *)
Definition reported (dev : device) (h : host) (e : cudaError_t) : Prop :=
  e <> cudaSuccess /\ (e = last_error h \/ exists call, e = status dev call).

Definition count_events (evs : list event) : Prop :=
  Forall (fun ev => exists s, ev = ev_probe_hash_tbl_count_common s) evs.

(** The capacities tried by the materializing probe before the one that was
    large enough: each is probed, freed and doubled. *)
Fixpoint growth (scanSize : Z) (k : nat) : list event :=
  match k with
  | O => []
  | S k' => ev_probe_hash_tbl scanSize :: ev_free_tempOut scanSize
            :: growth (2 * scanSize) k'
  end.

Definition api_eq_dec (x y : api) : {x = y} + {x <> y}.
Proof. decide equality; apply Nat.eq_dec. Defined.

(** The device on which the one call [call] reports the status [e]. *)
Definition only_fails (call : api) (e : cudaError_t) : device :=
  mk_device (fun c => if api_eq_dec c call then e else cudaSuccess) (fun _ l => l) 0.

(** Two columns with the matches clustered at the head of the probed one:
    a build column of 1024 rows with one key, and a probe column of [2^21]
    rows of which the first 1024 have that key and the others another one. *)
Definition clustered_build_column : column := repeat 7 (Z.to_nat 1024).

Definition clustered_probe_column : column :=
  repeat 7 (Z.to_nat 1024) ++ repeat 8 (Z.to_nat 2096128).

(* ================================================================== *)
(** ** The estimator in the words of the specification *)

(** Section 4.3 of the specification.  [count s] is the counter of the
    counting probe run over the first [s] rows, [full] the number of rows of
    the probed column.
    - the estimate is the counter times the ratio (steps 2 and 3);
    - the estimator stops when the estimate is positive or the full input has
      been sampled (step 5);
    - otherwise the sample is doubled and the ratio halved, with floor 1, and
      the probe is run again (step 4).
    The value is the estimate and the number of rows sampled for it. *)
Fixpoint spec_estimator (count : Z -> Z) (full : Z) (fuel : nat) (sample ratio : Z)
  : option (Z * Z) :=
  match fuel with
  | O => None
  | S fuel' =>
      let sampled := Z.min sample full in
      let estimated := count sampled * ratio in
      if (0 <? estimated) || (full <=? sample) then Some (estimated, sampled)
      else spec_estimator count full fuel' (2 * sample) (Z.max 1 (ratio / 2))
  end.

(** Step 1: when [a_count > 5 * b_count] the sample is the first [b_count]
    rows and the ratio [a_count / b_count + 1]; otherwise all rows, ratio 1. *)
Definition spec_estimate (count : Z -> Z) (a_count b_count : Z) (fuel : nat)
  : option (Z * Z) :=
  if 5 * b_count <? a_count
  then spec_estimator count a_count fuel b_count (a_count / b_count + 1)
  else spec_estimator count a_count fuel a_count 1.

(* ================================================================== *)
(** ** A program logic for the host monad

    [wpd da dt m Q R h]: run from [h], [m] either falls through with a value
    and a state in [Q], or executes a [return] with a status and a state in
    [R]; [da] says whether a trap is acceptable and [dt] whether running out
    of fuel is ([True] for partial correctness, [False] for total
    correctness). *)

Definition wpd (da dt : Prop) {A} (m : M A) (Q : A -> host -> Prop)
           (R : cudaError_t -> host -> Prop) (h : host) : Prop :=
  match m h with
  | Next x h' => Q x h'
  | Return e h' => R e h'
  | Trap _ => da
  | OutOfFuel => dt
  end.

(* ================================================================== *)
(** ** The device work issued by a call *)

(** The events a call has added to the trace. *)
Definition issued (h h' : host) : list event := skipn (length (trace h)) (trace h').

Definition is_probe (ev : event) : bool :=
  match ev with ev_probe_hash_tbl _ => true | _ => false end.

Definition is_free (ev : event) : bool :=
  match ev with ev_free_tempOut _ => true | _ => false end.

(** The capacities the materializing probe found too small: each one was
    probed and its buffer freed. *)
Definition retries (caps : list Z) : list event :=
  flat_map (fun s => [ev_probe_hash_tbl s; ev_free_tempOut s]) caps.

(** The ways in which [GenericJoinHash] comes back to its caller, with the
    sizes of the samples counted, the capacities retried, the last capacity
    probed and the number of pairs found. *)
Inductive path : Type :=
| set_up_refused
| build_refused
| estimate_refused (samples : list Z)
| nothing_to_join (samples : list Z)
| probe_refused (samples caps : list Z) (last : option Z)
| transposed (samples caps : list Z) (last h_actual_found : Z).

(** The device work issued along a path. *)
Definition work (b_count : Z) (p : path) : list event :=
  match p with
  | set_up_refused => []
  | build_refused => [ev_build_hash_tbl b_count]
  | estimate_refused samples | nothing_to_join samples =>
      ev_build_hash_tbl b_count :: map ev_probe_hash_tbl_count_common samples
  | probe_refused samples caps last =>
      ev_build_hash_tbl b_count :: map ev_probe_hash_tbl_count_common samples
      ++ retries caps
      ++ match last with Some s => [ev_probe_hash_tbl s] | None => [] end
  | transposed samples caps last h_actual_found =>
      ev_build_hash_tbl b_count :: map ev_probe_hash_tbl_count_common samples
      ++ retries caps
      ++ [ev_probe_hash_tbl last;
          ev_alloc_joined_output (to_size_type (2 * h_actual_found));
          ev_pairs_to_decoupled h_actual_found]
  end.

(** The samples counted along a path. *)
Definition samples_of (p : path) : list Z :=
  match p with
  | set_up_refused | build_refused => []
  | estimate_refused samples | nothing_to_join samples
  | probe_refused samples _ _ | transposed samples _ _ _ => samples
  end.

(* ================================================================== *)
(** ** Arithmetic of [size_type] *)

Lemma to_size_type_small z :
  - 2147483648 <= z <= INT_MAX -> to_size_type z = z.
Proof.
  unfold to_size_type, INT_MAX. intros H.
  rewrite Z.mod_small by lia. lia.
Qed.

Lemma to_size_type_range z : - 2147483648 <= to_size_type z <= INT_MAX.
Proof.
  unfold to_size_type, INT_MAX.
  pose proof (Z.mod_pos_bound (z + 2147483648) 4294967296 eq_refl). lia.
Qed.

Lemma to_size_type_le z : 0 <= z -> to_size_type z <= z.
Proof.
  intros H. unfold to_size_type.
  pose proof (Z.mod_le (z + 2147483648) 4294967296). lia.
Qed.

Lemma to_size_t_small z : 0 <= z < 18446744073709551616 -> to_size_t z = z.
Proof. intros H. unfold to_size_t. now apply Z.mod_small. Qed.

Lemma hash_tbl_size_exact b_count :
  0 <= b_count <= 1073741823 -> hash_tbl_size b_count = 2 * b_count.
Proof.
  intros H. unfold hash_tbl_size, DEFAULT_HASH_TBL_OCCUPANCY.
  rewrite (to_size_t_small b_count) by lia.
  rewrite to_size_t_small by lia.
  replace (b_count * 100) with (2 * b_count * 50) by lia.
  rewrite Z.div_mul by lia.
  apply to_size_type_small. unfold INT_MAX. lia.
Qed.

(* ================================================================== *)
(** ** Row indices *)

Lemma iota_In n i : In i (iota n) <-> 0 <= i < n.
Proof.
  unfold iota. rewrite in_map_iff. split.
  - intros [k [<- Hk]]. apply in_seq in Hk. lia.
  - intros H. exists (Z.to_nat i). split; [lia|]. apply in_seq. lia.
Qed.

Lemma iota_length n : length (iota n) = Z.to_nat n.
Proof. unfold iota. now rewrite length_map, length_seq. Qed.

Lemma iota_NoDup n : NoDup (iota n).
Proof.
  unfold iota. apply Finite.Injective_map_NoDup.
  - intros x y H. lia.
  - apply seq_NoDup.
Qed.

Lemma iota_nonpos n : n <= 0 -> iota n = [].
Proof. intros H. unfold iota. now replace (Z.to_nat n) with 0%nat by lia. Qed.

Lemma iota_split n m :
  0 <= n <= m -> exists rest, iota m = iota n ++ rest.
Proof.
  intros H. unfold iota.
  replace (Z.to_nat m) with (Z.to_nat n + (Z.to_nat m - Z.to_nat n))%nat by lia.
  rewrite seq_app, map_app. eauto.
Qed.

Lemma iota_of_length {A} (l : list A) :
  iota (Z.of_nat (length l)) = map Z.of_nat (seq 0 (length l)).
Proof. unfold iota. now rewrite Nat2Z.id. Qed.

(* ================================================================== *)
(** ** The cross-matching set *)

Lemma component_eq_agree a2 b2 i j :
  component_eq a2 b2 i j = true <-> component_agree a2 b2 i j.
Proof.
  unfold component_eq, component_agree.
  destruct a2, b2; try tauto. apply Z.eqb_eq.
Qed.

Lemma key_match_agree a b a2 b2 a3 b3 i j :
  key_match a b a2 b2 a3 b3 i j = true <-> keys_agree a b a2 b2 a3 b3 i j.
Proof.
  unfold key_match, keys_agree.
  rewrite !andb_true_iff, Z.eqb_eq, !component_eq_agree. intuition congruence.
Qed.

Lemma component_agree_sym a2 b2 i j :
  component_agree a2 b2 i j <-> component_agree b2 a2 j i.
Proof. unfold component_agree. destruct a2, b2; intuition congruence. Qed.

Lemma keys_agree_sym a b a2 b2 a3 b3 i j :
  keys_agree a b a2 b2 a3 b3 i j <-> keys_agree b a b2 a2 b3 a3 j i.
Proof.
  unfold keys_agree.
  rewrite (component_agree_sym a2 b2), (component_agree_sym a3 b3).
  intuition congruence.
Qed.

Lemma cross_matches_In a b a2 b2 a3 b3 p :
  In p (cross_matches a b a2 b2 a3 b3) <->
  0 <= first p < Z.of_nat (length a) /\ 0 <= second p < Z.of_nat (length b) /\
  keys_agree a b a2 b2 a3 b3 (first p) (second p).
Proof.
  unfold cross_matches. rewrite filter_In, in_map_iff, key_match_agree. split.
  - intros [[[i j] [<- Hin]] Hk]. apply in_prod_iff in Hin.
    rewrite !iota_In in Hin. simpl in *. tauto.
  - intros (Hi & Hj & Hk). split; [|exact Hk].
    exists (first p, second p). split; [now destruct p|].
    apply in_prod_iff. now rewrite !iota_In.
Qed.

Lemma list_prod_NoDup {A B} (l : list A) (l' : list B) :
  NoDup l -> NoDup l' -> NoDup (list_prod l l').
Proof.
  intros Hl Hl'. induction Hl as [|x l Hx Hl IH]; simpl; [constructor|].
  apply NoDup_app.
  - apply Finite.Injective_map_NoDup; [|exact Hl']. intros y y' H. congruence.
  - exact IH.
  - intros [x' y] H1 H2. apply in_map_iff in H1 as [y' [E _]].
    apply in_prod_iff in H2. destruct H2 as [H2 _]. congruence.
Qed.

Lemma cross_matches_NoDup a b a2 b2 a3 b3 : NoDup (cross_matches a b a2 b2 a3 b3).
Proof.
  unfold cross_matches. apply NoDup_filter.
  apply Finite.Injective_map_NoDup.
  - intros [i j] [i' j'] H. simpl in H. congruence.
  - apply list_prod_NoDup; apply iota_NoDup.
Qed.

Lemma swap_involutive p : swap (swap p) = p.
Proof. now destruct p. Qed.

(** Swapping the two sides swaps the components of every matching pair. *)
Lemma cross_matches_swap a b a2 b2 a3 b3 :
  Permutation (map swap (cross_matches a b a2 b2 a3 b3))
              (cross_matches b a b2 a2 b3 a3).
Proof.
  apply NoDup_Permutation.
  - apply Finite.Injective_map_NoDup; [|apply cross_matches_NoDup].
    intros p q H. rewrite <- (swap_involutive p), <- (swap_involutive q). now f_equal.
  - apply cross_matches_NoDup.
  - intros p. rewrite in_map_iff. split.
    + intros [q [<- Hq]]. apply cross_matches_In in Hq. apply cross_matches_In.
      simpl. rewrite <- keys_agree_sym. tauto.
    + intros Hp. exists (swap p). split; [apply swap_involutive|].
      apply cross_matches_In in Hp. apply cross_matches_In.
      simpl. rewrite keys_agree_sym. tauto.
Qed.

(* ================================================================== *)
(** ** The probe of a built table finds the cross-matching set *)

Lemma row_matches_build c a b m a2 b2 a3 b3 i :
  row_matches (build_hash_tbl (new_multimap c) b m) a a2 b2 a3 b3 i =
  filter (fun p => key_match a b a2 b2 a3 b3 (first p) (second p))
         (map to_pair (map (fun j => (i, j)) (iota m))).
Proof.
  unfold row_matches, build_hash_tbl. simpl.
  induction (iota m) as [|j J IH]; simpl; [reflexivity|].
  unfold key_match at 1. simpl.
  destruct ((at_row b j =? at_row a i) && component_eq a2 b2 i j
            && component_eq a3 b3 i j); simpl; now rewrite IH.
Qed.

Lemma table_matches_build c a b m n a2 b2 a3 b3 :
  table_matches (build_hash_tbl (new_multimap c) b m) a n a2 b2 a3 b3 =
  filter (fun p => key_match a b a2 b2 a3 b3 (first p) (second p))
         (map to_pair (list_prod (iota n) (iota m))).
Proof.
  unfold table_matches.
  induction (iota n) as [|i I IH]; simpl; [reflexivity|].
  now rewrite map_app, filter_app, IH, row_matches_build.
Qed.

Lemma table_matches_full c a b a2 b2 a3 b3 :
  table_matches (build_hash_tbl (new_multimap c) b (Z.of_nat (length b))) a
                (Z.of_nat (length a)) a2 b2 a3 b3 =
  cross_matches a b a2 b2 a3 b3.
Proof. apply table_matches_build. Qed.

Lemma table_matches_prefix tbl a n m a2 b2 a3 b3 :
  0 <= n <= m ->
  exists rest,
    table_matches tbl a m a2 b2 a3 b3 = table_matches tbl a n a2 b2 a3 b3 ++ rest.
Proof.
  intros H. destruct (iota_split n m H) as [rest E].
  unfold table_matches. rewrite E, flat_map_app. eauto.
Qed.

Lemma table_matches_mono tbl a n m a2 b2 a3 b3 :
  0 <= n <= m ->
  (length (table_matches tbl a n a2 b2 a3 b3)
   <= length (table_matches tbl a m a2 b2 a3 b3))%nat.
Proof.
  intros H. destruct (table_matches_prefix tbl a n m a2 b2 a3 b3 H) as [rest E].
  rewrite E, length_app. lia.
Qed.

Lemma table_matches_nonpos tbl a n a2 b2 a3 b3 :
  n <= 0 -> table_matches tbl a n a2 b2 a3 b3 = [].
Proof. intros H. unfold table_matches. now rewrite iota_nonpos. Qed.

(* ================================================================== *)
(** ** The transposer writes both halves *)

Lemma store_middle l x r v : store (l ++ x :: r) (length l) v = Some (l ++ v :: r).
Proof. induction l as [|y l IH]; simpl; [reflexivity|]. now rewrite IH. Qed.

Lemma store_length m i v m' : store m i v = Some m' -> length m' = length m.
Proof.
  revert i m'. induction m as [|x m IH]; intros [|i] m' H; simpl in H; try discriminate.
  - now inversion H.
  - destruct (store m i v) eqn:E; simpl in H; [|discriminate].
    inversion H. simpl. f_equal. eauto.
Qed.

Section Transposer.

Variables (flip_indices : bool) (joined : list join_pair).

Let left_of (p : join_pair) : Z := if flip_indices then second p else first p.
Let right_of (p : join_pair) : Z := if flip_indices then first p else second p.
Let N : Z := Z.of_nat (length joined).

Let body (index : Z) (output_data : mem_t) : option mem_t :=
  match load_pair joined index with
  | None => None
  | Some p =>
      match store_at output_data index (left_of p) with
      | None => None
      | Some output_data' =>
          store_at output_data' (to_size_type (index + N)) (right_of p)
      end
  end.

Lemma transform_body pre suf X Y :
  joined = pre ++ suf ->
  length X = length suf -> length Y = length suf ->
  2 * N <= INT_MAX ->
  transform body (map Z.of_nat (seq (length pre) (length suf)))
            (map left_of pre ++ X ++ map right_of pre ++ Y)
  = Some (map left_of joined ++ map right_of joined).
Proof.
  revert pre X Y. induction suf as [|p suf IH]; intros pre X Y E HX HY HN.
  - destruct X; [|discriminate]. destruct Y; [|discriminate].
    simpl. rewrite E. now rewrite !app_nil_r.
  - destruct X as [|x X]; [discriminate|]. destruct Y as [|y Y]; [discriminate|].
    simpl in HX, HY. injection HX as HX. injection HY as HY.
    assert (HlenN : N = Z.of_nat (length pre) + 1 + Z.of_nat (length suf)).
    { unfold N. rewrite E, length_app. simpl. lia. }
    cbn [length seq map transform]. unfold body at 1.
    unfold load_pair. replace (Z.of_nat (length pre) <? 0) with false by lia.
    rewrite Nat2Z.id.
    replace (nth_error joined (length pre)) with (Some p)
      by (rewrite E, nth_error_app2, Nat.sub_diag by lia; reflexivity).
    unfold store_at. replace (Z.of_nat (length pre) <? 0) with false by lia.
    rewrite Nat2Z.id.
    replace (length pre) with (length (map left_of pre)) at 1 by apply length_map.
    rewrite <- app_comm_cons, store_middle.
    rewrite to_size_type_small by (unfold INT_MAX in *; lia).
    replace (Z.of_nat (length pre) + N <? 0) with false by lia.
    replace (map left_of pre ++ left_of p :: X ++ map right_of pre ++ y :: Y)
      with ((map left_of pre ++ left_of p :: X ++ map right_of pre) ++ y :: Y)
      by (rewrite <- !app_assoc; simpl; now rewrite <- !app_assoc).
    replace (Z.to_nat (Z.of_nat (length pre) + N))
      with (length (map left_of pre ++ left_of p :: X ++ map right_of pre)).
    2:{ rewrite !length_app. simpl. rewrite !length_app, !length_map. lia. }
    rewrite store_middle.
    specialize (IH (pre ++ [p]) X Y).
    rewrite length_app in IH. cbn [length] in IH.
    replace (length pre + 1)%nat with (S (length pre)) in IH by lia.
    rewrite <- IH; try assumption.
    + f_equal. rewrite !map_app. simpl. rewrite <- !app_assoc. simpl.
      now rewrite <- !app_assoc.
    + rewrite E, <- app_assoc. reflexivity.
Qed.

Lemma pairs_to_decoupled_full (output : mem_t) :
  length output = (2 * length joined)%nat ->
  2 * N <= INT_MAX ->
  pairs_to_decoupled output N joined flip_indices =
  Some (if 0 <? N then map left_of joined ++ map right_of joined else output).
Proof.
  intros Hlen HN. unfold pairs_to_decoupled.
  destruct (0 <? N) eqn:Hpos; [|reflexivity].
  rewrite <- (firstn_skipn (length joined) output).
  pose proof (transform_body [] joined (firstn (length joined) output)
                (skipn (length joined) output) eq_refl) as H.
  change (iota N) with (map Z.of_nat (seq 0 (Z.to_nat (Z.of_nat (length joined))))).
  rewrite Nat2Z.id.
  apply H; [| |assumption].
  - rewrite length_firstn. lia.
  - rewrite length_skipn. lia.
Qed.

Lemma decoupled_halves :
  decoupled (map left_of joined ++ map right_of joined) =
  map (fun p => mk_pair (left_of p) (right_of p)) joined.
Proof.
  unfold decoupled. rewrite length_app, !length_map.
  replace (length joined + length joined)%nat with (length joined * 2)%nat by lia.
  rewrite Nat.div_mul by lia.
  rewrite firstn_app, skipn_app, !length_map, Nat.sub_diag. simpl.
  rewrite app_nil_r.
  replace (length joined) with (length (map left_of joined)) at 1 by apply length_map.
  rewrite firstn_all.
  replace (length joined) with (length (map left_of joined)) at 1 by apply length_map.
  rewrite skipn_all. simpl.
  clear. induction joined as [|p l IH]; simpl; [reflexivity|]. now rewrite IH.
Qed.

End Transposer.

Lemma transposed_pairs flip joined output :
  length output = (2 * length joined)%nat ->
  2 * Z.of_nat (length joined) <= INT_MAX ->
  exists output',
    pairs_to_decoupled output (Z.of_nat (length joined)) joined flip = Some output' /\
    length output' = (2 * length joined)%nat /\
    decoupled output' = map (oriented flip) joined.
Proof.
  intros Hlen HN. rewrite pairs_to_decoupled_full by assumption.
  eexists. split; [reflexivity|].
  destruct (0 <? Z.of_nat (length joined)) eqn:Hpos.
  - split.
    + rewrite length_app, !length_map. lia.
    + rewrite decoupled_halves. apply map_ext. intros [i j].
      unfold oriented, swap. now destruct flip.
  - apply Z.ltb_ge in Hpos.
    destruct joined; [|cbn [length] in Hpos; lia].
    destruct output; [|discriminate]. now split.
Qed.

(* ================================================================== *)
(** ** The rules of the program logic *)

Section Rules.

Variables da dt : Prop.
Variable dev : device.
Context {A B : Type}.
Variable R : cudaError_t -> host -> Prop.

Lemma wpd_bind (m : M A) (f : A -> M B) (Q : B -> host -> Prop) h :
  wpd da dt m (fun x h' => wpd da dt (f x) Q R h') R h -> wpd da dt (bind m f) Q R h.
Proof. unfold wpd, bind. now destruct (m h). Qed.

Lemma wpd_mono (m : M A) (Q Q' : A -> host -> Prop) (R' : cudaError_t -> host -> Prop) h :
  wpd da dt m Q R h ->
  (forall x h', Q x h' -> Q' x h') -> (forall e h', R e h' -> R' e h') ->
  wpd da dt m Q' R' h.
Proof. unfold wpd. destruct (m h); auto. Qed.

Lemma wpd_ret (x : A) (Q : A -> host -> Prop) h : Q x h -> wpd da dt (ret x) Q R h.
Proof. exact (fun H => H). Qed.

Lemma wpd_return (e : cudaError_t) (Q : A -> host -> Prop) h :
  R e h -> wpd da dt (return_ e) Q R h.
Proof. exact (fun H => H). Qed.

Lemma wpd_trap (r : trap) (Q : A -> host -> Prop) h : da -> wpd da dt (trap_ r) Q R h.
Proof. exact (fun H => H). Qed.

Lemma wpd_out_of_fuel (Q : A -> host -> Prop) h : dt -> wpd da dt out_of_fuel Q R h.
Proof. exact (fun H => H). Qed.

Lemma wpd_in_bounds (o : option A) (Q : A -> host -> Prop) h :
  match o with Some x => Q x h | None => da end -> wpd da dt (in_bounds o) Q R h.
Proof. destruct o; exact (fun H => H). Qed.

Lemma wpd_CUDA_RT_CALL call (Q : unit -> host -> Prop) h :
  (status dev call = cudaSuccess -> Q tt h) ->
  (status dev call <> cudaSuccess -> R (status dev call) h) ->
  wpd da dt (CUDA_RT_CALL dev call) Q R h.
Proof.
  unfold wpd, CUDA_RT_CALL. intros H1 H2.
  destruct (status dev call =? cudaSuccess) eqn:E; simpl.
  - apply H1. now apply Z.eqb_eq.
  - apply H2. now apply Z.eqb_neq.
Qed.

Lemma wpd_issue call (Q : bool -> host -> Prop) h :
  (status dev call = cudaSuccess -> Q true h) ->
  (status dev call <> cudaSuccess ->
   Q false (mk_host (joined_output h) (status dev call) (trace h))) ->
  wpd da dt (issue dev call) Q R h.
Proof.
  unfold wpd, issue. intros H1 H2.
  destruct (status dev call =? cudaSuccess) eqn:E; simpl.
  - apply H1. now apply Z.eqb_eq.
  - apply H2. now apply Z.eqb_neq.
Qed.

Lemma wpd_cudaGetLastError (Q : cudaError_t -> host -> Prop) h :
  Q (last_error h) (mk_host (joined_output h) cudaSuccess (trace h)) ->
  wpd da dt cudaGetLastError Q R h.
Proof. exact (fun H => H). Qed.

Lemma wpd_log ev (Q : unit -> host -> Prop) h :
  Q tt (mk_host (joined_output h) (last_error h) (trace h ++ [ev])) ->
  wpd da dt (log ev) Q R h.
Proof. exact (fun H => H). Qed.

Lemma wpd_set_joined_output m (Q : unit -> host -> Prop) h :
  Q tt (mk_host m (last_error h) (trace h)) -> wpd da dt (set_joined_output m) Q R h.
Proof. exact (fun H => H). Qed.

Lemma wpd_get_joined_output (Q : mem_t -> host -> Prop) h :
  Q (joined_output h) h -> wpd da dt get_joined_output Q R h.
Proof. exact (fun H => H). Qed.

Lemma wpd_divide x y (Q : Z -> host -> Prop) h :
  (y = 0 -> da) -> (y <> 0 -> Q (to_size_type (Z.quot x y)) h) ->
  wpd da dt (divide x y) Q R h.
Proof.
  unfold wpd, divide. intros H1 H2. destruct (y =? 0) eqn:E; simpl.
  - apply H1. now apply Z.eqb_eq.
  - apply H2. now apply Z.eqb_neq.
Qed.

Lemma wpd_new_mem_t count (Q : mem_t -> host -> Prop) h :
  (count < 0 -> da) ->
  (0 <= count -> Q (repeat (uninit dev) (Z.to_nat count)) h) ->
  wpd da dt (new_mem_t dev count) Q R h.
Proof.
  unfold wpd, new_mem_t. intros H1 H2. destruct (count <? 0) eqn:E; simpl.
  - apply H1. lia.
  - apply H2. lia.
Qed.

End Rules.

(* ================================================================== *)
(** ** Tactics of the program logic *)

(** One step of symbolic execution of the host code. *)
Ltac wp_step :=
  lazymatch goal with
  | |- wpd _ _ (bind _ _) _ _ _ => apply wpd_bind
  | |- wpd _ _ (ret _) _ _ _ => apply wpd_ret
  | |- wpd _ _ (return_ _) _ _ _ => apply wpd_return
  | |- wpd _ _ (CUDA_RT_CALL _ _) _ _ _ => apply wpd_CUDA_RT_CALL; intros ?
  | |- wpd _ _ (issue _ _) _ _ _ => apply wpd_issue; intros ?
  | |- wpd _ _ (cudaGetLastError) _ _ _ => apply wpd_cudaGetLastError
  | |- wpd _ _ (log _) _ _ _ => apply wpd_log
  | |- wpd _ _ (set_joined_output _) _ _ _ => apply wpd_set_joined_output
  | |- wpd _ _ get_joined_output _ _ _ => apply wpd_get_joined_output
  | |- wpd _ _ (new_mem_t _ _) _ _ _ => apply wpd_new_mem_t; intros ?
  | |- wpd _ _ (divide _ _) _ _ _ => apply wpd_divide; intros ?
  | |- wpd _ _ (in_bounds _) _ _ _ => apply wpd_in_bounds
  end.

(** Closes the goals on the state that arise at a [return]. *)
Ltac frame_solve :=
  cbn [joined_output trace last_error];
  repeat match goal with |- _ /\ _ => split end;
  try solve
      [ assumption | reflexivity | eauto
      | intros ? Hs; repeat (apply in_app_or in Hs as [Hs|Hs]); try assumption;
        repeat (destruct Hs as [Hs|Hs]; try discriminate); try assumption;
        contradiction ].

(** A step of symbolic execution on a device where no call fails. *)
Ltac wp_quiet :=
  wp_step;
  try match goal with
      | Hq : no_faults ?dev, H : status ?dev ?call <> cudaSuccess |- _ =>
          exfalso; apply H; apply Hq
      end.

Lemma to_size_type_nonneg z :
  0 <= z < 4294967296 -> 0 <= to_size_type z -> z <= INT_MAX.
Proof.
  unfold to_size_type, INT_MAX. intros Hz H.
  destruct (Z_le_gt_dec z 2147483647) as [Hle|Hgt]; [exact Hle|].
  replace (z + 2147483648) with (z - 2147483648 + 1 * 4294967296) in H by lia.
  rewrite Z_mod_plus_full, Z.mod_small in H by lia. lia.
Qed.

(* ================================================================== *)
(** ** The phases of [GenericJoinHash], on any device *)

Section Phases.

Variables da dt : Prop.
Variable dev : device.
Variable join_type : JoinType.
Variables (a : column) (a_count : Z) (b : column) (b_count : Z).
Variables a2 b2 a3 b3 : option column.
Variable flip_results : bool.


Lemma init_phase_spec h :
  wpd da dt (init_phase dev b b_count)
      (fun r h' =>
         r = (build_hash_tbl (new_multimap (hash_tbl_size b_count)) b b_count,
              cudaSuccess) /\
         h' = mk_host (joined_output h) cudaSuccess
                      (trace h ++ [ev_build_hash_tbl b_count]))
      (fun e h' =>
         reported dev h e /\ same_output h h' /\
         (forall s, In (ev_probe_hash_tbl_count_common s) (trace h') ->
                    In (ev_probe_hash_tbl_count_common s) (trace h)) /\
         (forall s, In (ev_probe_hash_tbl s) (trace h') ->
                    In (ev_probe_hash_tbl s) (trace h)))
      h.
Proof.
  unfold init_phase, reported, same_output.
  wp_step. wp_step; [|frame_solve].
  wp_step. wp_step; [|frame_solve].
  wp_step. wp_step.
  - (* the request for the table is accepted *)
    wp_step. wp_step.
    destruct (negb (last_error h =? cudaSuccess)) eqn:E0; cbn [joined_output trace].
    { wp_step. apply negb_true_iff, Z.eqb_neq in E0. frame_solve. }
    wp_step. wp_step. wp_step. wp_step.
    + wp_step. wp_step. cbn [last_error negb Z.eqb cudaSuccess].
      wp_step. cbn [joined_output trace]. now split.
    + wp_step. wp_step. cbn [last_error joined_output trace].
      destruct (negb (status dev build_hash_tbl_launch =? cudaSuccess)) eqn:E1.
      * wp_step. frame_solve.
      * apply negb_false_iff, Z.eqb_eq in E1. contradiction.
  - (* the request for the table is refused *)
    wp_step. wp_step. cbn [last_error joined_output trace].
    destruct (negb (status dev hash_tbl_prefetch =? cudaSuccess)) eqn:E1.
    + wp_step. frame_solve.
    + apply negb_false_iff, Z.eqb_eq in E1. contradiction.
Qed.

Lemma estimate_loop_frame fuel : forall k hash_tbl error a_sample_size size_ratio h,
  wpd True True (estimate_loop dev join_type a a_count a2 b2 a3 b3 fuel k hash_tbl
                          error a_sample_size size_ratio)
      (fun _ h' => same_output h h') (fun _ h' => same_output h h') h.
Proof.
  unfold same_output.
  induction fuel as [|fuel IH]; intros k hash_tbl error s r h; cbn [estimate_loop].
  - exact I.
  - wp_step. wp_step. wp_step. wp_step; cbv zeta;
    (destruct (negb (error =? cudaSuccess)); [wp_step; frame_solve|]);
    (wp_step; wp_step; [|frame_solve]); (wp_step; wp_step; [|frame_solve]);
    (destruct (_ || _); [wp_step; frame_solve|]);
    (destruct (_ =? 0);
     (eapply wpd_mono; [apply IH| |]; cbv beta; cbn [joined_output]; intros; congruence)).
Qed.

Lemma estimate_frame fuel hash_tbl error h :
  wpd True True (estimate dev join_type a a_count b_count a2 b2 a3 b3 fuel hash_tbl error)
      (fun _ h' => same_output h h') (fun _ h' => same_output h h') h.
Proof.
  unfold estimate. wp_step.
  destruct (to_size_type (5 * b_count) <? a_count).
  - wp_step. wp_step; [exact I|]. wp_step. apply estimate_loop_frame.
  - wp_step. apply estimate_loop_frame.
Qed.

(** The matches the materializing probe has to find. *)
Let found_all (hash_tbl : multimap) : list join_pair :=
  table_matches hash_tbl a a_count a2 b2 a3 b3.

Lemma probe_loop_sound hash_tbl :
  fair dev ->
  Z.of_nat (length (found_all hash_tbl)) <= INT_MAX ->
  forall fuel n scanSize h,
  wpd True True (probe_loop dev join_type a a_count a2 b2 a3 b3 fuel n hash_tbl scanSize)
      (fun r h' =>
         same_output h h' /\
         snd (fst r) = Z.of_nat (length (snd r)) /\
         (length (snd r) <= length (found_all hash_tbl))%nat /\
         incl (snd r) (found_all hash_tbl))
      (fun _ h' => same_output h h') h.
Proof.
  intros Hfair Hbound. unfold same_output.
  induction fuel as [|fuel IH]; intros n scanSize h; cbn [probe_loop].
  - exact I.
  - do 4 (wp_step; wp_step; [|frame_solve]).
    wp_step. wp_step. wp_step. wp_step; cbv zeta.
    + (* the kernel ran *)
      wp_step. wp_step; [|frame_solve].
      unfold probe_hash_tbl. cbn [fst snd].
      fold (found_all hash_tbl).
      pose proof (Permutation_length (Hfair n (found_all hash_tbl))) as Hlen.
      rewrite Hlen, to_size_type_small by (unfold INT_MAX in *; lia).
      destruct (scanSize <? Z.of_nat (length (found_all hash_tbl))) eqn:Hs.
      * wp_step. wp_step; [|frame_solve]. wp_step. wp_step.
        eapply wpd_mono; [apply IH| |]; cbv beta; cbn [joined_output]; intros; 
          intuition congruence.
      * wp_step. cbn [joined_output fst snd].
        rewrite firstn_all2 by lia.
        repeat split; [congruence|lia|].
        intros p Hp. eapply Permutation_in; [apply Hfair|exact Hp].
    + (* the launch was refused *)
      wp_step. wp_step; [|frame_solve]. cbn [fst snd].
      destruct (scanSize <? 0) eqn:Hs.
      * wp_step. wp_step; [|frame_solve]. wp_step. wp_step.
        eapply wpd_mono; [apply IH| |]; cbv beta; cbn [joined_output]; intros; 
          intuition congruence.
      * wp_step. cbn [joined_output fst snd length]. repeat split; [lia|]. intros p [].
Qed.

Lemma transpose_phase_spec error tempOut h :
  Z.of_nat (length tempOut) <= INT_MAX ->
  (INT_MAX < 2 * Z.of_nat (length tempOut) -> da) ->
  wpd da dt (transpose_phase dev flip_results error (Z.of_nat (length tempOut)) tempOut)
      (fun _ _ => False)
      (fun e h' =>
         (e = error \/ reported dev h e) /\
         length (joined_output h') = (2 * length tempOut)%nat /\
         decoupled (joined_output h') = map (oriented flip_results) tempOut /\
         trace h' = trace h ++
                    [ev_alloc_joined_output (2 * Z.of_nat (length tempOut));
                     ev_pairs_to_decoupled (Z.of_nat (length tempOut))])
      h.
Proof.
  intros Hmax Hd. unfold transpose_phase. cbv zeta.
  wp_step. wp_step. wp_step. wp_step.
  { apply Hd. apply Z.nle_gt. intros Hle.
    rewrite to_size_type_small in H by (unfold INT_MAX in *; lia). lia. }
  apply to_size_type_nonneg in H; [|unfold INT_MAX in *; lia].
  rewrite to_size_type_small by (unfold INT_MAX in *; lia).
  wp_step. wp_step. wp_step. wp_step. wp_step. wp_step.
  cbn [joined_output trace last_error].
  destruct (transposed_pairs flip_results tempOut
              (repeat (uninit dev) (Z.to_nat (2 * Z.of_nat (length tempOut)))))
    as (output' & -> & Hlen & Hdec).
  { rewrite repeat_length. lia. }
  { exact H. }
  wp_step. wp_step. wp_step. wp_step. wp_step. wp_step.
  - wp_step. cbn [joined_output trace]. rewrite <- app_assoc. now auto.
  - cbn [joined_output trace]. rewrite <- app_assoc. unfold reported. now eauto 8.
Qed.

End Phases.

(** Soundness of the generic join on any device: a call that returns either
    left the output array alone or wrote pairs of the cross-matching set,
    oriented by [flip_results]. *)
Lemma GenericJoinHash_sound dev join_type a b a2 b2 a3 b3 flip_results fuel h :
  fair dev ->
  Z.of_nat (length (cross_matches a b a2 b2 a3 b3)) <= INT_MAX ->
  wpd True True (GenericJoinHash dev join_type a (Z.of_nat (length a)) b (Z.of_nat (length b))
                            a2 b2 a3 b3 flip_results fuel)
      (fun _ _ => False)
      (fun _ h' =>
         same_output h h' \/
         exists found,
           incl found (cross_matches a b a2 b2 a3 b3) /\
           decoupled (joined_output h') = map (oriented flip_results) found)
      h.
Proof.
  intros Hfair Hbound. unfold GenericJoinHash.
  wp_step. eapply wpd_mono; [apply init_phase_spec| |]; cbv beta.
  2:{ intros e h' H. left. tauto. }
  intros r h1 [-> ->]. cbn [fst snd].
  wp_step. eapply wpd_mono; [apply estimate_frame| |]; cbv beta.
  2:{ intros e h' H. left. exact H. }
  intros est h2 H2. unfold same_output in H2. cbn [joined_output] in H2.
  destruct (fst est =? 0).
  { wp_step. now left. }
  wp_step. eapply wpd_mono; [apply probe_loop_sound| |]; cbv beta.
  - exact Hfair.
  - now rewrite table_matches_full.
  - intros [[error found_n] tempOut] h3 (H3 & Hn & Hlen & Hincl).
    cbn [fst snd] in *. subst found_n.
    rewrite table_matches_full in Hincl, Hlen.
    eapply wpd_mono; [apply transpose_phase_spec; [lia|trivial]| |]; cbv beta.
    + intros _ _ [].
    + intros e h' (_ & _ & Hdec & _). right. exists tempOut. now split.
  - intros e h' H. left. unfold same_output in *. congruence.
Qed.

Lemma fair_quiet_device : fair quiet_device.
Proof. intros n l. apply Permutation_refl. Qed.

Lemma no_faults_quiet_device : no_faults quiet_device.
Proof. intros call. reflexivity. Qed.

Lemma wpd_Return (da dt : Prop) {A} (m : M A) Q R h e h' :
  wpd da dt m Q R h -> m h = Return e h' -> R e h'.
Proof. unfold wpd. intros H E. now rewrite E in H. Qed.


(* ================================================================== *)
(** ** Properties of the estimator of the specification *)

Section SpecEstimator.

Variables (count : Z -> Z) (full : Z).

Lemma spec_estimator_result fuel : forall sample ratio estimated sampled bound,
  1 <= ratio <= bound ->
  spec_estimator count full fuel sample ratio = Some (estimated, sampled) ->
  (0 < estimated \/ sampled = full) /\
  sampled <= full /\
  exists ratio', 1 <= ratio' <= bound /\ estimated = count sampled * ratio'.
Proof.
  induction fuel as [|fuel IH]; intros s r est s' bound Hr E; cbn [spec_estimator] in E.
  - discriminate.
  - cbv zeta in E.
    destruct ((0 <? count (Z.min s full) * r) || (full <=? s)) eqn:C.
    + injection E as <- <-. apply orb_true_iff in C. repeat split.
      * destruct C as [C|C]; [left; lia|right; lia].
      * lia.
      * exists r. now split.
    + eapply IH; [|exact E].
      pose proof (Z.div_pos r 2). pose proof (Z.div_le_upper_bound r 2 r). lia.
Qed.

Lemma spec_estimator_terminates fuel : forall sample ratio,
  0 <= sample -> full <= sample * 2 ^ Z.of_nat fuel ->
  spec_estimator count full (S fuel) sample ratio <> None.
Proof.
  induction fuel as [|fuel IH]; intros s r Hs Hfull; cbn [spec_estimator]; cbv zeta.
  - replace (full <=? s) with true by (simpl in Hfull; lia).
    rewrite orb_true_r. discriminate.
  - destruct ((0 <? count (Z.min s full) * r) || (full <=? s)); [discriminate|].
    apply IH; [lia|].
    rewrite Nat2Z.inj_succ, Z.pow_succ_r in Hfull by lia. lia.
Qed.

Lemma spec_estimator_fuel_mono fuel : forall sample ratio r,
  spec_estimator count full fuel sample ratio = Some r ->
  spec_estimator count full (S fuel) sample ratio = Some r.
Proof.
  induction fuel as [|fuel IH]; intros s ratio r E.
  - discriminate.
  - cbn [spec_estimator] in E |- *. cbv zeta in E |- *.
    destruct ((0 <? count (Z.min s full) * ratio) || (full <=? s)); [exact E|].
    now apply IH.
Qed.

End SpecEstimator.

(* ================================================================== *)
(** ** The phases of [GenericJoinHash], on a device without faults *)

Lemma wpd_strengthen (da dt da' dt' : Prop) {A} (m : M A) Q R h :
  wpd da dt m Q R h -> (da -> da') -> (dt -> dt') -> wpd da' dt' m Q R h.
Proof. unfold wpd. destruct (m h); auto. Qed.

Lemma wpd_eq (da dt : Prop) {A} (m : M A) Q R h :
  wpd da dt m Q R h ->
  wpd da dt m (fun x h' => m h = Next x h' /\ Q x h')
      (fun e h' => m h = Return e h' /\ R e h') h.
Proof. unfold wpd. destruct (m h); auto. Qed.

Section Quiet.

Variable dev : device.
Hypothesis Hquiet : no_faults dev.

Variable join_type : JoinType.
Variables (a : column) (a_count : Z).
Variables a2 b2 a3 b3 : option column.
Variable hash_tbl : multimap.

Let count (s : Z) : Z :=
  probe_hash_tbl_count_common join_type hash_tbl a s a2 b2 a3 b3.
Let matches : Z :=
  Z.of_nat (length (table_matches hash_tbl a a_count a2 b2 a3 b3)).

Variable bound : Z.
Hypothesis Hbound : 1 <= bound <= INT_MAX.
Hypothesis Ha : 0 <= a_count.
Hypothesis Ha2 : 2 * a_count <= INT_MAX.
Hypothesis Hmatches : matches * bound <= INT_MAX.

Lemma count_exact s :
  s <= a_count ->
  count s = Z.of_nat (length (table_matches hash_tbl a s a2 b2 a3 b3)) /\
  0 <= count s <= matches.
Proof.
  intros Hs. unfold count, probe_hash_tbl_count_common.
  assert (Hle : Z.of_nat (length (table_matches hash_tbl a s a2 b2 a3 b3)) <= matches).
  { unfold matches. destruct (Z_le_gt_dec 0 s) as [H0|H0].
    - apply inj_le, table_matches_mono. lia.
    - rewrite table_matches_nonpos by lia. simpl. lia. }
  assert (H0 : 0 <= matches) by (unfold matches; lia).
  assert (H1 : matches <= matches * bound) by nia.
  rewrite to_size_type_small; [lia|]. unfold INT_MAX in *. lia.
Qed.

Lemma estimate_loop_refines fuel : forall k s r h,
  0 <= s -> 1 <= r <= bound ->
  wpd False (spec_estimator count a_count fuel s r = None)
      (estimate_loop dev join_type a a_count a2 b2 a3 b3 fuel k hash_tbl
                     cudaSuccess s r)
      (fun res h' =>
         spec_estimator count a_count fuel s r = Some res /\
         same_output h h' /\ last_error h' = last_error h /\
         exists evs, trace h' = trace h ++ evs /\ count_events evs)
      (fun _ _ => False) h.
Proof.
  unfold same_output.
  induction fuel as [|fuel IH]; intros k s r h Hs Hr;
    cbn [estimate_loop spec_estimator]; cbv zeta.
  - reflexivity.
  - replace (if a_count <? s then a_count else s) with (Z.min s a_count)
      by (destruct (Z.ltb_spec a_count s); lia).
    replace (Z.min s a_count =? a_count) with (a_count <=? s)
      by (destruct (Z.leb_spec a_count s), (Z.eqb_spec (Z.min s a_count) a_count); lia).
    destruct (count_exact (Z.min s a_count)) as [_ Hc]; [lia|].
    fold (count (Z.min s a_count)).
    wp_quiet. wp_quiet. wp_quiet. wp_quiet.
    cbn [negb Z.eqb cudaSuccess].
    wp_quiet. wp_quiet. wp_quiet. wp_quiet.
    rewrite to_size_type_small by (unfold INT_MAX in *; nia).
    destruct ((0 <? count (Z.min s a_count) * r) || (a_count <=? s)) eqn:C.
    + wp_step. cbn [joined_output last_error trace]. repeat split.
      exists [ev_probe_hash_tbl_count_common (Z.min s a_count)].
      split; [reflexivity|]. constructor; [eauto|constructor].
    + apply orb_false_iff in C as [C1 C2].
      replace (count (Z.min s a_count) * r =? 0) with true by nia.
      rewrite to_size_type_small by (unfold INT_MAX in *; lia).
      replace (Z.min s a_count * 2) with (2 * s) by lia.
      replace (if to_size_type (Z.quot r 2) =? 0 then 1 else to_size_type (Z.quot r 2))
        with (Z.max 1 (r / 2)).
      2:{ rewrite Z.quot_div_nonneg by lia.
          pose proof (Z.div_pos r 2). pose proof (Z.div_le_upper_bound r 2 r).
          rewrite to_size_type_small by (unfold INT_MAX in *; lia).
          destruct (Z.eqb_spec (r / 2) 0); lia. }
      eapply wpd_mono; [apply IH| |]; cbv beta; cbn [joined_output last_error trace].
      * lia.
      * pose proof (Z.div_pos r 2). pose proof (Z.div_le_upper_bound r 2 r). lia.
      * intros res h' (E & Ho & He & evs & Ht & Hev). repeat split; try assumption.
        exists (ev_probe_hash_tbl_count_common (Z.min s a_count) :: evs).
        split; [rewrite Ht, <- app_assoc; reflexivity|]. constructor; eauto.
      * intros _ _ [].
Qed.

End Quiet.

Lemma ratio_bound a_count b_count :
  0 <= a_count -> 2 * a_count <= INT_MAX -> 0 <= b_count ->
  1 <= first_ratio a_count b_count <= INT_MAX.
Proof.
  intros Ha Ha2 Hb.
  unfold first_ratio. destruct (5 * b_count <? a_count) eqn:C.
  - apply Z.ltb_lt in C. unfold INT_MAX in *.
    destruct (Z.eq_dec b_count 0) as [->|Hnz].
    + rewrite Z.div_0_r. lia.
    + assert (0 <= a_count / b_count) by (apply Z.div_pos; lia).
      assert (a_count / b_count <= a_count) by (apply Z.div_le_upper_bound; nia).
      lia.
  - unfold INT_MAX. lia.
Qed.

Section QuietPhases.

Variable dev : device.
Hypothesis Hquiet : no_faults dev.
Hypothesis Hfair : fair dev.

Variable join_type : JoinType.
Variables (a : column) (a_count : Z) (b_count : Z).
Variables a2 b2 a3 b3 : option column.
Variable hash_tbl : multimap.

Let count (s : Z) : Z :=
  probe_hash_tbl_count_common join_type hash_tbl a s a2 b2 a3 b3.
Let found : list join_pair := table_matches hash_tbl a a_count a2 b2 a3 b3.
Let matches : Z := Z.of_nat (length found).

Hypothesis Ha : 0 <= a_count.
Hypothesis Ha2 : 2 * a_count <= INT_MAX.
Hypothesis Hb : 0 <= b_count.
Hypothesis Hb5 : 5 * b_count <= INT_MAX.
Hypothesis Hempty : b_count = 0 -> a_count = 0.
Hypothesis Hmatches : matches * first_ratio a_count b_count <= INT_MAX.

Lemma estimate_refines fuel h :
  wpd False (spec_estimate count a_count b_count fuel = None)
      (estimate dev join_type a a_count b_count a2 b2 a3 b3 fuel hash_tbl cudaSuccess)
      (fun res h' =>
         spec_estimate count a_count b_count fuel = Some res /\
         same_output h h' /\ last_error h' = last_error h /\
         exists evs, trace h' = trace h ++ evs /\ count_events evs)
      (fun _ _ => False) h.
Proof.
  pose proof (ratio_bound a_count b_count Ha Ha2 Hb) as Hratio.
  unfold estimate, spec_estimate.
  rewrite to_size_type_small by (unfold INT_MAX in *; lia).
  unfold first_ratio in Hratio, Hmatches.
  destruct (5 * b_count <? a_count) eqn:C.
  - apply Z.ltb_lt in C.
    wp_step. wp_step. wp_step; [lia|]. wp_step.
    rewrite Z.quot_div_nonneg by lia.
    rewrite (to_size_type_small (a_count / b_count)) by (unfold INT_MAX in *; lia).
    rewrite to_size_type_small by (unfold INT_MAX in *; lia).
    cbn [fst snd].
    apply (estimate_loop_refines dev Hquiet join_type a a_count a2 b2 a3 b3 hash_tbl
             (a_count / b_count + 1)); try assumption; lia.
  - wp_step. wp_step. cbn [fst snd].
    apply (estimate_loop_refines dev Hquiet join_type a a_count a2 b2 a3 b3 hash_tbl
             1); try assumption; lia.
Qed.

Lemma spec_estimate_terminates fuel :
  (32 <= fuel)%nat -> spec_estimate count a_count b_count fuel <> None.
Proof.
  intros Hfuel. destruct fuel as [|fuel]; [lia|].
  assert (Hpow : 2147483648 <= 2 ^ Z.of_nat fuel).
  { change 2147483648 with (2 ^ 31). apply Z.pow_le_mono_r; lia. }
  unfold spec_estimate. destruct (5 * b_count <? a_count) eqn:C.
  - apply Z.ltb_lt in C. apply spec_estimator_terminates; [lia|].
    unfold INT_MAX in *. nia.
  - apply spec_estimator_terminates; [lia|]. nia.
Qed.

Lemma spec_estimate_result fuel estimated sampled :
  spec_estimate count a_count b_count fuel = Some (estimated, sampled) ->
  0 <= estimated <= INT_MAX /\
  (0 < estimated \/ sampled = a_count) /\
  (estimated = 0 -> matches = 0) /\
  (matches = 0 -> estimated = 0).
Proof.
  pose proof (ratio_bound a_count b_count Ha Ha2 Hb) as Hratio.
  intros E.
  assert (exists s r, 1 <= r <= first_ratio a_count b_count /\
            spec_estimator count a_count fuel s r = Some (estimated, sampled))
    as (s & r & Hr & E').
  { unfold spec_estimate in E. revert Hratio. unfold first_ratio.
    destruct (5 * b_count <? a_count); intros Hratio.
    - exists b_count, (a_count / b_count + 1). split; [lia|exact E].
    - exists a_count, 1. split; [lia|exact E]. }
  destruct (spec_estimator_result _ _ _ _ _ _ _ _ Hr E')
    as (Hstop & Hle & r' & Hr' & ->).
  assert (Hc : 0 <= count sampled <= matches).
  { apply (count_exact join_type a a_count a2 b2 a3 b3 hash_tbl
             (first_ratio a_count b_count) Hratio Hmatches sampled Hle). }
  assert (Hfull : count a_count = matches).
  { apply (count_exact join_type a a_count a2 b2 a3 b3 hash_tbl
             (first_ratio a_count b_count) Hratio Hmatches a_count (Z.le_refl _)). }
  split; [unfold INT_MAX in *; nia|]. split; [exact Hstop|]. split.
  - intros H0. destruct Hstop as [Hpos|Hs]; [lia|]. subst sampled. nia.
  - intros H0. nia.
Qed.

Hypothesis Hm2 : 2 * matches <= INT_MAX.

Lemma probe_loop_total fuel : forall n scanSize h,
  1 <= scanSize -> matches <= scanSize * 2 ^ Z.of_nat fuel ->
  wpd False False
      (probe_loop dev join_type a a_count a2 b2 a3 b3 (S fuel) n hash_tbl scanSize)
      (fun res h' =>
         exists k : nat,
           res = (cudaSuccess, matches, arrival dev (n + k) found) /\
           same_output h h' /\ last_error h' = last_error h /\
           trace h' = trace h ++ growth scanSize k
                              ++ [ev_probe_hash_tbl (scanSize * 2 ^ Z.of_nat k)] /\
           matches <= scanSize * 2 ^ Z.of_nat k /\
           forall i, (i < k)%nat -> scanSize * 2 ^ Z.of_nat i < matches)
      (fun _ _ => False) h.
Proof using Hquiet Hfair Hm2.
  clear Ha Ha2 Hb Hb5 Hempty Hmatches.
  unfold same_output.
  assert (Hlen : forall n, Z.of_nat (length (arrival dev n found)) = matches).
  { intros n. unfold matches. now rewrite (Permutation_length (Hfair n found)). }
  induction fuel as [|fuel IH]; intros n s h Hs Hfuel; cbn [probe_loop].
  - (* the last attempt allowed: the buffer is large enough *)
    do 4 (wp_quiet; wp_quiet). wp_quiet. wp_quiet. wp_quiet. wp_quiet. cbv zeta.
    wp_quiet. wp_quiet.
    unfold probe_hash_tbl. cbn [fst snd]. fold found. rewrite Hlen.
    rewrite to_size_type_small by (unfold INT_MAX in *; unfold matches in *; lia).
    simpl in Hfuel.
    replace (s <? matches) with false by lia.
    wp_step. exists 0%nat. cbn [joined_output last_error trace growth].
    rewrite Hquiet, Nat.add_0_r, firstn_all2 by (specialize (Hlen n); lia).
    simpl. rewrite Z.mul_1_r. repeat split; try lia.
  - do 4 (wp_quiet; wp_quiet). wp_quiet. wp_quiet. wp_quiet. wp_quiet. cbv zeta.
    wp_quiet. wp_quiet.
    unfold probe_hash_tbl. cbn [fst snd]. fold found. rewrite Hlen.
    rewrite to_size_type_small by (unfold INT_MAX in *; unfold matches in *; lia).
    destruct (s <? matches) eqn:C.
    + (* the buffer is too small *)
      apply Z.ltb_lt in C.
      wp_quiet. wp_quiet. wp_quiet. wp_quiet.
      rewrite to_size_type_small by (unfold INT_MAX in *; lia).
      eapply wpd_mono; [apply IH| |]; cbv beta; cbn [joined_output last_error trace].
      * lia.
      * rewrite Nat2Z.inj_succ, Z.pow_succ_r in Hfuel by lia. lia.
      * intros res h' (k & -> & Ho & He & Ht & Hk & Hi).
        exists (S k). rewrite Nat.add_succ_r.
        rewrite Nat2Z.inj_succ, Z.pow_succ_r by lia.
        replace (s * (2 * 2 ^ Z.of_nat k)) with (s * 2 * 2 ^ Z.of_nat k) by lia.
        repeat split; try assumption.
        -- rewrite Ht. cbn [growth]. rewrite <- !app_assoc.
           replace (2 * s) with (s * 2) by lia. reflexivity.
        -- intros [|i] Hlt.
           ++ simpl. lia.
           ++ rewrite Nat2Z.inj_succ, Z.pow_succ_r by lia.
              specialize (Hi i). lia.
      * intros _ _ [].
    + apply Z.ltb_ge in C.
      wp_step. exists 0%nat. cbn [joined_output last_error trace growth].
      rewrite Hquiet, Nat.add_0_r, firstn_all2 by (specialize (Hlen n); lia).
      simpl. rewrite Z.mul_1_r. repeat split; try lia.
Qed.

End QuietPhases.

(* ================================================================== *)
(** ** The generic join on a device without faults *)

Section QuietJoin.

Variable dev : device.
Hypothesis Hquiet : no_faults dev.
Hypothesis Hfair : fair dev.

Variable join_type : JoinType.
Variables (a b : column).
Variables a2 b2 a3 b3 : option column.
Variable flip_results : bool.

Let a_count : Z := Z.of_nat (length a).
Let b_count : Z := Z.of_nat (length b).
Let hash_tbl : multimap :=
  build_hash_tbl (new_multimap (hash_tbl_size b_count)) b b_count.
Let count (s : Z) : Z :=
  probe_hash_tbl_count_common join_type hash_tbl a s a2 b2 a3 b3.
Let found : list join_pair := cross_matches a b a2 b2 a3 b3.
Let matches : Z := Z.of_nat (length found).

Hypothesis Ha2 : 2 * a_count <= INT_MAX.
Hypothesis Hb5 : 5 * b_count <= INT_MAX.
Hypothesis Hempty : b_count = 0 -> a_count = 0.
Hypothesis Hmatches : matches * first_ratio a_count b_count <= INT_MAX.
Hypothesis Hm2 : 2 * matches <= INT_MAX.

Lemma GenericJoinHash_total fuel h :
  (32 <= fuel)%nat -> last_error h = cudaSuccess ->
  wpd False False
      (GenericJoinHash dev join_type a a_count b b_count a2 b2 a3 b3 flip_results fuel)
      (fun _ _ => False)
      (fun e h' =>
         e = cudaSuccess /\
         exists estimated sampled evs h2,
           let h1 := mk_host (joined_output h) cudaSuccess
                             (trace h ++ [ev_build_hash_tbl b_count]) in
           init_phase dev b b_count h = Next (hash_tbl, cudaSuccess) h1 /\
           estimate dev join_type a a_count b_count a2 b2 a3 b3 fuel hash_tbl
                    cudaSuccess h1 = Next (estimated, sampled) h2 /\
           spec_estimate count a_count b_count fuel = Some (estimated, sampled) /\
           count_events evs /\
           same_output h h2 /\
           trace h2 = trace h ++ [ev_build_hash_tbl b_count] ++ evs /\
           ((matches = 0 /\ estimated = 0 /\ sampled = a_count /\ h' = h2)
            \/
            (0 < matches /\ 0 < estimated /\
             exists k : nat,
               length (joined_output h') = (2 * length found)%nat /\
               decoupled (joined_output h') =
                 map (oriented flip_results) (arrival dev k found) /\
               trace h' = trace h2 ++ growth estimated k
                                   ++ [ev_probe_hash_tbl (estimated * 2 ^ Z.of_nat k);
                                       ev_alloc_joined_output (2 * matches);
                                       ev_pairs_to_decoupled matches] /\
               matches <= estimated * 2 ^ Z.of_nat k /\
               forall i, (i < k)%nat -> estimated * 2 ^ Z.of_nat i < matches)))
      h.
Proof.
  intros Hfuel Herr.
  assert (Hfound : table_matches hash_tbl a a_count a2 b2 a3 b3 = found).
  { apply table_matches_full. }
  assert (Ha : 0 <= a_count) by (unfold a_count; lia).
  assert (Hb : 0 <= b_count) by (unfold b_count; lia).
  assert (Hmatches' :
            Z.of_nat (length (table_matches hash_tbl a a_count a2 b2 a3 b3))
            * first_ratio a_count b_count <= INT_MAX).
  { rewrite Hfound. exact Hmatches. }
  assert (Hm2' :
            2 * Z.of_nat (length (table_matches hash_tbl a a_count a2 b2 a3 b3))
            <= INT_MAX).
  { rewrite Hfound. exact Hm2. }
  unfold GenericJoinHash.
  wp_step. eapply wpd_mono; [apply wpd_eq, init_phase_spec| |]; cbv beta.
  2:{ intros e h' (_ & [Hne [He|[call He]]] & _); [congruence|].
      rewrite Hquiet in He. contradiction. }
  intros r h1 (Hinit & -> & ->). cbn [fst snd]. fold hash_tbl in Hinit |- *.
  wp_step.
  pose proof (estimate_refines dev Hquiet join_type a a_count b_count a2 b2 a3 b3
                hash_tbl Ha Ha2 Hb Hb5 Hempty Hmatches' fuel
                (mk_host (joined_output h) cudaSuccess
                         (trace h ++ [ev_build_hash_tbl b_count]))) as Hest.
  apply (wpd_strengthen _ _ False False) in Hest;
    [|tauto|apply spec_estimate_terminates; assumption].
  eapply wpd_mono; [apply wpd_eq; exact Hest| |]; cbv beta; [|intros _ _ [_ []]].
  intros [estimated sampled] h2 (Hrun2 & Hspec & Ho2 & He2 & evs & Ht2 & Hevs).
  cbn [joined_output last_error trace fst snd] in *.
  rewrite <- app_assoc in Ht2.
  destruct (spec_estimate_result join_type a a_count b_count a2 b2 a3 b3 hash_tbl
              Ha Ha2 Hb Hempty Hmatches' fuel estimated sampled Hspec)
    as (Hrange & Hstop & Hzero & Hzero').
  rewrite Hfound in Hzero, Hzero'. fold matches in Hzero, Hzero'.
  destruct (Z.eqb_spec estimated 0) as [E0|E0].
  - (* no match: the call returns at once *)
    wp_step. split; [reflexivity|].
    exists estimated, sampled, evs, h2. cbv zeta. repeat split; try assumption.
    left. repeat split; try tauto.
    destruct Hstop; [lia|assumption].
  - (* the materializing probe, then the transposition *)
    destruct fuel as [|fuel']; [lia|].
    wp_step.
    eapply wpd_mono;
      [apply (probe_loop_total dev Hquiet Hfair join_type a a_count a2 b2 a3 b3
                hash_tbl Hm2' fuel' 0%nat estimated h2)| |];
      cbv beta; [lia| |  |intros _ _ []].
    { rewrite Hfound. fold matches.
      assert (2147483648 <= 2 ^ Z.of_nat fuel').
      { change 2147483648 with (2 ^ 31). apply Z.pow_le_mono_r; lia. }
      unfold INT_MAX in *. nia. }
    intros res h3 (k & -> & Ho3 & He3 & Ht3 & Hk & Hi).
    rewrite Hfound in *. fold matches in Hk, Hi.
    unfold same_output in Ho3. cbn [fst snd]. rewrite Nat.add_0_l.
    assert (Hlen : length (arrival dev k found) = length found).
    { apply Permutation_length, Hfair. }
    rewrite <- Hlen.
    eapply wpd_mono; [apply transpose_phase_spec| |]; cbv beta.
    + rewrite Hlen. fold matches. unfold INT_MAX in *. lia.
    + rewrite Hlen. fold matches. lia.
    + intros _ _ [].
    + intros e h' (He & Hl & Hdec & Ht). split.
      * destruct He as [He|[Hne [He|[call He]]]]; [exact He|congruence|].
        rewrite Hquiet in He. contradiction.
      * exists estimated, sampled, evs, h2. cbv zeta. repeat split; try assumption.
        right. repeat split; try lia.
        exists k. rewrite Hl, Hdec, Ht, Ht3, Hlen.
        fold matches. repeat split; try assumption.
        rewrite <- !app_assoc. reflexivity.
Qed.

End QuietJoin.

(* ================================================================== *)
(** ** Complete results *)

Lemma wpd_total_Return {A} (m : M A) R h :
  wpd False False m (fun _ _ => False) R h -> exists e h', m h = Return e h' /\ R e h'.
Proof. unfold wpd. destruct (m h); try contradiction. eauto. Qed.

Lemma wpd_total_Next {A} (m : M A) Q h :
  wpd False False m Q (fun _ _ => False) h -> exists x h', m h = Next x h' /\ Q x h'.
Proof. unfold wpd. destruct (m h); try contradiction. eauto. Qed.

Lemma cross_matches_nil_l b a2 b2 a3 b3 : cross_matches [] b a2 b2 a3 b3 = [].
Proof. reflexivity. Qed.

Lemma cross_matches_length_swap a b a2 b2 a3 b3 :
  length (cross_matches b a b2 a2 b3 a3) = length (cross_matches a b a2 b2 a3 b3).
Proof.
  rewrite <- (Permutation_length (cross_matches_swap a b a2 b2 a3 b3)).
  apply length_map.
Qed.

Lemma fits_size_type_generic a b a2 b2 a3 b3 :
  fits_size_type a b (Z.of_nat (length (cross_matches a b a2 b2 a3 b3))) ->
  2 * Z.of_nat (length a) <= INT_MAX /\
  5 * Z.of_nat (length b) <= INT_MAX /\
  Z.of_nat (length (cross_matches a b a2 b2 a3 b3))
  * first_ratio (Z.of_nat (length a)) (Z.of_nat (length b)) <= INT_MAX /\
  2 * Z.of_nat (length (cross_matches a b a2 b2 a3 b3)) <= INT_MAX.
Proof. unfold fits_size_type. intuition lia. Qed.

Lemma fits_size_type_swap a b a2 b2 a3 b3 :
  fits_size_type a b (Z.of_nat (length (cross_matches a b a2 b2 a3 b3))) ->
  fits_size_type b a (Z.of_nat (length (cross_matches b a b2 a2 b3 a3))).
Proof.
  rewrite cross_matches_length_swap. unfold fits_size_type. intuition lia.
Qed.

Section Complete.

Variable dev : device.
Hypothesis Hquiet : no_faults dev.
Hypothesis Hfair : fair dev.

Lemma GenericJoinHash_complete join_type a b a2 b2 a3 b3 flip_results fuel h :
  fits_size_type a b (Z.of_nat (length (cross_matches a b a2 b2 a3 b3))) ->
  (b = [] -> a = []) ->
  (32 <= fuel)%nat -> last_error h = cudaSuccess ->
  exists h',
    GenericJoinHash dev join_type a (Z.of_nat (length a)) b (Z.of_nat (length b))
                    a2 b2 a3 b3 flip_results fuel h = Return cudaSuccess h' /\
    (cross_matches a b a2 b2 a3 b3 = [] -> same_output h h') /\
    (joined_output h = [] \/ cross_matches a b a2 b2 a3 b3 <> [] ->
     length (joined_output h') = (2 * length (cross_matches a b a2 b2 a3 b3))%nat /\
     Permutation (decoupled (joined_output h'))
                 (map (oriented flip_results) (cross_matches a b a2 b2 a3 b3))).
Proof.
  intros Hfits Hempty Hfuel Herr.
  destruct (fits_size_type_generic _ _ _ _ _ _ Hfits) as (Ha2 & Hb5 & Hm & Hm2).
  assert (Hempty' : Z.of_nat (length b) = 0 -> Z.of_nat (length a) = 0).
  { intros Hb. destruct b; [|discriminate]. now rewrite Hempty. }
  destruct (wpd_total_Return _ _ _
              (GenericJoinHash_total dev Hquiet Hfair join_type a b a2 b2 a3 b3
                 flip_results Ha2 Hb5 Hempty' Hm Hm2 fuel h Hfuel Herr))
    as (e & h' & Hrun & -> & est & sampled & evs & h2 & _ & _ & _ & _ & Hsame & _ & Hcase).
  exists h'. split; [exact Hrun|].
  destruct Hcase as [(H0 & _ & _ & ->)|(Hpos & _ & k & Hlen & Hdec & _)].
  - split; [intros _; exact Hsame|].
    destruct (cross_matches a b a2 b2 a3 b3); [|discriminate].
    intros [Hout|Hne]; [|contradiction].
    unfold same_output in Hsame. rewrite Hsame, Hout. now split.
  - split.
    + intros Hnil. rewrite Hnil in Hpos. simpl in Hpos. lia.
    + intros _. split; [exact Hlen|]. rewrite Hdec. apply Permutation_map, Hfair.
Qed.


Lemma InnerJoinHash_complete a b a2 b2 a3 b3 fuel h :
  fits_size_type a b (Z.of_nat (length (cross_matches a b a2 b2 a3 b3))) ->
  (a = [] <-> b = []) ->
  (32 <= fuel)%nat -> last_error h = cudaSuccess ->
  exists h',
    InnerJoinHash dev fuel a (Z.of_nat (length a)) b (Z.of_nat (length b))
                  a2 b2 a3 b3 h = Return cudaSuccess h' /\
    (cross_matches a b a2 b2 a3 b3 = [] -> same_output h h') /\
    (joined_output h = [] \/ cross_matches a b a2 b2 a3 b3 <> [] ->
     length (joined_output h') = (2 * length (cross_matches a b a2 b2 a3 b3))%nat /\
     Permutation (decoupled (joined_output h')) (cross_matches a b a2 b2 a3 b3)).
Proof.
  intros Hfits Hempty Hfuel Herr. unfold InnerJoinHash.
  assert (Hnil : cross_matches b a b2 a2 b3 a3 = [] <->
                 cross_matches a b a2 b2 a3 b3 = []).
  { rewrite <- !length_zero_iff_nil. now rewrite cross_matches_length_swap. }
  destruct (Z.of_nat (length a) <? Z.of_nat (length b)).
  - (* the table is built over the left column *)
    destruct (GenericJoinHash_complete INNER_JOIN b a b2 a2 b3 a3 true fuel h)
      as (h' & Hrun & Hsame & Hres); try assumption; try tauto.
    { now apply fits_size_type_swap. }
    exists h'. split; [exact Hrun|]. split; [tauto|].
    intros H. destruct Hres as [Hlen Hperm]; [tauto|].
    rewrite cross_matches_length_swap in Hlen. split; [exact Hlen|].
    eapply Permutation_trans; [exact Hperm|]. apply cross_matches_swap.
  - destruct (GenericJoinHash_complete INNER_JOIN a b a2 b2 a3 b3 false fuel h)
      as (h' & Hrun & Hsame & Hres); try assumption; try tauto.
    exists h'. split; [exact Hrun|]. split; [exact Hsame|].
    intros H. apply Hres in H. unfold oriented in H. rewrite map_id in H. exact H.
Qed.

End Complete.

(* ================================================================== *)
(** ** The layout of a transposed output *)






(* ================================================================== *)
(** ** Devices with one failing call *)

(* ================================================================== *)
(** ** An empty column to build over *)

(** With no row to build over and rows to probe, the call does not reach the
    estimate loop on any device: either a call before it is refused and its
    status returned, or the ratio divides by zero. *)
Lemma build_over_empty_column dev join_type a a_count b a2 b2 a3 b3 flip_results fuel h :
  to_size_type (5 * 0) < a_count ->
  match GenericJoinHash dev join_type a a_count b 0 a2 b2 a3 b3 flip_results fuel h with
  | Return e _ => e <> cudaSuccess
  | Trap r => r = DivideByZero
  | Next _ _ => False
  | OutOfFuel => False
  end.
Proof.
  intros Hlt.
  pose proof (init_phase_spec False False dev b 0 h) as Hinit.
  unfold GenericJoinHash, bind. unfold wpd in Hinit.
  destruct (init_phase dev b 0 h) as [[hash_tbl error] h1|e h1|r|].
  - destruct Hinit as [Hr _]. injection Hr as -> ->. cbn [fst snd].
    unfold estimate, bind, divide.
    apply Z.ltb_lt in Hlt. rewrite Hlt. reflexivity.
  - destruct Hinit as [[Hne _] _]. exact Hne.
  - destruct Hinit.
  - destruct Hinit.
Qed.

(* ================================================================== *)
(** ** Joins whose build side is not empty *)

(** The result of the inner join is complete and symmetric: on a device
    without faults, for columns whose sizes fit [size_type] and that are both
    empty or both non-empty, the pairs of the output of [InnerJoinHash] are
    exactly the cross-matching pairs of the two columns, whichever column the
    table was built over, and joining the columns the other way round yields
    the same pairs with the two indices swapped. *)
Lemma InnerJoinHash_complete_and_symmetric dev fuel a b a2 b2 a3 b3 :
  no_faults dev -> fair dev ->
  fits_size_type a b (Z.of_nat (length (cross_matches a b a2 b2 a3 b3))) ->
  (a = [] <-> b = []) ->
  (32 <= fuel)%nat ->
  exists h h',
    InnerJoinHash dev fuel a (Z.of_nat (length a)) b (Z.of_nat (length b))
                  a2 b2 a3 b3 fresh_host = Return cudaSuccess h /\
    InnerJoinHash dev fuel b (Z.of_nat (length b)) a (Z.of_nat (length a))
                  b2 a2 b3 a3 fresh_host = Return cudaSuccess h' /\
    Permutation (decoupled (joined_output h)) (cross_matches a b a2 b2 a3 b3) /\
    Permutation (decoupled (joined_output h')) (map swap (decoupled (joined_output h))).
Proof.
  intros Hquiet Hfair Hfits Hempty Hfuel.
  destruct (InnerJoinHash_complete dev Hquiet Hfair a b a2 b2 a3 b3 fuel fresh_host)
    as (h & Hrun & _ & Hres); try assumption; try reflexivity.
  destruct (InnerJoinHash_complete dev Hquiet Hfair b a b2 a2 b3 a3 fuel fresh_host)
    as (h' & Hrun' & _ & Hres'); try assumption; try reflexivity.
  { now apply fits_size_type_swap. }
  { tauto. }
  destruct Hres as [_ Hperm]; [now left|].
  destruct Hres' as [_ Hperm']; [now left|].
  exists h, h'. repeat split; try assumption.
  eapply Permutation_trans; [exact Hperm'|].
  eapply Permutation_trans; [apply Permutation_sym, cross_matches_swap|].
  apply Permutation_map, Permutation_sym, Hperm.
Qed.

(** Without a matching pair, and with a build side that is not empty unless
    both sides are, the estimate ends at 0 after the counting probe has run
    over the whole probed column, and the call returns success at once: the
    output array is as the caller passed it and the only device work issued
    is the build of the table and counting probes. *)
Lemma GenericJoinHash_no_match dev join_type a b a2 b2 a3 b3 flip_results fuel h :
  no_faults dev ->
  2 * Z.of_nat (length a) <= INT_MAX ->
  5 * Z.of_nat (length b) <= INT_MAX ->
  (b = [] -> a = []) ->
  cross_matches a b a2 b2 a3 b3 = [] ->
  (32 <= fuel)%nat ->
  last_error h = cudaSuccess ->
  exists hash_tbl h1 h',
    init_phase dev b (Z.of_nat (length b)) h = Next (hash_tbl, cudaSuccess) h1 /\
    estimate dev join_type a (Z.of_nat (length a)) (Z.of_nat (length b)) a2 b2 a3 b3
             fuel hash_tbl cudaSuccess h1 = Next (0, Z.of_nat (length a)) h' /\
    GenericJoinHash dev join_type a (Z.of_nat (length a)) b (Z.of_nat (length b))
                    a2 b2 a3 b3 flip_results fuel h = Return cudaSuccess h' /\
    joined_output h' = joined_output h /\
    exists evs,
      trace h' = trace h ++ ev_build_hash_tbl (Z.of_nat (length b)) :: evs /\
      count_events evs.
Proof.
  intros Hquiet Ha2 Hb5 Hempty Hnone Hfuel Herr.
  set (a_count := Z.of_nat (length a)) in *.
  set (b_count := Z.of_nat (length b)) in *.
  set (hash_tbl := build_hash_tbl (new_multimap (hash_tbl_size b_count)) b b_count).
  assert (Hfound : table_matches hash_tbl a a_count a2 b2 a3 b3 = []).
  { unfold hash_tbl, a_count, b_count. now rewrite table_matches_full. }
  assert (Ha : 0 <= a_count) by (unfold a_count; lia).
  assert (Hb : 0 <= b_count) by (unfold b_count; lia).
  assert (Hempty' : b_count = 0 -> a_count = 0).
  { unfold a_count, b_count. intros E. destruct b; [|discriminate]. now rewrite Hempty. }
  assert (Hm : Z.of_nat (length (table_matches hash_tbl a a_count a2 b2 a3 b3))
               * first_ratio a_count b_count <= INT_MAX).
  { rewrite Hfound. unfold INT_MAX. simpl. lia. }
  (* the table is built *)
  assert (Hinit : wpd False False (init_phase dev b b_count)
                        (fun r h' =>
                           r = (hash_tbl, cudaSuccess) /\
                           h' = mk_host (joined_output h) cudaSuccess
                                        (trace h ++ [ev_build_hash_tbl b_count]))
                        (fun _ _ => False) h).
  { eapply wpd_mono; [apply (init_phase_spec False False)| |]; cbv beta.
    - intros r h1 H. exact H.
    - intros e h' ([Hne [He|[call He]]] & _); [congruence|].
      rewrite Hquiet in He. contradiction. }
  apply wpd_total_Next in Hinit. destruct Hinit as (r & h1 & Hinit & -> & ->).
  (* the estimate *)
  pose proof (estimate_refines dev Hquiet join_type a a_count b_count a2 b2 a3 b3
                hash_tbl Ha Ha2 Hb Hb5 Hempty' Hm fuel
                (mk_host (joined_output h) cudaSuccess
                         (trace h ++ [ev_build_hash_tbl b_count]))) as Hest.
  apply (wpd_strengthen _ _ False False) in Hest;
    [|tauto|apply spec_estimate_terminates; assumption].
  apply wpd_total_Next in Hest.
  destruct Hest as ([estimated sampled] & h' & Hest & Hspec & Hsame & _ & evs & Ht & Hevs).
  destruct (spec_estimate_result join_type a a_count b_count a2 b2 a3 b3 hash_tbl
              Ha Ha2 Hb Hempty' Hm fuel estimated sampled Hspec)
    as (_ & Hstop & _ & Hzero).
  rewrite Hfound in Hzero. specialize (Hzero eq_refl). subst estimated.
  destruct Hstop as [Hpos| ->]; [lia|].
  exists hash_tbl, (mk_host (joined_output h) cudaSuccess
                            (trace h ++ [ev_build_hash_tbl b_count])), h'.
  unfold same_output in Hsame. cbn [joined_output trace] in Hsame, Ht.
  repeat split.
  - exact Hinit.
  - exact Hest.
  - unfold GenericJoinHash, bind. rewrite Hinit. cbn [fst snd].
    fold hash_tbl. rewrite Hest. reflexivity.
  - exact Hsame.
  - exists evs. split; [|exact Hevs]. rewrite Ht, <- app_assoc. reflexivity.
Qed.

Example no_match_in_eleven_rows :
  LeftJoinHash quiet_device 32 [1; 9; 7; 7; 7; 7; 7; 7; 7; 7; 7] 11 [3; 4] 2
               None None None None (mk_host [9; 9] cudaSuccess [])
  = Return cudaSuccess
           (mk_host [9; 9] cudaSuccess
                    [ev_build_hash_tbl 2; ev_probe_hash_tbl_count_common 2;
                     ev_probe_hash_tbl_count_common 4;
                     ev_probe_hash_tbl_count_common 8;
                     ev_probe_hash_tbl_count_common 11]).
Proof. reflexivity. Qed.

(** The estimate of [GenericJoinHash] and the estimator of the specification,
    where the quotient of the first step has a value. *)
Lemma estimate_agrees_with_spec_estimate
      dev join_type a a_count b_count a2 b2 a3 b3 hash_tbl fuel h :
  no_faults dev ->
  0 <= a_count -> 2 * a_count <= INT_MAX ->
  0 <= b_count -> 5 * b_count <= INT_MAX ->
  (b_count = 0 -> a_count = 0) ->
  Z.of_nat (length (table_matches hash_tbl a a_count a2 b2 a3 b3))
  * first_ratio a_count b_count <= INT_MAX ->
  match estimate dev join_type a a_count b_count a2 b2 a3 b3 fuel hash_tbl cudaSuccess h with
  | Next (scanSize, a_sample_size) h' =>
      spec_estimate
        (fun s => probe_hash_tbl_count_common join_type hash_tbl a s a2 b2 a3 b3)
        a_count b_count fuel = Some (scanSize, a_sample_size) /\
      (0 < scanSize \/ a_sample_size = a_count) /\
      same_output h h'
  | OutOfFuel =>
      spec_estimate
        (fun s => probe_hash_tbl_count_common join_type hash_tbl a s a2 b2 a3 b3)
        a_count b_count fuel = None /\
      (fuel < 32)%nat
  | Trap _ => False
  | Return _ _ => False
  end.
Proof.
  intros Hquiet Ha Ha2 Hb Hb5 Hempty Hm.
  pose proof (estimate_refines dev Hquiet join_type a a_count b_count a2 b2 a3 b3
                hash_tbl Ha Ha2 Hb Hb5 Hempty Hm fuel h) as Hest.
  pose proof (spec_estimate_terminates join_type a a_count b_count a2 b2 a3 b3
                hash_tbl Ha Ha2 Hb Hempty fuel) as Hterm.
  unfold wpd in Hest.
  destruct (estimate dev join_type a a_count b_count a2 b2 a3 b3 fuel hash_tbl
                     cudaSuccess h) as [[scanSize a_sample_size] h'|e h'|r|].
  - destruct Hest as (Hspec & Hsame & _). repeat split; try assumption.
    now destruct (spec_estimate_result join_type a a_count b_count a2 b2 a3 b3
                    hash_tbl Ha Ha2 Hb Hempty Hm fuel scanSize a_sample_size Hspec)
      as (_ & Hstop & _).
  - exact Hest.
  - exact Hest.
  - split; [exact Hest|]. destruct (Nat.le_gt_cases 32 fuel) as [Hle|Hlt]; [|exact Hlt].
    exfalso. now apply Hterm.
Qed.

(* ================================================================== *)
(** ** An estimate that does not fit [size_type] *)

Lemma wpd_OutOfFuel {A} (m : M A) h :
  wpd False True m (fun _ _ => False) (fun _ _ => False) h -> m h = OutOfFuel.
Proof. unfold wpd. destruct (m h); try contradiction. reflexivity. Qed.

(** A negative estimate on a partial sample neither ends the loop nor
    changes the sample: the same probe is launched again, for ever. *)
Lemma estimate_loop_stuck dev join_type a a_count a2 b2 a3 b3 hash_tbl s r :
  no_faults dev ->
  s < a_count ->
  to_size_type (probe_hash_tbl_count_common join_type hash_tbl a s a2 b2 a3 b3 * r) < 0 ->
  forall fuel k h,
    wpd False True
        (estimate_loop dev join_type a a_count a2 b2 a3 b3 fuel k hash_tbl cudaSuccess s r)
        (fun _ _ => False) (fun _ _ => False) h.
Proof.
  intros Hquiet Hs Hneg.
  induction fuel as [|fuel IH]; intros k h; cbn [estimate_loop]; cbv zeta.
  - exact I.
  - replace (if a_count <? s then a_count else s) with s
      by (destruct (Z.ltb_spec a_count s); lia).
    wp_quiet. wp_quiet. wp_quiet. wp_quiet. cbn [negb Z.eqb cudaSuccess].
    wp_quiet. wp_quiet. wp_quiet. wp_quiet.
    replace (0 <? _) with false by lia.
    replace (s =? a_count) with false by lia. cbn [orb].
    replace (_ =? 0) with false by lia.
    apply IH.
Qed.

Lemma at_row_repeat key n tail i :
  0 <= i < Z.of_nat n -> at_row (repeat key n ++ tail) i = key.
Proof.
  intros Hi. unfold at_row. apply nth_error_nth.
  rewrite nth_error_app1 by (rewrite repeat_length; lia).
  apply nth_error_repeat. lia.
Qed.

Lemma flat_map_constant_length {A B} (f : A -> list B) (n : nat) (l : list A) :
  (forall x, In x l -> length (f x) = n) ->
  length (flat_map f l) = (length l * n)%nat.
Proof.
  induction l as [|x l IH]; intros H; simpl; [reflexivity|].
  rewrite length_app, (H x) by (left; reflexivity).
  rewrite IH by (intros y Hy; apply H; right; exact Hy). reflexivity.
Qed.

Lemma filter_all {A} (p : A -> bool) (l : list A) :
  (forall x, In x l -> p x = true) -> filter p l = l.
Proof.
  induction l as [|x l IH]; intros H; simpl; [reflexivity|].
  rewrite (H x) by (left; reflexivity).
  rewrite IH by (intros y Hy; apply H; right; exact Hy). reflexivity.
Qed.

Lemma filter_none {A} (p : A -> bool) (l : list A) :
  (forall x, In x l -> p x = false) -> filter p l = [].
Proof.
  induction l as [|x l IH]; intros H; simpl; [reflexivity|].
  rewrite (H x) by (left; reflexivity).
  apply IH. intros y Hy. apply H. right. exact Hy.
Qed.

(** With one key in all [m] rows of the build column and in the first [n]
    rows of the probe column, each of these rows matches every entry. *)
Lemma table_matches_one_key c key n m tail :
  length (table_matches (build_hash_tbl (new_multimap c) (repeat key m) (Z.of_nat m))
                        (repeat key n ++ tail) (Z.of_nat n) None None None None)
  = (n * m)%nat.
Proof.
  unfold table_matches.
  rewrite (flat_map_constant_length _ m).
  - rewrite iota_length, Nat2Z.id. reflexivity.
  - intros i Hi. apply iota_In in Hi. unfold row_matches.
    rewrite length_map, filter_all.
    + cbn [build_hash_tbl new_multimap entries app].
      now rewrite length_map, iota_length, Nat2Z.id.
    + cbn [build_hash_tbl new_multimap entries app]. intros e He.
      apply in_map_iff in He as (j & <- & Hj). apply iota_In in Hj.
      cbn [fst snd component_eq]. rewrite at_row_repeat by assumption.
      rewrite <- (app_nil_r (repeat key m)), at_row_repeat by assumption.
      now rewrite Z.eqb_refl.
Qed.

Lemma clustered_count join_type c :
  probe_hash_tbl_count_common join_type
    (build_hash_tbl (new_multimap c) clustered_build_column 1024)
    clustered_probe_column 1024 None None None None = 1048576.
Proof.
  unfold probe_hash_tbl_count_common, clustered_build_column, clustered_probe_column.
  change 1024 with (Z.of_nat (Z.to_nat 1024)) at 2 4.
  rewrite table_matches_one_key, Nat2Z.inj_mul, !Z2Nat.id by lia. reflexivity.
Qed.

Lemma at_row_repeat_tail key other n t i :
  Z.of_nat n <= i < Z.of_nat (n + t) -> at_row (repeat key n ++ repeat other t) i = other.
Proof.
  intros Hi. unfold at_row. apply nth_error_nth.
  rewrite nth_error_app2 by (rewrite repeat_length; lia).
  apply nth_error_repeat. rewrite repeat_length. lia.
Qed.

(** When the rows after the first [n] have another key, the first [n] rows
    hold all the matches. *)
Lemma cross_matches_clustered key other n m t :
  key <> other ->
  length (cross_matches (repeat key n ++ repeat other t) (repeat key m)
                        None None None None) = (n * m)%nat.
Proof.
  intros Hne.
  rewrite <- (table_matches_full 0), length_app, !repeat_length.
  unfold table_matches, iota.
  rewrite Nat2Z.id, seq_app, map_app, flat_map_app, length_app.
  pose proof (table_matches_one_key 0 key n m (repeat other t)) as H1.
  unfold table_matches, iota in H1. rewrite Nat2Z.id in H1. rewrite H1.
  rewrite (flat_map_constant_length _ 0%nat); [lia|].
  intros i Hi. apply in_map_iff in Hi as (j & <- & Hj). apply in_seq in Hj.
  unfold row_matches. rewrite length_map.
  rewrite filter_none; [reflexivity|].
  cbn [build_hash_tbl new_multimap entries app]. intros e He.
  apply in_map_iff in He as (x & <- & Hx). apply iota_In in Hx.
  cbn [fst snd component_eq].
  rewrite at_row_repeat_tail by lia.
  rewrite <- (app_nil_r (repeat key m)), at_row_repeat by assumption.
  destruct (Z.eqb_spec key other); [contradiction|reflexivity].
Qed.

(* ================================================================== *)
(** ** Runs on small inputs *)

(** The inner join builds its table over the smaller column and flips the
    pairs back: the first half of the output refers to the left column. *)
Example inner_join_of_four_and_five_rows :
  InnerJoinHash quiet_device 32 [1; 2; 3; 2] 4 [2; 2; 5; 1; 7] 5
                None None None None fresh_host
  = Return cudaSuccess
           (mk_host [1; 3; 1; 3; 0; 0; 0; 1; 1; 3] cudaSuccess
                    [ev_build_hash_tbl 4; ev_probe_hash_tbl_count_common 5;
                     ev_probe_hash_tbl 5; ev_alloc_joined_output 10;
                     ev_pairs_to_decoupled 5]).
Proof. reflexivity. Qed.

(** Skewed keys: the sample of two rows gives the estimate 6 for 10 matches;
    the buffer is freed once and the probe run again with 12 slots. *)
Example skewed_keys_grow_the_buffer_once :
  LeftJoinHash quiet_device 32 [1; 9; 7; 7; 7; 7; 7; 7; 7; 7; 7] 11 [1; 7] 2
               None None None None fresh_host
  = Return cudaSuccess
           (mk_host [0; 2; 3; 4; 5; 6; 7; 8; 9; 10; 0; 1; 1; 1; 1; 1; 1; 1; 1; 1]
                    cudaSuccess
                    [ev_build_hash_tbl 2; ev_probe_hash_tbl_count_common 2;
                     ev_probe_hash_tbl 6; ev_free_tempOut 6;
                     ev_probe_hash_tbl 12; ev_alloc_joined_output 20;
                     ev_pairs_to_decoupled 10]).
Proof. reflexivity. Qed.

(** A second key column restricts the matches of the first. *)
Example composite_keys :
  LeftJoinHash quiet_device 32 [1; 1; 2] 3 [1; 1; 2] 3
               (Some [5; 6; 7]) (Some [6; 5; 7]) None None fresh_host
  = Return cudaSuccess
           (mk_host [0; 1; 2; 1; 0; 2] cudaSuccess
                    [ev_build_hash_tbl 3; ev_probe_hash_tbl_count_common 3;
                     ev_probe_hash_tbl 3; ev_alloc_joined_output 6;
                     ev_pairs_to_decoupled 3]).
Proof. reflexivity. Qed.

(** Another order of arrival gives the same pairs in another order. *)
Example reversed_arrival :
  LeftJoinHash (mk_device (fun _ => cudaSuccess) (fun _ l => rev l) 77) 32
               [1; 1; 2] 3 [1; 1; 2] 3 None None None None fresh_host
  = Return cudaSuccess
           (mk_host [2; 1; 1; 0; 0; 2; 1; 0; 1; 0] cudaSuccess
                    [ev_build_hash_tbl 3; ev_probe_hash_tbl_count_common 3;
                     ev_probe_hash_tbl 5; ev_alloc_joined_output 10;
                     ev_pairs_to_decoupled 5]).
Proof. reflexivity. Qed.

Example pairs_to_decoupled_flipped :
  pairs_to_decoupled [0; 0; 0; 0; 0; 0] 3
                     [mk_pair 10 20; mk_pair 11 21; mk_pair 12 22] true
  = Some [20; 21; 22; 10; 11; 12].
Proof. reflexivity. Qed.

Example hash_tbl_size_largest_exact : hash_tbl_size 1073741823 = 2147483646.
Proof. reflexivity. Qed.

(* ================================================================== *)
(** ** The properties of the specification *)

(** C1. Every pair (i, j) of the result of [InnerJoinHash] or [LeftJoinHash]
    joins a row i of the left column with a row j of the right column whose
    keys are equal, in every key component that is supplied: a call that
    returns either left the caller's output array as it was, or every pair of
    the transposed output is such a pair. *)
Theorem joined_pairs_have_equal_keys dev fuel a b a2 b2 a3 b3 h e h' :
  fair dev ->
  Z.of_nat (length (cross_matches a b a2 b2 a3 b3)) <= INT_MAX ->
  InnerJoinHash dev fuel a (Z.of_nat (length a)) b (Z.of_nat (length b))
                a2 b2 a3 b3 h = Return e h' \/
  LeftJoinHash dev fuel a (Z.of_nat (length a)) b (Z.of_nat (length b))
               a2 b2 a3 b3 h = Return e h' ->
  joined_output h' = joined_output h \/
  forall p, In p (decoupled (joined_output h')) ->
    0 <= first p < Z.of_nat (length a) /\
    0 <= second p < Z.of_nat (length b) /\
    at_row a (first p) = at_row b (second p) /\
    component_agree a2 b2 (first p) (second p) /\
    component_agree a3 b3 (first p) (second p).
Proof.
  intros Hfair Hbound Hrun.
  assert (Hdirect : forall jt,
    GenericJoinHash dev jt a (Z.of_nat (length a)) b (Z.of_nat (length b))
                    a2 b2 a3 b3 false fuel h = Return e h' ->
    joined_output h' = joined_output h \/
    forall p, In p (decoupled (joined_output h')) ->
              In p (cross_matches a b a2 b2 a3 b3)).
  { intros jt E.
    pose proof (wpd_Return _ _ _ _ _ _ _ _
                  (GenericJoinHash_sound dev jt a b a2 b2 a3 b3 false fuel h
                                         Hfair Hbound) E) as [H|(found & Hin & Hdec)].
    - now left.
    - right. intros p Hp. rewrite Hdec in Hp. apply in_map_iff in Hp as [q [<- Hq]].
      now apply Hin. }
  assert (Hswapped :
    GenericJoinHash dev INNER_JOIN b (Z.of_nat (length b)) a (Z.of_nat (length a))
                    b2 a2 b3 a3 true fuel h = Return e h' ->
    joined_output h' = joined_output h \/
    forall p, In p (decoupled (joined_output h')) ->
              In p (cross_matches a b a2 b2 a3 b3)).
  { intros E.
    assert (Hbound' : Z.of_nat (length (cross_matches b a b2 a2 b3 a3)) <= INT_MAX).
    { rewrite <- (Permutation_length (cross_matches_swap a b a2 b2 a3 b3)), length_map.
      exact Hbound. }
    pose proof (wpd_Return _ _ _ _ _ _ _ _
                  (GenericJoinHash_sound dev INNER_JOIN b a b2 a2 b3 a3 true fuel h
                                         Hfair Hbound') E) as [H|(found & Hin & Hdec)].
    - now left.
    - right. intros p Hp. rewrite Hdec in Hp. apply in_map_iff in Hp as [q [<- Hq]].
      apply Hin in Hq.
      apply (Permutation_in _ (cross_matches_swap b a b2 a2 b3 a3)).
      now apply in_map. }
  assert (Hin : joined_output h' = joined_output h \/
                forall p, In p (decoupled (joined_output h')) ->
                          In p (cross_matches a b a2 b2 a3 b3)).
  { destruct Hrun as [E|E].
    - unfold InnerJoinHash in E.
      destruct (Z.of_nat (length a) <? Z.of_nat (length b)); eauto.
    - unfold LeftJoinHash in E. eauto. }
  destruct Hin as [H|H]; [now left|right].
  intros p Hp. apply H, cross_matches_In in Hp. unfold keys_agree in Hp. tauto.
Qed.

Lemma joined_pairs_have_equal_keys_witness :
  [1; 3; 1; 3; 0; 0; 0; 1; 1; 3] = [] \/
  forall p, In p (decoupled [1; 3; 1; 3; 0; 0; 0; 1; 1; 3]) ->
    0 <= first p < 4 /\ 0 <= second p < 5 /\
    at_row [1; 2; 3; 2] (first p) = at_row [2; 2; 5; 1; 7] (second p) /\
    component_agree None None (first p) (second p) /\
    component_agree None None (first p) (second p).
Proof.
  apply (joined_pairs_have_equal_keys quiet_device 10 [1; 2; 3; 2] [2; 2; 5; 1; 7]
           None None None None fresh_host 0
           (mk_host [1; 3; 1; 3; 0; 0; 0; 1; 1; 3] 0
                    [ev_build_hash_tbl 4; ev_probe_hash_tbl_count_common 5;
                     ev_probe_hash_tbl 5; ev_alloc_joined_output 10;
                     ev_pairs_to_decoupled 5])
           fair_quiet_device).
  - vm_compute. discriminate.
  - left. vm_compute. reflexivity.
Defined.

(** C2. The pairs of the inner join should be exactly the cross-matching pairs
    for every two columns, with the same pairs, indices swapped, when the
    columns are exchanged.  They are not when exactly one column is empty: the
    cross-matching set is empty, but [InnerJoinHash] builds its table over the
    empty column in both orders, and the estimate divides by its row count.
    No call that builds over an empty column while the other is not empty
    returns success, on any device. *)
Theorem inner_join_with_one_empty_column_is_not_complete dev fuel h :
  cross_matches [1] [] None None None None = [] /\
  cross_matches [] [1] None None None None = [] /\
  InnerJoinHash quiet_device fuel [1] 1 [] 0 None None None None fresh_host
  = Trap DivideByZero /\
  InnerJoinHash quiet_device fuel [] 0 [1] 1 None None None None fresh_host
  = Trap DivideByZero /\
  match InnerJoinHash dev fuel [1] 1 [] 0 None None None None h with
  | Return e _ => e <> cudaSuccess
  | Trap r => r = DivideByZero
  | Next _ _ => False
  | OutOfFuel => False
  end.
Proof.
  repeat apply conj; try reflexivity.
  apply (build_over_empty_column dev INNER_JOIN [1] 1 [] None None None None false fuel h).
  unfold to_size_type. simpl. lia.
Qed.

(** C3. An empty column on either side should give no match and a success
    status.  The code does not get that far when the column the table is built
    over is empty and the other one is not: [a_count > 5 * b_count] holds with
    [b_count = 0], and the ratio [a_count / b_count + 1] divides by zero.
    This happens for the left join with an empty right column and, because
    the inner join builds over the smaller column, for the inner join as soon
    as exactly one column is empty.  Where the device refuses a call before
    the estimate, the status returned is that of the refused call: no device
    makes such a call return success. *)
Theorem empty_build_column_divides_by_zero dev fuel h :
  LeftJoinHash quiet_device fuel [1; 2; 3] 3 [] 0 None None None None fresh_host
  = Trap DivideByZero /\
  InnerJoinHash quiet_device fuel [1; 2; 3] 3 [] 0 None None None None fresh_host
  = Trap DivideByZero /\
  InnerJoinHash quiet_device fuel [] 0 [1; 2; 3] 3 None None None None fresh_host
  = Trap DivideByZero /\
  match LeftJoinHash dev fuel [1; 2; 3] 3 [] 0 None None None None h with
  | Return e _ => e <> cudaSuccess
  | Trap r => r = DivideByZero
  | Next _ _ => False
  | OutOfFuel => False
  end.
Proof.
  repeat apply conj; try reflexivity.
  apply (build_over_empty_column dev LEFT_JOIN [1; 2; 3] 3 [] None None None None false fuel h).
  unfold to_size_type. simpl. lia.
Qed.

(** C4. Without a matching pair the estimate should end at 0 and the call
    return at once with no result.  With an empty column to build over and a
    non-empty column to probe there is no matching pair, but the estimate
    never gets a value: the ratio [a_count / b_count + 1] is computed first
    and divides by zero.  On every other input without a match the claim
    holds ([GenericJoinHash_no_match]). *)
Theorem no_match_with_empty_build_column_has_no_estimate dev join_type fuel h :
  cross_matches [7; 8] [] None None None None = [] /\
  estimate quiet_device join_type [7; 8] 2 0 None None None None fuel
           (build_hash_tbl (new_multimap (hash_tbl_size 0)) [] 0) cudaSuccess
           (mk_host [] cudaSuccess [ev_build_hash_tbl 0])
  = Trap DivideByZero /\
  GenericJoinHash quiet_device join_type [7; 8] 2 [] 0 None None None None false
                  fuel fresh_host
  = Trap DivideByZero /\
  match GenericJoinHash dev join_type [7; 8] 2 [] 0 None None None None false fuel h with
  | Return e _ => e <> cudaSuccess
  | Trap r => r = DivideByZero
  | Next _ _ => False
  | OutOfFuel => False
  end.
Proof.
  repeat apply conj; try reflexivity.
  apply (build_over_empty_column dev join_type [7; 8] 2 [] None None None None false fuel h).
  unfold to_size_type. simpl. lia.
Qed.



(** C6. The estimator should follow the steps of the specification for
    every input: the estimate is the counter of the counting probe times the
    ratio, and the loop ends as soon as the estimate is positive.  The code
    computes the product in [size_type].  Take a build column of 1024 rows
    with one key and a probe column of [2^21] rows whose first 1024 rows
    have that key (the join has [2^20] pairs): the sample is the first 1024
    rows, the ratio 2049 and the counter [2^20]; the estimate of the
    specification, 2148532224, is positive and ends the loop, but in
    [size_type] the product is -2146435072, which neither ends the loop nor
    doubles the sample: the same counting probe is launched again, without
    end, and the join never returns. *)
Theorem estimate_that_overflows_never_ends fuel out tr :
  Z.of_nat (length clustered_probe_column) = 2097152 /\
  Z.of_nat (length clustered_build_column) = 1024 /\
  Z.of_nat (length (cross_matches clustered_probe_column clustered_build_column
                                  None None None None)) = 1048576 /\
  probe_hash_tbl_count_common
    LEFT_JOIN (build_hash_tbl (new_multimap (hash_tbl_size 1024)) clustered_build_column 1024)
    clustered_probe_column 1024 None None None None = 1048576 /\
  to_size_type (1048576 * (2097152 / 1024 + 1)) = -2146435072 /\
  spec_estimate
    (fun s => probe_hash_tbl_count_common
                LEFT_JOIN
                (build_hash_tbl (new_multimap (hash_tbl_size 1024))
                                clustered_build_column 1024)
                clustered_probe_column s None None None None)
    2097152 1024 (S fuel) = Some (2148532224, 1024) /\
  estimate quiet_device LEFT_JOIN clustered_probe_column 2097152 1024
           None None None None fuel
           (build_hash_tbl (new_multimap (hash_tbl_size 1024)) clustered_build_column 1024)
           cudaSuccess (mk_host out cudaSuccess tr) = OutOfFuel /\
  LeftJoinHash quiet_device fuel clustered_probe_column 2097152
               clustered_build_column 1024 None None None None
               (mk_host out cudaSuccess tr) = OutOfFuel.
Proof.
  pose proof (clustered_count LEFT_JOIN (hash_tbl_size 1024)) as Hcount.
  assert (Hest : forall h,
             wpd False True
                 (estimate quiet_device LEFT_JOIN clustered_probe_column 2097152 1024
                           None None None None fuel
                           (build_hash_tbl (new_multimap (hash_tbl_size 1024))
                                           clustered_build_column 1024)
                           cudaSuccess)
                 (fun _ _ => False) (fun _ _ => False) h).
  { intros h. unfold estimate.
    replace (to_size_type (5 * 1024) <? 2097152) with true by reflexivity.
    wp_step. wp_step. wp_step; [discriminate|]. wp_step. cbn [fst snd].
    replace (to_size_type (to_size_type (2097152 ÷ 1024) + 1)) with 2049 by reflexivity.
    apply estimate_loop_stuck.
    - exact no_faults_quiet_device.
    - lia.
    - rewrite Hcount. reflexivity. }
  split; [|split; [|split; [|split; [|split; [|split; [|split]]]]]].
  - unfold clustered_probe_column. rewrite length_app, !repeat_length. lia.
  - unfold clustered_build_column. rewrite repeat_length. lia.
  - unfold clustered_probe_column, clustered_build_column.
    rewrite cross_matches_clustered by discriminate.
    rewrite Nat2Z.inj_mul, !Z2Nat.id by lia. reflexivity.
  - exact Hcount.
  - reflexivity.
  - unfold spec_estimate.
    replace (5 * 1024 <? 2097152) with true by reflexivity.
    cbn [spec_estimator]. cbv zeta.
    replace (Z.min 1024 2097152) with 1024 by reflexivity.
    rewrite Hcount. reflexivity.
  - apply wpd_OutOfFuel, Hest.
  - apply wpd_OutOfFuel. unfold LeftJoinHash, GenericJoinHash.
    wp_step. apply (wpd_strengthen False False); [|intros []|intros []].
    eapply wpd_mono; [apply (init_phase_spec False False)| |]; cbv beta.
    + intros r h1 [-> ->]. cbn [fst snd].
      wp_step. eapply wpd_mono; [apply Hest| |]; cbv beta; intros _ _ [].
    + intros e h' ([Hne [He|[call He]]] & _); cbn [last_error] in *; [congruence|].
      now rewrite no_faults_quiet_device in He.
Qed.



(** C8. The status of the device should be checked right after every kernel
    launch and a failure should end the call with that status.  The launch of
    the build kernel is handled so.  After the launch of the counting probe
    the code tests the variable [error] without reading the status of the
    device into it: when that launch fails, the call goes on and returns
    success with no result although the columns match.  After the
    materializing probe the status is kept but not tested: the output array
    is still reallocated and transposed before the status is returned. *)
Theorem counting_probe_launch_failure_is_not_reported :
  (* the build kernel fails: the status is returned at once *)
  LeftJoinHash (only_fails build_hash_tbl_launch 9) 32 [1] 1 [1] 1
               None None None None fresh_host
  = Return 9 (mk_host [] cudaSuccess [ev_build_hash_tbl 1]) /\
  (* the counting probe fails: success, and nothing is joined *)
  LeftJoinHash (only_fails (probe_hash_tbl_count_common_launch 0) 9) 32 [1] 1 [1] 1
               None None None None fresh_host
  = Return cudaSuccess
           (mk_host [] 9 [ev_build_hash_tbl 1; ev_probe_hash_tbl_count_common 1]) /\
  (* the same call when nothing fails *)
  LeftJoinHash quiet_device 32 [1] 1 [1] 1 None None None None fresh_host
  = Return cudaSuccess
           (mk_host [0; 0] cudaSuccess
                    [ev_build_hash_tbl 1; ev_probe_hash_tbl_count_common 1;
                     ev_probe_hash_tbl 1; ev_alloc_joined_output 2;
                     ev_pairs_to_decoupled 1]) /\
  (* the materializing probe fails: the remaining stages still run *)
  LeftJoinHash (only_fails (cudaDeviceSynchronize 0) 700) 32 [1] 1 [1] 1
               None None None None fresh_host
  = Return 700
           (mk_host [0; 0] cudaSuccess
                    [ev_build_hash_tbl 1; ev_probe_hash_tbl_count_common 1;
                     ev_probe_hash_tbl 1; ev_alloc_joined_output 2;
                     ev_pairs_to_decoupled 1]).
Proof. repeat apply conj; reflexivity. Qed.

(** C9, as stated, fails for large row counts: the quotient is computed in
    [size_t] but narrowed to [size_type]; for [b_count = 2^30] the exact value
    [2^31] does not fit and the capacity is negative. *)
Lemma hash_tbl_capacity_wraps :
  capacity (new_multimap (hash_tbl_size 1073741824)) = -2147483648 /\
  1073741824 * 100 / DEFAULT_HASH_TBL_OCCUPANCY = 2147483648.
Proof. split; reflexivity. Qed.

(** C9, amended. For every row count [b_count] of the build side between 0
    and [2^30 - 1], the table that [GenericJoinHash] builds has the capacity
    [b_count * 100 / DEFAULT_HASH_TBL_OCCUPANCY], computed exactly, which is
    [2 * b_count] for the default occupancy of 50 percent. *)
Theorem hash_tbl_capacity_is_twice_the_row_count dev b b_count h hash_tbl error h' :
  0 <= b_count <= 1073741823 ->
  init_phase dev b b_count h = Next (hash_tbl, error) h' ->
  capacity hash_tbl = b_count * 100 / DEFAULT_HASH_TBL_OCCUPANCY /\
  capacity hash_tbl = 2 * b_count /\
  DEFAULT_HASH_TBL_OCCUPANCY = 50.
Proof.
  intros Hrange Hinit.
  pose proof (init_phase_spec True True dev b b_count h) as Hspec.
  unfold wpd in Hspec. rewrite Hinit in Hspec. destruct Hspec as [Hr _].
  injection Hr as -> _. cbn [capacity build_hash_tbl new_multimap].
  rewrite hash_tbl_size_exact by assumption.
  unfold DEFAULT_HASH_TBL_OCCUPANCY. repeat split.
  replace (b_count * 100) with (2 * b_count * 50) by lia.
  now rewrite Z.div_mul by lia.
Qed.

Lemma hash_tbl_capacity_is_twice_the_row_count_witness :
  capacity (build_hash_tbl (new_multimap (hash_tbl_size 5)) [4; 8; 15; 16; 23] 5)
  = 5 * 100 / DEFAULT_HASH_TBL_OCCUPANCY /\
  capacity (build_hash_tbl (new_multimap (hash_tbl_size 5)) [4; 8; 15; 16; 23] 5)
  = 2 * 5 /\
  DEFAULT_HASH_TBL_OCCUPANCY = 50.
Proof.
  apply (hash_tbl_capacity_is_twice_the_row_count quiet_device [4; 8; 15; 16; 23] 5
           fresh_host
           (build_hash_tbl (new_multimap (hash_tbl_size 5)) [4; 8; 15; 16; 23] 5)
           cudaSuccess
           (mk_host [] cudaSuccess [ev_build_hash_tbl 5])).
  - lia.
  - reflexivity.
Defined.

(** C10, as stated, fails on the paths that reach the materializing probe
    and leave its loop through a runtime call that fails: here the copy of
    the counter back to the host is refused after the probe has run, and the
    call returns that status with the caller's array as it was. *)
Lemma probe_reached_and_output_untouched :
  LeftJoinHash (only_fails (cudaMemcpy_joined_idx 0) 4) 32 [1] 1 [1] 1
               None None None None (mk_host [9; 9; 9] cudaSuccess [])
  = Return 4 (mk_host [9; 9; 9] cudaSuccess
                      [ev_build_hash_tbl 1; ev_probe_hash_tbl_count_common 1;
                       ev_probe_hash_tbl 1]).
Proof. reflexivity. Qed.

(** C10, amended.  What a call of [GenericJoinHash] does to the caller's
    output array depends on the estimate and on the loop of the
    materializing probe.  When the estimate ends at 0 the call returns
    success in the very state in which the estimate left it, and in that
    state the array is the one the caller passed: it is neither resized nor
    reallocated.  When the estimate is not 0 and the loop of the
    materializing probe ends with [h_actual_found] pairs, the call does
    return, having reallocated the array with [2 * h_actual_found] entries
    (twice the number of matches being within [size_type]); when the loop is
    left through a runtime call that fails, the call returns that status
    with the array as the caller passed it.  All of this holds on every
    device. *)
Theorem zero_estimate_leaves_output_untouched
        dev join_type a b a2 b2 a3 b3 flip_results fuel h
        hash_tbl error h1 scanSize a_sample_size h2 :
  fair dev ->
  Z.of_nat (length (cross_matches a b a2 b2 a3 b3)) <= INT_MAX ->
  init_phase dev b (Z.of_nat (length b)) h = Next (hash_tbl, error) h1 ->
  estimate dev join_type a (Z.of_nat (length a)) (Z.of_nat (length b)) a2 b2 a3 b3
           fuel hash_tbl error h1 = Next (scanSize, a_sample_size) h2 ->
  joined_output h2 = joined_output h /\
  (scanSize = 0 ->
   GenericJoinHash dev join_type a (Z.of_nat (length a)) b (Z.of_nat (length b))
                   a2 b2 a3 b3 flip_results fuel h = Return cudaSuccess h2) /\
  (scanSize <> 0 ->
   forall error' h_actual_found tempOut h3,
     probe_loop dev join_type a (Z.of_nat (length a)) a2 b2 a3 b3 fuel 0 hash_tbl
                scanSize h2 = Next (error', h_actual_found, tempOut) h3 ->
     2 * Z.of_nat (length (cross_matches a b a2 b2 a3 b3)) <= INT_MAX ->
     exists e h',
       GenericJoinHash dev join_type a (Z.of_nat (length a)) b (Z.of_nat (length b))
                       a2 b2 a3 b3 flip_results fuel h = Return e h' /\
       Z.of_nat (length (joined_output h')) = 2 * h_actual_found /\
       trace h' = trace h3 ++ [ev_alloc_joined_output (2 * h_actual_found);
                               ev_pairs_to_decoupled h_actual_found]) /\
  (scanSize <> 0 ->
   forall e h3,
     probe_loop dev join_type a (Z.of_nat (length a)) a2 b2 a3 b3 fuel 0 hash_tbl
                scanSize h2 = Return e h3 ->
     GenericJoinHash dev join_type a (Z.of_nat (length a)) b (Z.of_nat (length b))
                     a2 b2 a3 b3 flip_results fuel h = Return e h3 /\
     joined_output h3 = joined_output h).
Proof.
  intros Hfair Hbound Hinit Hest.
  (* the table and the state after its build *)
  pose proof (init_phase_spec True True dev b (Z.of_nat (length b)) h) as Hi.
  unfold wpd in Hi. rewrite Hinit in Hi. destruct Hi as [Hr Hh1].
  injection Hr as -> ->.
  (* the estimate leaves the output alone *)
  pose proof (estimate_frame dev join_type a (Z.of_nat (length a)) (Z.of_nat (length b))
                a2 b2 a3 b3 fuel
                (build_hash_tbl (new_multimap (hash_tbl_size (Z.of_nat (length b)))) b
                                (Z.of_nat (length b)))
                cudaSuccess h1) as He.
  unfold wpd in He. rewrite Hest in He. unfold same_output in He.
  assert (Hout : joined_output h2 = joined_output h).
  { rewrite He, Hh1. reflexivity. }
  assert (Hbound' :
            Z.of_nat (length (table_matches
                                (build_hash_tbl
                                   (new_multimap (hash_tbl_size (Z.of_nat (length b))))
                                   b (Z.of_nat (length b)))
                                a (Z.of_nat (length a)) a2 b2 a3 b3)) <= INT_MAX).
  { rewrite table_matches_full. exact Hbound. }
  pose proof (probe_loop_sound dev join_type a (Z.of_nat (length a)) a2 b2 a3 b3
                (build_hash_tbl (new_multimap (hash_tbl_size (Z.of_nat (length b)))) b
                                (Z.of_nat (length b)))
                Hfair Hbound' fuel 0%nat scanSize h2) as Hp.
  unfold wpd in Hp.
  assert (Hrun : scanSize <> 0 ->
            GenericJoinHash dev join_type a (Z.of_nat (length a)) b (Z.of_nat (length b))
                            a2 b2 a3 b3 flip_results fuel h
            = bind (probe_loop dev join_type a (Z.of_nat (length a)) a2 b2 a3 b3 fuel 0
                               (build_hash_tbl
                                  (new_multimap (hash_tbl_size (Z.of_nat (length b))))
                                  b (Z.of_nat (length b)))
                               scanSize)
                   (fun found =>
                      transpose_phase dev flip_results (fst (fst found)) (snd (fst found))
                                      (snd found)) h2).
  { intros Hne. unfold GenericJoinHash. unfold bind at 1. rewrite Hinit. cbn [fst snd].
    unfold bind at 1. rewrite Hest. cbn [fst snd].
    replace (scanSize =? 0) with false by (symmetry; now apply Z.eqb_neq).
    reflexivity. }
  split; [exact Hout|]. split; [|split].
  - intros ->. unfold GenericJoinHash, bind. rewrite Hinit. cbn [fst snd].
    rewrite Hest. reflexivity.
  - intros Hne error' h_actual_found tempOut h3 Hprobe Hm2.
    rewrite Hprobe in Hp. cbn [fst snd] in Hp.
    destruct Hp as (_ & -> & Hlen & _). rewrite table_matches_full in Hlen.
    destruct (wpd_total_Return _ _ _
                (transpose_phase_spec False False dev flip_results error' tempOut h3
                   ltac:(lia) ltac:(lia)))
      as (e & h' & Ht & _ & Hl & _ & Htrace).
    exists e, h'. rewrite (Hrun Hne). unfold bind. rewrite Hprobe. cbn [fst snd].
    split; [exact Ht|]. split; [rewrite Hl; lia|exact Htrace].
  - intros Hne e h3 Hprobe. rewrite Hprobe in Hp. unfold same_output in Hp.
    rewrite (Hrun Hne). unfold bind. rewrite Hprobe. split; [reflexivity|congruence].
Qed.

Lemma zero_estimate_leaves_output_untouched_witness :
  GenericJoinHash quiet_device INNER_JOIN [1; 9; 7] 3 [3; 4] 2
                  None None None None false 32 (mk_host [9; 9; 9] cudaSuccess [])
  = Return cudaSuccess
           (mk_host [9; 9; 9] cudaSuccess
                    [ev_build_hash_tbl 2; ev_probe_hash_tbl_count_common 3]) /\
  (exists e h',
      GenericJoinHash quiet_device LEFT_JOIN [5; 6; 5] 3 [5; 5] 2
                      None None None None false 32 (mk_host [9; 9; 9] cudaSuccess [])
      = Return e h' /\
      Z.of_nat (length (joined_output h')) = 2 * 4 /\
      trace h' = [ev_build_hash_tbl 2; ev_probe_hash_tbl_count_common 3;
                  ev_probe_hash_tbl 4]
                 ++ [ev_alloc_joined_output (2 * 4); ev_pairs_to_decoupled 4]) /\
  (GenericJoinHash (only_fails (cudaMemcpy_joined_idx 0) 4) LEFT_JOIN [1] 1 [1] 1
                   None None None None false 32 (mk_host [9; 9; 9] cudaSuccess [])
   = Return 4 (mk_host [9; 9; 9] cudaSuccess
                       [ev_build_hash_tbl 1; ev_probe_hash_tbl_count_common 1;
                        ev_probe_hash_tbl 1]) /\
   [9; 9; 9] = [9; 9; 9]).
Proof.
  split; [|split].
  - (* the estimate ends at 0 *)
    apply (proj1 (proj2
             (zero_estimate_leaves_output_untouched quiet_device INNER_JOIN
                [1; 9; 7] [3; 4] None None None None false 32
                (mk_host [9; 9; 9] cudaSuccess [])
                (build_hash_tbl (new_multimap 4) [3; 4] 2) cudaSuccess
                (mk_host [9; 9; 9] cudaSuccess [ev_build_hash_tbl 2])
                0 3
                (mk_host [9; 9; 9] cudaSuccess
                         [ev_build_hash_tbl 2; ev_probe_hash_tbl_count_common 3])
                fair_quiet_device
                ltac:(vm_compute; discriminate) eq_refl eq_refl))
             eq_refl).
  - (* the estimate is 4 and the probe finds 4 pairs *)
    apply (proj1 (proj2 (proj2
             (zero_estimate_leaves_output_untouched quiet_device LEFT_JOIN
                [5; 6; 5] [5; 5] None None None None false 32
                (mk_host [9; 9; 9] cudaSuccess [])
                (build_hash_tbl (new_multimap 4) [5; 5] 2) cudaSuccess
                (mk_host [9; 9; 9] cudaSuccess [ev_build_hash_tbl 2])
                4 3
                (mk_host [9; 9; 9] cudaSuccess
                         [ev_build_hash_tbl 2; ev_probe_hash_tbl_count_common 3])
                fair_quiet_device
                ltac:(vm_compute; discriminate) eq_refl eq_refl)))
             ltac:(discriminate) cudaSuccess 4
             [mk_pair 0 0; mk_pair 0 1; mk_pair 2 0; mk_pair 2 1]
             (mk_host [9; 9; 9] cudaSuccess
                      [ev_build_hash_tbl 2; ev_probe_hash_tbl_count_common 3;
                       ev_probe_hash_tbl 4])
             eq_refl ltac:(vm_compute; discriminate)).
  - (* the copy of the counter is refused after the probe *)
    apply (proj2 (proj2 (proj2
             (zero_estimate_leaves_output_untouched
                (only_fails (cudaMemcpy_joined_idx 0) 4) LEFT_JOIN
                [1] [1] None None None None false 32
                (mk_host [9; 9; 9] cudaSuccess [])
                (build_hash_tbl (new_multimap 2) [1] 1) cudaSuccess
                (mk_host [9; 9; 9] cudaSuccess [ev_build_hash_tbl 1])
                1 1
                (mk_host [9; 9; 9] cudaSuccess
                         [ev_build_hash_tbl 1; ev_probe_hash_tbl_count_common 1])
                ltac:(intros n l; apply Permutation_refl)
                ltac:(vm_compute; discriminate) eq_refl eq_refl)))
             ltac:(discriminate) 4
             (mk_host [9; 9; 9] cudaSuccess
                      [ev_build_hash_tbl 1; ev_probe_hash_tbl_count_common 1;
                       ev_probe_hash_tbl 1])
             eq_refl).
Defined.

(* ================================================================== *)
(** ** The transposer on arrays of any size *)

Lemma store_in_bounds m i v m' : store m i v = Some m' -> (i < length m)%nat.
Proof.
  revert i m'. induction m as [|x m IH]; intros [|i] m' H; simpl in H; try discriminate.
  - simpl. lia.
  - destruct (store m i v) eqn:E; [|discriminate]. apply IH in E. simpl. lia.
Qed.

Lemma transform_length (k : Z -> mem_t -> option mem_t) :
  (forall i x y, k i x = Some y -> length y = length x) ->
  forall indices m m', transform k indices m = Some m' -> length m' = length m.
Proof.
  intros Hk. induction indices as [|i l IH]; intros m m' H; simpl in H.
  - now inversion H.
  - destruct (k i m) eqn:E; [|discriminate].
    rewrite (IH _ _ H). eapply Hk, E.
Qed.

Lemma transform_app (k : Z -> mem_t -> option mem_t) l1 l2 m :
  transform k (l1 ++ l2) m =
  match transform k l1 m with Some m1 => transform k l2 m1 | None => None end.
Proof.
  revert m. induction l1 as [|i l1 IH]; intros m; simpl; [reflexivity|].
  destruct (k i m); [apply IH|reflexivity].
Qed.

Lemma transform_ext (k k' : Z -> mem_t -> option mem_t) :
  (forall i m, k i m = k' i m) ->
  forall indices m, transform k indices m = transform k' indices m.
Proof.
  intros H. induction indices as [|i l IH]; intros m; simpl; [reflexivity|].
  rewrite H. destruct (k' i m); [apply IH|reflexivity].
Qed.

Lemma iota_last n : 0 < n -> iota n = iota (n - 1) ++ [n - 1].
Proof.
  intros H. unfold iota.
  replace (Z.to_nat n) with (Z.to_nat (n - 1) + 1)%nat by lia.
  rewrite seq_app, map_app. simpl. f_equal. f_equal. lia.
Qed.

Section TransposerAnySize.

Variables (flip_indices : bool) (output_npairs : Z) (joined : list join_pair).

Let left_of (p : join_pair) : Z := if flip_indices then second p else first p.
Let right_of (p : join_pair) : Z := if flip_indices then first p else second p.

Let body (index : Z) (output_data : mem_t) : option mem_t :=
  match load_pair joined index with
  | None => None
  | Some p =>
      match store_at output_data index (left_of p) with
      | None => None
      | Some output_data' =>
          store_at output_data' (to_size_type (index + output_npairs)) (right_of p)
      end
  end.

Lemma body_length i x y : body i x = Some y -> length y = length x.
Proof.
  unfold body, store_at. intros H.
  destruct (load_pair joined i); [|discriminate].
  destruct (i <? 0); [discriminate|].
  destruct (store x (Z.to_nat i) (left_of j)) eqn:E1; [|discriminate].
  destruct (to_size_type (i + output_npairs) <? 0); [discriminate|].
  apply store_length in H, E1. congruence.
Qed.

Lemma transform_rows pre suf extra X Y rest :
  joined = pre ++ suf ++ extra ->
  output_npairs = Z.of_nat (length pre + length suf) ->
  length X = length suf -> length Y = length suf ->
  2 * output_npairs - 1 <= INT_MAX ->
  transform body (map Z.of_nat (seq (length pre) (length suf)))
            (map left_of pre ++ X ++ map right_of pre ++ Y ++ rest)
  = Some (map left_of (pre ++ suf) ++ map right_of (pre ++ suf) ++ rest).
Proof.
  revert pre X Y. induction suf as [|p suf IH]; intros pre X Y E Hn HX HY HN.
  - destruct X; [|discriminate]. destruct Y; [|discriminate].
    simpl. now rewrite !app_nil_r.
  - destruct X as [|x X]; [discriminate|]. destruct Y as [|y Y]; [discriminate|].
    simpl in HX, HY. injection HX as HX. injection HY as HY.
    cbn [length] in Hn.
    cbn [length seq map transform]. unfold body at 1.
    unfold load_pair. replace (Z.of_nat (length pre) <? 0) with false by lia.
    rewrite Nat2Z.id.
    replace (nth_error joined (length pre)) with (Some p)
      by (rewrite E, nth_error_app2, Nat.sub_diag by lia; reflexivity).
    unfold store_at. replace (Z.of_nat (length pre) <? 0) with false by lia.
    rewrite Nat2Z.id.
    replace (length pre) with (length (map left_of pre)) at 1 by apply length_map.
    rewrite <- app_comm_cons, store_middle.
    rewrite to_size_type_small by (unfold INT_MAX in *; lia).
    replace (Z.of_nat (length pre) + output_npairs <? 0) with false by lia.
    replace (map left_of pre ++ left_of p :: X ++ map right_of pre ++ (y :: Y) ++ rest)
      with ((map left_of pre ++ left_of p :: X ++ map right_of pre) ++ y :: Y ++ rest)
      by (rewrite <- !app_assoc; simpl; now rewrite <- !app_assoc).
    replace (Z.to_nat (Z.of_nat (length pre) + output_npairs))
      with (length (map left_of pre ++ left_of p :: X ++ map right_of pre)).
    2:{ rewrite !length_app. simpl. rewrite !length_app, !length_map. lia. }
    rewrite store_middle.
    specialize (IH (pre ++ [p]) X Y).
    rewrite length_app in IH. cbn [length] in IH.
    replace (length pre + 1)%nat with (S (length pre)) in IH by lia.
    replace ((pre ++ [p]) ++ suf) with (pre ++ p :: suf) in IH
      by (rewrite <- app_assoc; reflexivity).
    rewrite <- IH; try assumption; try lia.
    + f_equal. rewrite !map_app. simpl. rewrite <- !app_assoc. simpl.
      now rewrite <- !app_assoc.
    + rewrite E, <- !app_assoc. reflexivity.
Qed.

Lemma pairs_to_decoupled_rows (old_left old_right rest : mem_t) :
  0 < output_npairs ->
  output_npairs <= Z.of_nat (length joined) ->
  2 * output_npairs - 1 <= INT_MAX ->
  Z.of_nat (length old_left) = output_npairs ->
  Z.of_nat (length old_right) = output_npairs ->
  pairs_to_decoupled (old_left ++ old_right ++ rest) output_npairs joined flip_indices =
  Some (map left_of (firstn (Z.to_nat output_npairs) joined)
        ++ map right_of (firstn (Z.to_nat output_npairs) joined) ++ rest).
Proof.
  intros Hpos Hj HN Hl Hr. unfold pairs_to_decoupled.
  replace (0 <? output_npairs) with true by lia.
  pose proof (transform_rows [] (firstn (Z.to_nat output_npairs) joined)
                (skipn (Z.to_nat output_npairs) joined) old_left old_right rest) as H.
  cbn [length app map Nat.add] in H.
  rewrite length_firstn, Nat.min_l in H by lia.
  apply H; try lia.
  now rewrite firstn_skipn.
Qed.

Lemma pairs_to_decoupled_last (output out' : mem_t) :
  0 < output_npairs ->
  pairs_to_decoupled output output_npairs joined flip_indices = Some out' ->
  exists m, length m = length output /\ body (output_npairs - 1) m = Some out'.
Proof.
  intros Hpos. unfold pairs_to_decoupled.
  replace (0 <? output_npairs) with true by lia.
  change (transform body (iota output_npairs) output = Some out' ->
          exists m, length m = length output /\ body (output_npairs - 1) m = Some out').
  rewrite (iota_last output_npairs) by lia.
  rewrite transform_app.
  destruct (transform body (iota (output_npairs - 1)) output) as [m|] eqn:E;
    [|discriminate].
  cbn [transform].
  destruct (body (output_npairs - 1) m) as [m'|] eqn:E'; [|discriminate].
  intros H. injection H as <-. exists m. split; [|exact E'].
  eapply transform_length; [|exact E]. apply body_length.
Qed.

Lemma pairs_to_decoupled_length (output out' : mem_t) :
  pairs_to_decoupled output output_npairs joined flip_indices = Some out' ->
  length out' = length output.
Proof.
  unfold pairs_to_decoupled. destruct (0 <? output_npairs).
  - apply (transform_length body body_length).
  - intros H. now inversion H.
Qed.

End TransposerAnySize.

(** The transposer writes the first [output_npairs] pairs of [joined] into
    the first [2 * output_npairs] entries of the output (the left indices,
    then the right indices, exchanged when [flip_indices] is set), whatever
    these entries held, and leaves every later entry of the output and every
    later pair of [joined] alone. *)
Theorem pairs_to_decoupled_writes_two_halves
        flip_indices output_npairs joined (old_left old_right rest : mem_t) :
  0 < output_npairs ->
  output_npairs <= Z.of_nat (length joined) ->
  2 * output_npairs - 1 <= INT_MAX ->
  Z.of_nat (length old_left) = output_npairs ->
  Z.of_nat (length old_right) = output_npairs ->
  pairs_to_decoupled (old_left ++ old_right ++ rest) output_npairs joined flip_indices =
  Some (map (fun p => if flip_indices then second p else first p)
            (firstn (Z.to_nat output_npairs) joined)
        ++ map (fun p => if flip_indices then first p else second p)
               (firstn (Z.to_nat output_npairs) joined)
        ++ rest).
Proof. apply pairs_to_decoupled_rows. Qed.

Lemma pairs_to_decoupled_writes_two_halves_witness :
  pairs_to_decoupled ([0; 0] ++ [0; 0] ++ [7]) 2
                     [mk_pair 1 4; mk_pair 2 5; mk_pair 3 6] true
  = Some ([4; 5] ++ [1; 2] ++ [7]).
Proof.
  apply (pairs_to_decoupled_writes_two_halves true 2
           [mk_pair 1 4; mk_pair 2 5; mk_pair 3 6] [0; 0] [0; 0] [7]);
    unfold INT_MAX; simpl; lia.
Defined.

(** The transposer stays inside its two arrays exactly when [joined] holds
    at least [output_npairs] pairs and the output at least
    [2 * output_npairs] entries (and the index [2 * output_npairs - 1] can be
    computed in [size_type]): the code itself checks none of this. *)
Theorem pairs_to_decoupled_in_bounds_iff output output_npairs joined flip_indices :
  0 < output_npairs <= INT_MAX ->
  pairs_to_decoupled output output_npairs joined flip_indices <> None <->
  output_npairs <= Z.of_nat (length joined) /\
  2 * output_npairs <= Z.of_nat (length output) /\
  2 * output_npairs - 1 <= INT_MAX.
Proof.
  intros [Hpos Hmax]. split.
  - destruct (pairs_to_decoupled output output_npairs joined flip_indices)
      as [out'|] eqn:E; [intros _|congruence].
    destruct (pairs_to_decoupled_last _ _ _ _ _ Hpos E) as (m & Hlen & Hbody).
    unfold load_pair, store_at in Hbody.
    replace (output_npairs - 1 <? 0) with false in Hbody by lia.
    destruct (nth_error joined (Z.to_nat (output_npairs - 1))) as [p|] eqn:Ep;
      [|discriminate].
    assert (Hj : (Z.to_nat (output_npairs - 1) < length joined)%nat).
    { apply nth_error_Some. congruence. }
    destruct (store m (Z.to_nat (output_npairs - 1)) _) as [m1|] eqn:E1; [|discriminate].
    apply store_length in E1.
    destruct (to_size_type (output_npairs - 1 + output_npairs) <? 0) eqn:Eneg;
      [discriminate|].
    apply Z.ltb_ge in Eneg.
    apply to_size_type_nonneg in Eneg; [|unfold INT_MAX in *; lia].
    rewrite to_size_type_small in Hbody by (unfold INT_MAX in *; lia).
    apply store_in_bounds in Hbody. lia.
  - intros (Hj & Ho & HN).
    rewrite <- (firstn_skipn (Z.to_nat output_npairs) output).
    rewrite <- (firstn_skipn (Z.to_nat output_npairs)
                  (skipn (Z.to_nat output_npairs) output)).
    rewrite pairs_to_decoupled_rows; try assumption; try discriminate.
    + rewrite length_firstn. lia.
    + rewrite length_firstn, length_skipn. lia.
Qed.

Lemma pairs_to_decoupled_in_bounds_iff_witness :
  pairs_to_decoupled [0; 0; 0] 2 [mk_pair 1 4; mk_pair 2 5] false <> None <->
  2 <= Z.of_nat (length [mk_pair 1 4; mk_pair 2 5]) /\
  2 * 2 <= Z.of_nat (length [0; 0; 0]) /\
  2 * 2 - 1 <= INT_MAX.
Proof.
  apply (pairs_to_decoupled_in_bounds_iff [0; 0; 0] 2 [mk_pair 1 4; mk_pair 2 5] false).
  unfold INT_MAX. lia.
Defined.

(** Transposing with [flip_indices] set is transposing the pairs with their
    two indices exchanged: this is what lets [InnerJoinHash] build the table
    over either column. *)
Theorem pairs_to_decoupled_flip_is_swap output output_npairs joined :
  pairs_to_decoupled output output_npairs joined true =
  pairs_to_decoupled output output_npairs (map swap joined) false.
Proof.
  unfold pairs_to_decoupled. destruct (0 <? output_npairs); [|reflexivity].
  apply transform_ext. intros i m. unfold load_pair.
  destruct (i <? 0); [reflexivity|].
  rewrite nth_error_map. destruct (nth_error joined (Z.to_nat i)); reflexivity.
Qed.

(* ================================================================== *)
(** ** The paths through [GenericJoinHash], on any device *)

Lemma wpd_Next (da dt : Prop) {A} (m : M A) Q R h x h' :
  wpd da dt m Q R h -> m h = Next x h' -> Q x h'.
Proof. unfold wpd. intros H E. now rewrite E in H. Qed.

Lemma wpd_no_trap (dt : Prop) {A} (m : M A) Q R h r :
  wpd False dt m Q R h -> m h <> Trap r.
Proof. unfold wpd. intros H E. now rewrite E in H. Qed.

Lemma wpd_total_any (da dt : Prop) {A} (m : M A) Q R h :
  wpd False False m Q R h -> wpd da dt m Q R h.
Proof. intros H. eapply wpd_strengthen; [exact H|intros []|intros []]. Qed.

Lemma wpd_safe_any (da : Prop) {A} (m : M A) Q R h :
  wpd False True m Q R h -> wpd da True m Q R h.
Proof. intros H. eapply wpd_strengthen; [exact H|intros []|trivial]. Qed.

Lemma issued_app h h' evs : trace h' = trace h ++ evs -> issued h h' = evs.
Proof.
  intros E. unfold issued. rewrite E, skipn_app, skipn_all, Nat.sub_diag. reflexivity.
Qed.

Lemma retries_app caps caps' : retries (caps ++ caps') = retries caps ++ retries caps'.
Proof. apply flat_map_app. Qed.

Section Paths.

Variable dev : device.
Variable join_type : JoinType.
Variables (a : column) (a_count : Z) (b : column) (b_count : Z).
Variables a2 b2 a3 b3 : option column.
Variable flip_results : bool.

Lemma init_phase_paths h :
  wpd False False (init_phase dev b b_count)
      (fun r h' =>
         r = (build_hash_tbl (new_multimap (hash_tbl_size b_count)) b b_count,
              cudaSuccess) /\
         h' = mk_host (joined_output h) cudaSuccess
                      (trace h ++ [ev_build_hash_tbl b_count]))
      (fun e h' =>
         e <> cudaSuccess /\ same_output h h' /\
         (trace h' = trace h \/ trace h' = trace h ++ [ev_build_hash_tbl b_count]))
      h.
Proof.
  unfold init_phase, same_output.
  wp_step. wp_step; [|frame_solve].
  wp_step. wp_step; [|frame_solve].
  wp_step. wp_step.
  - wp_step. wp_step.
    destruct (negb (last_error h =? cudaSuccess)) eqn:E0; cbn [joined_output trace].
    { wp_step. apply negb_true_iff, Z.eqb_neq in E0. frame_solve. }
    wp_step. wp_step. wp_step. wp_step.
    + wp_step. wp_step. cbn [last_error negb Z.eqb cudaSuccess].
      wp_step. cbn [joined_output trace]. now split.
    + wp_step. wp_step. cbn [last_error joined_output trace].
      destruct (negb (status dev build_hash_tbl_launch =? cudaSuccess)) eqn:E1.
      * wp_step. frame_solve.
      * apply negb_false_iff, Z.eqb_eq in E1. contradiction.
  - wp_step. wp_step. cbn [last_error joined_output trace].
    destruct (negb (status dev hash_tbl_prefetch =? cudaSuccess)) eqn:E1.
    + wp_step. frame_solve.
    + apply negb_false_iff, Z.eqb_eq in E1. contradiction.
Qed.

Lemma estimate_loop_paths fuel : forall k hash_tbl error a_sample_size size_ratio h,
  wpd False True (estimate_loop dev join_type a a_count a2 b2 a3 b3 fuel k hash_tbl
                            error a_sample_size size_ratio)
      (fun res h' =>
         exists samples,
           trace h' = trace h
                      ++ map ev_probe_hash_tbl_count_common (samples ++ [snd res]) /\
           Forall (fun s => s <= a_count) (samples ++ [snd res]) /\
           (0 < fst res \/ snd res = a_count) /\
           same_output h h')
      (fun e h' =>
         e <> cudaSuccess /\
         exists samples,
           samples <> [] /\
           trace h' = trace h ++ map ev_probe_hash_tbl_count_common samples /\
           Forall (fun s => s <= a_count) samples /\
           same_output h h')
      h.
Proof.
  unfold same_output.
  induction fuel as [|fuel IH]; intros k hash_tbl error s r h; cbn [estimate_loop].
  - exact I.
  - cbv zeta.
    set (s' := if a_count <? s then a_count else s).
    assert (Hs' : s' <= a_count) by (unfold s'; destruct (Z.ltb_spec a_count s); lia).
    assert (Hone : forall h0 : host,
               trace h0 = trace h ++ [ev_probe_hash_tbl_count_common s'] ->
               joined_output h0 = joined_output h ->
               exists samples,
                 samples <> [] /\
                 trace h0 = trace h ++ map ev_probe_hash_tbl_count_common samples /\
                 Forall (fun s => s <= a_count) samples /\
                 joined_output h0 = joined_output h).
    { intros h0 Ht Ho. exists [s']. repeat split; try assumption; [discriminate|].
      constructor; [exact Hs'|constructor]. }
    assert (Hrec : forall k' d  r' (h0 : host),
               trace h0 = trace h ++ [ev_probe_hash_tbl_count_common s'] ->
               joined_output h0 = joined_output h ->
               wpd False True
                   (estimate_loop dev join_type a a_count a2 b2 a3 b3 fuel k' hash_tbl
                                  error d r')
                   (fun res h' =>
                      exists samples,
                        trace h' = trace h
                                   ++ map ev_probe_hash_tbl_count_common
                                          (samples ++ [snd res]) /\
                        Forall (fun s => s <= a_count) (samples ++ [snd res]) /\
                        (0 < fst res \/ snd res = a_count) /\
                        joined_output h' = joined_output h)
                   (fun e h' =>
                      e <> cudaSuccess /\
                      exists samples,
                        samples <> [] /\
                        trace h' = trace h ++ map ev_probe_hash_tbl_count_common samples /\
                        Forall (fun s => s <= a_count) samples /\
                        joined_output h' = joined_output h)
                   h0).
    { intros k' d r' h0 Ht Ho.
      eapply wpd_mono; [apply IH| |]; cbv beta.
      - intros res h' (samples & Ht' & Hall & Hstop & Ho').
        exists (s' :: samples). rewrite Ht', Ht, <- app_assoc. repeat split.
        + constructor; assumption.
        + exact Hstop.
        + congruence.
      - intros e h' (Hne & samples & _ & Ht' & Hall & Ho'). split; [exact Hne|].
        exists (s' :: samples). rewrite Ht', Ht, <- app_assoc.
        repeat split; [discriminate|now constructor|congruence]. }
    wp_step. wp_step. wp_step. wp_step; cbv zeta;
    (destruct (negb (error =? cudaSuccess)) eqn:Eerr;
     [wp_step; cbv beta; apply negb_true_iff, Z.eqb_neq in Eerr;
      split; [exact Eerr|now apply Hone]|]);
    (wp_step; wp_step; [|cbv beta; split; [assumption|now apply Hone]]);
    (wp_step; wp_step; [|cbv beta; split; [assumption|now apply Hone]]);
    (destruct (_ || _) eqn:C;
     [wp_step; cbn [joined_output trace fst snd]; exists []; cbn [app map];
      apply orb_true_iff in C; repeat split;
      [constructor; [exact Hs'|constructor]
      |destruct C as [C|C]; [left; lia|right; lia]]|]);
    (destruct (_ =? 0); apply Hrec; reflexivity).
Qed.

Lemma estimate_paths fuel hash_tbl error h :
  wpd True True (estimate dev join_type a a_count b_count a2 b2 a3 b3 fuel hash_tbl error)
      (fun res h' =>
         exists samples,
           trace h' = trace h
                      ++ map ev_probe_hash_tbl_count_common (samples ++ [snd res]) /\
           Forall (fun s => s <= a_count) (samples ++ [snd res]) /\
           (0 < fst res \/ snd res = a_count) /\
           same_output h h')
      (fun e h' =>
         e <> cudaSuccess /\
         exists samples,
           samples <> [] /\
           trace h' = trace h ++ map ev_probe_hash_tbl_count_common samples /\
           Forall (fun s => s <= a_count) samples /\
           same_output h h')
      h.
Proof.
  unfold estimate. wp_step.
  destruct (to_size_type (5 * b_count) <? a_count).
  - wp_step. wp_step; [exact I|]. wp_step.
    apply wpd_safe_any, estimate_loop_paths.
  - wp_step. apply wpd_safe_any, estimate_loop_paths.
Qed.

(** The estimate stops for a division by zero only, and only when the column
    the table was built over has no rows. *)
Lemma estimate_trap fuel hash_tbl error h r :
  estimate dev join_type a a_count b_count a2 b2 a3 b3 fuel hash_tbl error h = Trap r ->
  r = DivideByZero /\ b_count = 0 /\ 0 < a_count.
Proof.
  unfold estimate, bind at 1.
  destruct (Z.ltb_spec (to_size_type (5 * b_count)) a_count) as [C|C].
  - unfold bind at 1, divide. destruct (Z.eqb_spec b_count 0) as [E|E].
    + intros H. injection H as <-. subst b_count. now repeat split.
    + cbn [ret fst snd]. intros H. exfalso. revert H.
      eapply wpd_no_trap, estimate_loop_paths.
  - cbn [ret fst snd]. intros H. exfalso. revert H.
    eapply wpd_no_trap, estimate_loop_paths.
Qed.

Lemma probe_loop_paths hash_tbl fuel : forall n scanSize h,
  wpd False True (probe_loop dev join_type a a_count a2 b2 a3 b3 fuel n hash_tbl scanSize)
      (fun res h' =>
         exists caps last,
           trace h' = trace h ++ retries caps ++ [ev_probe_hash_tbl last] /\
           fst (fst res) = status dev (cudaDeviceSynchronize (n + length caps)) /\
           snd (fst res) <= last /\
           same_output h h')
      (fun e h' =>
         e <> cudaSuccess /\ same_output h h' /\
         exists caps last,
           trace h' = trace h ++ retries caps
                      ++ match last with Some s => [ev_probe_hash_tbl s] | None => [] end)
      h.
Proof.
  unfold same_output.
  induction fuel as [|fuel IH]; intros n scanSize h; cbn [probe_loop].
  - exact I.
  - assert (Hnone : forall h0 : host,
               trace h0 = trace h -> 
               exists (caps : list Z) (last : option Z),
                 trace h0 = trace h ++ retries caps
                   ++ match last with Some s => [ev_probe_hash_tbl s] | None => [] end).
    { intros h0 E. exists [], None. now rewrite E, app_nil_r. }
    assert (Hsome : forall h0 : host,
               trace h0 = trace h ++ [ev_probe_hash_tbl scanSize] -> 
               exists (caps : list Z) (last : option Z),
                 trace h0 = trace h ++ retries caps
                   ++ match last with Some s => [ev_probe_hash_tbl s] | None => [] end).
    { intros h0 E. exists [], (Some scanSize). now rewrite E. }
    assert (Hrec : forall (h0 : host),
               trace h0 = trace h ++ [ev_probe_hash_tbl scanSize; ev_free_tempOut scanSize] ->
               joined_output h0 = joined_output h ->
               wpd False True
                   (probe_loop dev join_type a a_count a2 b2 a3 b3 fuel (S n) hash_tbl
                               (to_size_type (scanSize * 2)))
                   (fun res h' =>
                      exists caps last,
                        trace h' = trace h ++ retries caps ++ [ev_probe_hash_tbl last] /\
                        fst (fst res)
                        = status dev (cudaDeviceSynchronize (n + length caps)) /\
                        snd (fst res) <= last /\
                        joined_output h' = joined_output h)
                   (fun e h' =>
                      e <> cudaSuccess /\ joined_output h' = joined_output h /\
                      exists caps last,
                        trace h' = trace h ++ retries caps
                          ++ match last with
                             | Some s => [ev_probe_hash_tbl s]
                             | None => []
                             end)
                   h0).
    { intros h0 Ht Ho. eapply wpd_mono; [apply IH| |]; cbv beta.
      - intros res h' (caps & last & Ht' & Hs & Hle & Ho').
        exists (scanSize :: caps), last. rewrite Ht', Ht. cbn [retries flat_map length].
        rewrite <- !app_assoc. repeat split; try assumption; try congruence.
        now rewrite Nat.add_succ_r.
      - intros e h' (Hne & Ho' & caps & last & Ht'). repeat split; try congruence.
        exists (scanSize :: caps), last. rewrite Ht', Ht. cbn [retries flat_map].
        now rewrite <- !app_assoc. }
    do 4 (wp_step; wp_step; [|cbv beta; repeat split; try assumption; now apply Hnone]).
    wp_step. wp_step. wp_step. wp_step; cbv zeta;
    (wp_step; wp_step;
     [|cbv beta; repeat split; try assumption; now apply Hsome]);
    (destruct (scanSize <? _) eqn:C;
     [wp_step; wp_step; [|cbv beta; repeat split; try assumption; now apply Hsome];
      wp_step; wp_step; apply Hrec; cbn [trace joined_output];
      [now rewrite <- app_assoc|reflexivity]
     |wp_step; exists [], scanSize; cbn [fst snd trace joined_output retries flat_map app length];
      rewrite Nat.add_0_r; apply Z.ltb_ge in C; repeat split; assumption]).
Qed.

Lemma transpose_phase_paths error h_actual_found tempOut h :
  wpd True True (transpose_phase dev flip_results error h_actual_found tempOut)
      (fun _ _ => False)
      (fun e h' =>
         trace h' = trace h
                    ++ [ev_alloc_joined_output (to_size_type (2 * h_actual_found));
                        ev_pairs_to_decoupled h_actual_found] /\
         e = (if status dev cudaFree_joined_idx =? cudaSuccess
              then error else status dev cudaFree_joined_idx) /\
         length (joined_output h') = Z.to_nat (to_size_type (2 * h_actual_found)))
      h.
Proof.
  unfold transpose_phase. cbv zeta.
  wp_step. wp_step. wp_step. wp_step; [exact I|].
  wp_step. wp_step. wp_step. wp_step. wp_step. wp_step.
  cbn [joined_output trace last_error].
  destruct (pairs_to_decoupled _ _ _ _) as [out'|] eqn:E; [|exact I].
  apply pairs_to_decoupled_length in E. rewrite repeat_length in E.
  wp_step. wp_step. wp_step. wp_step. wp_step. wp_step.
  - wp_step. cbn [joined_output trace]. rewrite <- app_assoc.
    match goal with
    | Hs : status dev cudaFree_joined_idx = _ |- _ => rewrite Hs
    end.
    now repeat split.
  - cbn [joined_output trace]. rewrite <- app_assoc.
    match goal with
    | Hs : status dev cudaFree_joined_idx <> _ |- _ => apply Z.eqb_neq in Hs; rewrite Hs
    end.
    now repeat split.
Qed.

End Paths.

(** Every call that returns has taken one of the paths, and issued the work
    of that path. *)
Lemma GenericJoinHash_paths dev join_type a a_count b b_count a2 b2 a3 b3
      flip_results fuel h :
  wpd True True
      (GenericJoinHash dev join_type a a_count b b_count a2 b2 a3 b3 flip_results fuel)
      (fun _ _ => False)
      (fun e h' =>
         exists p,
           trace h' = trace h ++ work b_count p /\
           Forall (fun s => s <= a_count) (samples_of p) /\
           match p with
           | nothing_to_join samples =>
               e = cudaSuccess /\ same_output h h' /\
               exists pre, samples = pre ++ [a_count]
           | transposed samples caps last h_actual_found =>
               e = (if status dev cudaFree_joined_idx =? cudaSuccess
                    then status dev (cudaDeviceSynchronize (length caps))
                    else status dev cudaFree_joined_idx) /\
               length (joined_output h') = Z.to_nat (to_size_type (2 * h_actual_found)) /\
               h_actual_found <= last
           | _ => e <> cudaSuccess /\ same_output h h'
           end)
      h.
Proof.
  unfold GenericJoinHash.
  wp_step. apply wpd_total_any.
  eapply wpd_mono; [apply init_phase_paths| |]; cbv beta.
  2:{ intros e h' (Hne & Ho & [Ht|Ht]).
      - exists set_up_refused. cbn [work samples_of]. rewrite app_nil_r. now auto.
      - exists build_refused. cbn [work samples_of]. now auto. }
  intros r h1 [-> ->]. cbn [fst snd].
  wp_step. eapply wpd_mono; [apply estimate_paths| |]; cbv beta; unfold same_output;
    cbn [joined_output trace].
  2:{ intros e h' (Hne & samples & _ & Ht & Hall & Ho).
      exists (estimate_refused samples). cbn [work samples_of].
      rewrite Ht, <- app_assoc. now auto. }
  intros [scanSize sampled] h2 (samples & Ht2 & Hall & Hstop & Ho2). cbn [fst snd] in *.
  rewrite <- app_assoc in Ht2. cbn [app] in Ht2.
  destruct (Z.eqb_spec scanSize 0) as [E0|E0].
  { wp_step. exists (nothing_to_join (samples ++ [sampled])). cbn [work samples_of].
    repeat split; try assumption.
    destruct Hstop as [Hpos| ->]; [lia|]. now exists samples. }
  wp_step. apply wpd_safe_any.
  eapply wpd_mono; [apply probe_loop_paths| |]; cbv beta; unfold same_output.
  2:{ intros e h' (Hne & Ho & caps & last & Ht).
      exists (probe_refused (samples ++ [sampled]) caps last). cbn [work samples_of].
      rewrite Ht, Ht2, <- !app_assoc. cbn [app].
      repeat split; try assumption; congruence. }
  intros [[error found] tempOut] h3 (caps & last & Ht3 & Herr & Hle & Ho3).
  cbn [fst snd] in *.
  eapply wpd_mono; [apply transpose_phase_paths| |]; cbv beta.
  { intros _ _ []. }
  intros e h' (Ht & He & Hlen).
  exists (transposed (samples ++ [sampled]) caps last found). cbn [work samples_of].
  rewrite Ht, Ht3, Ht2, <- !app_assoc. cbn [app].
  rewrite Herr in He. now auto.
Qed.

(* ================================================================== *)
(** ** The work along a path *)

Lemma In_retries ev caps :
  In ev (retries caps) -> exists s, ev = ev_probe_hash_tbl s \/ ev = ev_free_tempOut s.
Proof.
  unfold retries. intros H. apply in_flat_map in H as (s & _ & [<-|[<-|[]]]); eauto.
Qed.

Lemma filter_retries_probe caps : length (filter is_probe (retries caps)) = length caps.
Proof. induction caps as [|s caps IH]; simpl; [reflexivity|]. now rewrite IH. Qed.

Lemma filter_retries_free caps : length (filter is_free (retries caps)) = length caps.
Proof. induction caps as [|s caps IH]; simpl; [reflexivity|]. now rewrite IH. Qed.

Lemma filter_counts_probe samples :
  filter is_probe (map ev_probe_hash_tbl_count_common samples) = [].
Proof. induction samples; simpl; [reflexivity|assumption]. Qed.

Lemma filter_counts_free samples :
  filter is_free (map ev_probe_hash_tbl_count_common samples) = [].
Proof. induction samples; simpl; [reflexivity|assumption]. Qed.

Lemma work_probes_and_frees b_count p :
  let probes := length (filter is_probe (work b_count p)) in
  let frees := length (filter is_free (work b_count p)) in
  match p with
  | transposed _ caps _ _ => frees = length caps /\ probes = S frees
  | _ => (frees <= probes)%nat
  end.
Proof.
  destruct p as [| |samples|samples|samples caps [s|]|samples caps last n];
    cbn [work filter is_probe is_free];
    rewrite ?filter_app, ?length_app, ?filter_counts_probe, ?filter_counts_free,
      ?filter_retries_probe, ?filter_retries_free; cbn [filter is_probe is_free length app];
    rewrite ?filter_counts_probe, ?filter_counts_free; cbn [length]; lia.
Qed.

Lemma work_counts b_count p s :
  In (ev_probe_hash_tbl_count_common s) (work b_count p) -> In s (samples_of p).
Proof.
  assert (Hmap : forall samples,
             In (ev_probe_hash_tbl_count_common s)
                (map ev_probe_hash_tbl_count_common samples) -> In s samples).
  { intros samples H. apply in_map_iff in H as (x & E & Hx). now injection E as <-. }
  assert (Hret : forall caps, ~ In (ev_probe_hash_tbl_count_common s) (retries caps)).
  { intros caps H. apply In_retries in H as (x & [E|E]); discriminate. }
  destruct p as [| |samples|samples|samples caps [x|]|samples caps last n];
    cbn [work samples_of]; intros H;
    repeat (apply in_app_or in H as [H|H] || destruct H as [H|H]);
    try discriminate; try contradiction; try (now apply Hmap); try (now apply Hret in H).
Qed.

Lemma work_transposed b_count p n :
  In (ev_pairs_to_decoupled n) (work b_count p) ->
  exists samples caps last, p = transposed samples caps last n.
Proof.
  assert (Hmap : forall samples,
             ~ In (ev_pairs_to_decoupled n) (map ev_probe_hash_tbl_count_common samples)).
  { intros samples H. apply in_map_iff in H as (x & E & _). discriminate. }
  assert (Hret : forall caps, ~ In (ev_pairs_to_decoupled n) (retries caps)).
  { intros caps H. apply In_retries in H as (x & [E|E]); discriminate. }
  destruct p as [| |samples|samples|samples caps [x|]|samples caps last m];
    cbn [work]; intros H;
    repeat (apply in_app_or in H as [H|H] || destruct H as [H|H]);
    try discriminate; try contradiction;
    try (now apply Hmap in H); try (now apply Hret in H).
  injection H as ->. eauto.
Qed.

Lemma work_build b_count p :
  work b_count p = [] \/
  exists rest, work b_count p = ev_build_hash_tbl b_count :: rest /\
               forall n, ~ In (ev_build_hash_tbl n) rest.
Proof.
  assert (Hmap : forall n samples,
             ~ In (ev_build_hash_tbl n) (map ev_probe_hash_tbl_count_common samples)).
  { intros n samples H. apply in_map_iff in H as (x & E & _). discriminate. }
  assert (Hret : forall n caps, ~ In (ev_build_hash_tbl n) (retries caps)).
  { intros n caps H. apply In_retries in H as (x & [E|E]); discriminate. }
  destruct p as [| |samples|samples|samples caps [x|]|samples caps last m];
    cbn [work]; [now left|right; eexists; split; [reflexivity|]..];
    intros n H;
    repeat (apply in_app_or in H as [H|H] || destruct H as [H|H]);
    try discriminate; try contradiction;
    try (now apply Hmap in H); try (now apply Hret in H).
Qed.

(** What a call that returns has issued. *)
Lemma GenericJoinHash_issued dev join_type a a_count b b_count a2 b2 a3 b3
      flip_results fuel h e h' :
  GenericJoinHash dev join_type a a_count b b_count a2 b2 a3 b3 flip_results fuel h
  = Return e h' ->
  exists p,
    issued h h' = work b_count p /\
    Forall (fun s => s <= a_count) (samples_of p) /\
    match p with
    | nothing_to_join samples =>
        e = cudaSuccess /\ same_output h h' /\
        exists pre, samples = pre ++ [a_count]
    | transposed samples caps last h_actual_found =>
        e = (if status dev cudaFree_joined_idx =? cudaSuccess
             then status dev (cudaDeviceSynchronize (length caps))
             else status dev cudaFree_joined_idx) /\
        length (joined_output h') = Z.to_nat (to_size_type (2 * h_actual_found)) /\
        h_actual_found <= last
    | _ => e <> cudaSuccess /\ same_output h h'
    end.
Proof.
  intros Hrun.
  destruct (wpd_Return _ _ _ _ _ _ _ _
              (GenericJoinHash_paths dev join_type a a_count b b_count a2 b2 a3 b3
                 flip_results fuel h) Hrun) as (p & Ht & Hp).
  exists p. split; [now apply issued_app|exact Hp].
Qed.

(* ================================================================== *)
(** ** Further properties of the host code *)

(** For a build column of [2^30] rows or more the capacity handed to the
    constructor of the hash table is negative: the quotient, exact in
    [size_t], is [2 * b_count] and wraps around when narrowed to
    [size_type]. *)
Theorem hash_tbl_size_is_negative_from_2_30_rows b_count :
  1073741824 <= b_count <= INT_MAX ->
  hash_tbl_size b_count = 2 * b_count - 4294967296 /\ hash_tbl_size b_count < 0.
Proof.
  unfold INT_MAX. intros H.
  assert (E : hash_tbl_size b_count = 2 * b_count - 4294967296).
  { unfold hash_tbl_size, DEFAULT_HASH_TBL_OCCUPANCY.
    rewrite (to_size_t_small b_count) by lia.
    rewrite to_size_t_small by lia.
    replace (b_count * 100) with (2 * b_count * 50) by lia.
    rewrite Z.div_mul by lia.
    unfold to_size_type.
    replace (2 * b_count + 2147483648)
      with (2 * b_count - 2147483648 + 1 * 4294967296) by lia.
    rewrite Z_mod_plus_full, Z.mod_small by lia. lia. }
  rewrite E. lia.
Qed.

Lemma hash_tbl_size_is_negative_from_2_30_rows_witness :
  hash_tbl_size 2000000000 = 2 * 2000000000 - 4294967296 /\
  hash_tbl_size 2000000000 < 0.
Proof.
  apply (hash_tbl_size_is_negative_from_2_30_rows 2000000000). unfold INT_MAX. lia.
Defined.

(** An error left pending in the runtime by whatever ran before the call is
    read by the [cudaGetLastError] that follows the prefetch of the table:
    the join returns it as its own status and clears it, having built no
    table and touched no output. *)
Theorem pending_error_is_returned_without_joining
        dev join_type a a_count b b_count a2 b2 a3 b3 flip_results fuel h :
  status dev cudaMalloc_joined_idx = cudaSuccess ->
  status dev cudaMemsetAsync_joined_idx = cudaSuccess ->
  status dev hash_tbl_prefetch = cudaSuccess ->
  last_error h <> cudaSuccess ->
  GenericJoinHash dev join_type a a_count b b_count a2 b2 a3 b3 flip_results fuel h
  = Return (last_error h) (mk_host (joined_output h) cudaSuccess (trace h)).
Proof.
  intros H1 H2 H3 He.
  unfold GenericJoinHash, init_phase, bind, CUDA_RT_CALL, issue, cudaGetLastError.
  rewrite H1, H2, H3, !Z.eqb_refl. cbn [ret last_error].
  apply Z.eqb_neq in He. rewrite He. reflexivity.
Qed.

Lemma pending_error_is_returned_without_joining_witness :
  LeftJoinHash quiet_device 32 [1] 1 [1] 1 None None None None (mk_host [9] 77 [])
  = Return 77 (mk_host [9] cudaSuccess []).
Proof.
  apply (pending_error_is_returned_without_joining quiet_device LEFT_JOIN
           [1] 1 [1] 1 None None None None false 32 (mk_host [9] 77 []));
    try reflexivity.
  discriminate.
Defined.

(** A build kernel that the device refuses to launch ends the call with the
    status of the launch: no probe is launched and the output is as the
    caller passed it. *)
Theorem refused_build_launch_is_returned
        dev join_type a a_count b b_count a2 b2 a3 b3 flip_results fuel h :
  status dev cudaMalloc_joined_idx = cudaSuccess ->
  status dev cudaMemsetAsync_joined_idx = cudaSuccess ->
  status dev hash_tbl_prefetch = cudaSuccess ->
  last_error h = cudaSuccess ->
  status dev build_hash_tbl_launch <> cudaSuccess ->
  GenericJoinHash dev join_type a a_count b b_count a2 b2 a3 b3 flip_results fuel h
  = Return (status dev build_hash_tbl_launch)
           (mk_host (joined_output h) cudaSuccess
                    (trace h ++ [ev_build_hash_tbl b_count])).
Proof.
  intros H1 H2 H3 He Hb.
  unfold GenericJoinHash, init_phase, bind, CUDA_RT_CALL, issue, cudaGetLastError, log.
  apply Z.eqb_neq in Hb.
  rewrite H1, H2, H3, !Z.eqb_refl. cbn [ret last_error joined_output trace].
  rewrite He, Z.eqb_refl. cbn [negb]. rewrite Hb.
  cbn [last_error joined_output trace]. rewrite Hb. reflexivity.
Qed.

Lemma refused_build_launch_is_returned_witness :
  InnerJoinHash (only_fails build_hash_tbl_launch 9) 32 [1; 2] 2 [2; 3; 4] 3
                None None None None (mk_host [9] cudaSuccess [])
  = Return 9 (mk_host [9] cudaSuccess [ev_build_hash_tbl 2]).
Proof.
  apply (refused_build_launch_is_returned (only_fails build_hash_tbl_launch 9)
           INNER_JOIN [2; 3; 4] 3 [1; 2] 2 None None None None true 32
           (mk_host [9] cudaSuccess []));
    try reflexivity.
  discriminate.
Defined.

(** [InnerJoinHash] builds the hash table once, over the column with fewer
    rows, before any other device work. *)
Theorem InnerJoinHash_builds_over_the_smaller_column
        dev fuel a a_count b b_count a2 b2 a3 b3 h e h' :
  InnerJoinHash dev fuel a a_count b b_count a2 b2 a3 b3 h = Return e h' ->
  issued h h' = [] \/
  exists rest,
    issued h h' = ev_build_hash_tbl (Z.min a_count b_count) :: rest /\
    forall n, ~ In (ev_build_hash_tbl n) rest.
Proof.
  unfold InnerJoinHash. intros Hrun.
  destruct (Z.ltb_spec a_count b_count) as [C|C];
    apply GenericJoinHash_issued in Hrun as (p & -> & _).
  - rewrite Z.min_l by lia. apply work_build.
  - rewrite Z.min_r by lia. apply work_build.
Qed.

Lemma InnerJoinHash_builds_over_the_smaller_column_witness :
  issued fresh_host
         (mk_host [1; 0] cudaSuccess
                  [ev_build_hash_tbl 2; ev_probe_hash_tbl_count_common 3;
                   ev_probe_hash_tbl 1; ev_alloc_joined_output 2;
                   ev_pairs_to_decoupled 1]) = [] \/
  exists rest,
    issued fresh_host
           (mk_host [1; 0] cudaSuccess
                    [ev_build_hash_tbl 2; ev_probe_hash_tbl_count_common 3;
                     ev_probe_hash_tbl 1; ev_alloc_joined_output 2;
                     ev_pairs_to_decoupled 1])
    = ev_build_hash_tbl (Z.min 2 3) :: rest /\
    forall n, ~ In (ev_build_hash_tbl n) rest.
Proof.
  apply (InnerJoinHash_builds_over_the_smaller_column quiet_device 32
           [1; 2] 2 [2; 3; 4] 3 None None None None fresh_host cudaSuccess).
  reflexivity.
Defined.

(** No counting probe is launched over more rows than the probed column
    has: the sample is cut down to [a_count] at the head of every turn of the
    estimate, whatever the doubling produced. *)
Theorem counting_probe_stays_within_the_column
        dev join_type a a_count b b_count a2 b2 a3 b3 flip_results fuel h e h' :
  GenericJoinHash dev join_type a a_count b b_count a2 b2 a3 b3 flip_results fuel h
  = Return e h' ->
  Forall (fun ev => forall a_sample_size,
              ev = ev_probe_hash_tbl_count_common a_sample_size ->
              a_sample_size <= a_count)
         (issued h h').
Proof.
  intros Hrun.
  apply GenericJoinHash_issued in Hrun as (p & E & Hall & _).
  rewrite Forall_forall in *. intros ev Hin s ->.
  rewrite E in Hin. apply work_counts in Hin. now apply Hall.
Qed.

Lemma counting_probe_stays_within_the_column_witness :
  Forall (fun ev => forall a_sample_size,
              ev = ev_probe_hash_tbl_count_common a_sample_size ->
              a_sample_size <= 11)
         (issued fresh_host
                 (mk_host [] cudaSuccess
                          [ev_build_hash_tbl 2; ev_probe_hash_tbl_count_common 2;
                           ev_probe_hash_tbl_count_common 4;
                           ev_probe_hash_tbl_count_common 8;
                           ev_probe_hash_tbl_count_common 11])).
Proof.
  apply (counting_probe_stays_within_the_column quiet_device LEFT_JOIN
           [1; 9; 7; 7; 7; 7; 7; 7; 7; 7; 7] 11 [3; 4] 2 None None None None false 32
           fresh_host cudaSuccess).
  reflexivity.
Defined.

(** A call reports success without a result only after a counting probe over
    the whole probed column: when it returns [cudaSuccess], either its last
    device work is a counting probe over [a_count] rows and the output is as
    the caller passed it, or it ends with the allocation of the output and
    the transposition. *)
Theorem success_without_result_follows_a_full_count
        dev join_type a a_count b b_count a2 b2 a3 b3 flip_results fuel h h' :
  GenericJoinHash dev join_type a a_count b b_count a2 b2 a3 b3 flip_results fuel h
  = Return cudaSuccess h' ->
  (exists before,
      issued h h' = before ++ [ev_probe_hash_tbl_count_common a_count] /\
      joined_output h' = joined_output h) \/
  (exists before h_actual_found,
      issued h h' = before ++ [ev_alloc_joined_output (to_size_type (2 * h_actual_found));
                               ev_pairs_to_decoupled h_actual_found] /\
      length (joined_output h') = Z.to_nat (to_size_type (2 * h_actual_found))).
Proof.
  intros Hrun.
  apply GenericJoinHash_issued in Hrun as (p & E & _ & Hp).
  destruct p as [| |samples|samples|samples caps last|samples caps last n];
    try (now destruct Hp as [Hne _]).
  - destruct Hp as (_ & Ho & pre & ->). left.
    exists (ev_build_hash_tbl b_count :: map ev_probe_hash_tbl_count_common pre).
    split; [|exact Ho]. rewrite E. cbn [work]. now rewrite map_app.
  - destruct Hp as (_ & Hlen & _). right.
    exists (ev_build_hash_tbl b_count :: map ev_probe_hash_tbl_count_common samples
            ++ retries caps ++ [ev_probe_hash_tbl last]), n.
    split; [|exact Hlen]. rewrite E. cbn [work].
    rewrite <- !app_comm_cons, <- !app_assoc. reflexivity.
Qed.

Lemma success_without_result_follows_a_full_count_witness :
  (exists before,
      issued (mk_host [9; 9] cudaSuccess [])
             (mk_host [9; 9] cudaSuccess
                      [ev_build_hash_tbl 2; ev_probe_hash_tbl_count_common 2;
                       ev_probe_hash_tbl_count_common 4;
                       ev_probe_hash_tbl_count_common 8;
                       ev_probe_hash_tbl_count_common 11])
      = before ++ [ev_probe_hash_tbl_count_common 11] /\
      [9; 9] = [9; 9]) \/
  (exists before h_actual_found,
      issued (mk_host [9; 9] cudaSuccess [])
             (mk_host [9; 9] cudaSuccess
                      [ev_build_hash_tbl 2; ev_probe_hash_tbl_count_common 2;
                       ev_probe_hash_tbl_count_common 4;
                       ev_probe_hash_tbl_count_common 8;
                       ev_probe_hash_tbl_count_common 11])
      = before ++ [ev_alloc_joined_output (to_size_type (2 * h_actual_found));
                   ev_pairs_to_decoupled h_actual_found] /\
      length [9; 9] = Z.to_nat (to_size_type (2 * h_actual_found))).
Proof.
  apply (success_without_result_follows_a_full_count quiet_device LEFT_JOIN
           [1; 9; 7; 7; 7; 7; 7; 7; 7; 7; 7] 11 [3; 4] 2 None None None None false 32
           (mk_host [9; 9] cudaSuccess [])).
  reflexivity.
Defined.

(** After the transposition the status returned is the one of the last
    [cudaDeviceSynchronize] (unless freeing the counter fails): the status of
    the synchronization of every probe that was retried is overwritten, so a
    failure there is not reported. *)
Theorem status_after_transposition_is_of_the_last_synchronize
        dev join_type a a_count b b_count a2 b2 a3 b3 flip_results fuel h e h' n :
  GenericJoinHash dev join_type a a_count b b_count a2 b2 a3 b3 flip_results fuel h
  = Return e h' ->
  In (ev_pairs_to_decoupled n) (issued h h') ->
  status dev cudaFree_joined_idx = cudaSuccess ->
  e = status dev (cudaDeviceSynchronize (length (filter is_free (issued h h')))).
Proof.
  intros Hrun Hin Hfree.
  apply GenericJoinHash_issued in Hrun as (p & E & _ & Hp).
  rewrite E in Hin |- *.
  destruct (work_transposed _ _ _ Hin) as (samples & caps & last & ->).
  destruct Hp as (He & _).
  rewrite Hfree in He. cbn [Z.eqb cudaSuccess] in He.
  pose proof (work_probes_and_frees b_count (transposed samples caps last n)) as Hw.
  cbv zeta in Hw. destruct Hw as [-> _]. exact He.
Qed.

Lemma status_after_transposition_is_of_the_last_synchronize_witness :
  cudaSuccess =
  status (only_fails (cudaDeviceSynchronize 0) 700)
         (cudaDeviceSynchronize
            (length (filter is_free
               (issued fresh_host
                  (mk_host [0; 2; 3; 4; 5; 6; 7; 8; 9; 10; 0; 1; 1; 1; 1; 1; 1; 1; 1; 1]
                           cudaSuccess
                           [ev_build_hash_tbl 2; ev_probe_hash_tbl_count_common 2;
                            ev_probe_hash_tbl 6; ev_free_tempOut 6;
                            ev_probe_hash_tbl 12; ev_alloc_joined_output 20;
                            ev_pairs_to_decoupled 10]))))).
Proof.
  apply (status_after_transposition_is_of_the_last_synchronize
           (only_fails (cudaDeviceSynchronize 0) 700) LEFT_JOIN
           [1; 9; 7; 7; 7; 7; 7; 7; 7; 7; 7] 11 [1; 7] 2 None None None None false 32
           fresh_host cudaSuccess _ 10).
  - reflexivity.
  - simpl. tauto.
  - reflexivity.
Defined.

(** The buffer of the last materializing probe is never released: a call
    frees at most as many buffers as it has probed into, and a call that
    reaches the transposition has freed exactly one fewer (the [cudaFree] of
    [tempOut] that follows the final [return] is never executed). *)
Theorem last_tempOut_is_never_freed
        dev join_type a a_count b b_count a2 b2 a3 b3 flip_results fuel h e h' :
  GenericJoinHash dev join_type a a_count b b_count a2 b2 a3 b3 flip_results fuel h
  = Return e h' ->
  (length (filter is_free (issued h h')) <= length (filter is_probe (issued h h')))%nat /\
  (forall n, In (ev_pairs_to_decoupled n) (issued h h') ->
             length (filter is_probe (issued h h'))
             = S (length (filter is_free (issued h h')))).
Proof.
  intros Hrun.
  apply GenericJoinHash_issued in Hrun as (p & E & _ & _). rewrite E.
  pose proof (work_probes_and_frees b_count p) as Hw. cbv zeta in Hw.
  split.
  - destruct p; lia.
  - intros n Hin. destruct (work_transposed _ _ _ Hin) as (samples & caps & last & ->).
    tauto.
Qed.

Lemma last_tempOut_is_never_freed_witness :
  le (length (filter is_free
        (issued fresh_host
           (mk_host [0; 2; 3; 4; 5; 6; 7; 8; 9; 10; 0; 1; 1; 1; 1; 1; 1; 1; 1; 1]
                    cudaSuccess
                    [ev_build_hash_tbl 2; ev_probe_hash_tbl_count_common 2;
                     ev_probe_hash_tbl 6; ev_free_tempOut 6;
                     ev_probe_hash_tbl 12; ev_alloc_joined_output 20;
                     ev_pairs_to_decoupled 10]))))
     (length (filter is_probe
        (issued fresh_host
           (mk_host [0; 2; 3; 4; 5; 6; 7; 8; 9; 10; 0; 1; 1; 1; 1; 1; 1; 1; 1; 1]
                    cudaSuccess
                    [ev_build_hash_tbl 2; ev_probe_hash_tbl_count_common 2;
                     ev_probe_hash_tbl 6; ev_free_tempOut 6;
                     ev_probe_hash_tbl 12; ev_alloc_joined_output 20;
                     ev_pairs_to_decoupled 10])))) /\
  (forall n,
      In (ev_pairs_to_decoupled n)
         (issued fresh_host
           (mk_host [0; 2; 3; 4; 5; 6; 7; 8; 9; 10; 0; 1; 1; 1; 1; 1; 1; 1; 1; 1]
                    cudaSuccess
                    [ev_build_hash_tbl 2; ev_probe_hash_tbl_count_common 2;
                     ev_probe_hash_tbl 6; ev_free_tempOut 6;
                     ev_probe_hash_tbl 12; ev_alloc_joined_output 20;
                     ev_pairs_to_decoupled 10])) ->
      length (filter is_probe
        (issued fresh_host
           (mk_host [0; 2; 3; 4; 5; 6; 7; 8; 9; 10; 0; 1; 1; 1; 1; 1; 1; 1; 1; 1]
                    cudaSuccess
                    [ev_build_hash_tbl 2; ev_probe_hash_tbl_count_common 2;
                     ev_probe_hash_tbl 6; ev_free_tempOut 6;
                     ev_probe_hash_tbl 12; ev_alloc_joined_output 20;
                     ev_pairs_to_decoupled 10])))
      = S (length (filter is_free
        (issued fresh_host
           (mk_host [0; 2; 3; 4; 5; 6; 7; 8; 9; 10; 0; 1; 1; 1; 1; 1; 1; 1; 1; 1]
                    cudaSuccess
                    [ev_build_hash_tbl 2; ev_probe_hash_tbl_count_common 2;
                     ev_probe_hash_tbl 6; ev_free_tempOut 6;
                     ev_probe_hash_tbl 12; ev_alloc_joined_output 20;
                     ev_pairs_to_decoupled 10]))))).
Proof.
  apply (last_tempOut_is_never_freed quiet_device LEFT_JOIN
           [1; 9; 7; 7; 7; 7; 7; 7; 7; 7; 7] 11 [1; 7] 2 None None None None false 32
           fresh_host cudaSuccess).
  reflexivity.
Defined.

(* ================================================================== *)
(** ** Traps, and joins that need no sample *)

Lemma wpd_Return_eq {A} (m : M A) h e0 h0 :
  wpd False False m (fun _ _ => False) (fun e h' => e = e0 /\ h' = h0) h ->
  m h = Return e0 h0.
Proof. unfold wpd. destruct (m h); try contradiction. now intros [-> ->]. Qed.

Lemma init_phase_quiet dev b b_count h :
  no_faults dev -> last_error h = cudaSuccess ->
  init_phase dev b b_count h
  = Next (build_hash_tbl (new_multimap (hash_tbl_size b_count)) b b_count, cudaSuccess)
         (mk_host (joined_output h) cudaSuccess (trace h ++ [ev_build_hash_tbl b_count])).
Proof.
  intros Hquiet Herr.
  destruct (wpd_total_Next (init_phase dev b b_count)
              (fun r h' =>
                 r = (build_hash_tbl (new_multimap (hash_tbl_size b_count)) b b_count,
                      cudaSuccess) /\
                 h' = mk_host (joined_output h) cudaSuccess
                              (trace h ++ [ev_build_hash_tbl b_count])) h)
    as (r & h1 & E & -> & ->); [|exact E].
  eapply wpd_mono; [apply (init_phase_spec False False)| |]; cbv beta.
  - intros r h1 H. exact H.
  - intros e h' ([Hne [He|[call He]]] & _); [congruence|].
    rewrite Hquiet in He. contradiction.
Qed.

(** When the probed column has at most five times the rows of the other
    one, the estimate is one counting probe over the whole column. *)
Lemma estimate_unsampled dev join_type a a_count b_count a2 b2 a3 b3 fuel hash_tbl h :
  no_faults dev ->
  a_count <= to_size_type (5 * b_count) ->
  estimate dev join_type a a_count b_count a2 b2 a3 b3 (S fuel) hash_tbl cudaSuccess h
  = Next (to_size_type
            (probe_hash_tbl_count_common join_type hash_tbl a a_count a2 b2 a3 b3 * 1),
          a_count)
         (mk_host (joined_output h) (last_error h)
                  (trace h ++ [ev_probe_hash_tbl_count_common a_count])).
Proof.
  intros Hquiet Hle.
  destruct (wpd_total_Next
              (estimate dev join_type a a_count b_count a2 b2 a3 b3 (S fuel) hash_tbl
                        cudaSuccess)
              (fun res h' =>
                 res = (to_size_type
                          (probe_hash_tbl_count_common join_type hash_tbl a a_count
                                                       a2 b2 a3 b3 * 1), a_count) /\
                 h' = mk_host (joined_output h) (last_error h)
                              (trace h ++ [ev_probe_hash_tbl_count_common a_count])) h)
    as (r & h1 & E & -> & ->); [|exact E].
  unfold estimate.
  replace (to_size_type (5 * b_count) <? a_count) with false by lia.
  wp_step. wp_step. cbn [fst snd estimate_loop]. cbv zeta.
  rewrite Z.ltb_irrefl.
  wp_quiet. wp_quiet. wp_quiet. wp_quiet. cbn [negb Z.eqb cudaSuccess].
  wp_quiet. wp_quiet. wp_quiet. wp_quiet.
  rewrite (Z.eqb_refl a_count), orb_true_r. wp_step.
  cbn [joined_output last_error trace]. now split.
Qed.

(** On a device whose probe launches reserve one slot per match, and for a
    number of matches that can be doubled in [size_type], the only way in
    which the host code leaves the ground is the division by the row count
    of an empty build column: it never reads or writes outside of [tempOut]
    and of the output array, and never allocates a negative size, whichever
    runtime calls fail. *)
Theorem division_by_zero_is_the_only_trap
        dev join_type a b a2 b2 a3 b3 flip_results fuel h r :
  fair dev ->
  2 * Z.of_nat (length (cross_matches a b a2 b2 a3 b3)) <= INT_MAX ->
  GenericJoinHash dev join_type a (Z.of_nat (length a)) b (Z.of_nat (length b))
                  a2 b2 a3 b3 flip_results fuel h = Trap r ->
  r = DivideByZero /\ b = [] /\ a <> [].
Proof.
  intros Hfair Hm. unfold GenericJoinHash, bind at 1.
  destruct (init_phase dev b (Z.of_nat (length b)) h) as [[tbl err] h1| |r'|] eqn:E1;
    try discriminate.
  2:{ exfalso. revert E1. eapply wpd_no_trap, init_phase_paths. }
  destruct (wpd_Next _ _ _ _ _ _ _ _ (init_phase_paths dev b (Z.of_nat (length b)) h) E1)
    as [Hr ->].
  injection Hr as -> ->. cbn [fst snd]. unfold bind at 1.
  destruct (estimate dev join_type a _ _ a2 b2 a3 b3 fuel _ cudaSuccess _)
    as [[scanSize sampled] h2| |r'|] eqn:E2; try discriminate.
  - cbn [fst]. destruct (scanSize =? 0); [discriminate|]. unfold bind at 1.
    destruct (probe_loop dev join_type a _ a2 b2 a3 b3 fuel 0 _ scanSize h2)
      as [[[error found] tempOut] h3| |r'|] eqn:E3; try discriminate.
    + assert (Hbound : Z.of_nat
                (length (table_matches
                           (build_hash_tbl (new_multimap (hash_tbl_size (Z.of_nat (length b))))
                                           b (Z.of_nat (length b)))
                           a (Z.of_nat (length a)) a2 b2 a3 b3)) <= INT_MAX).
      { rewrite table_matches_full. lia. }
      destruct (wpd_Next _ _ _ _ _ _ _ _
                  (probe_loop_sound dev join_type a (Z.of_nat (length a)) a2 b2 a3 b3 _
                     Hfair Hbound fuel 0%nat scanSize h2) E3)
        as (_ & Hn & Hlen & _).
      cbn [fst snd] in *. rewrite table_matches_full in Hlen. subst found.
      intros H. exfalso. revert H.
      eapply wpd_no_trap, (transpose_phase_spec False True); lia.
    + intros _. exfalso. revert E3. eapply wpd_no_trap, probe_loop_paths.
  - intros H. injection H as <-.
    apply estimate_trap in E2 as (-> & Hb & Ha). repeat split.
    + now destruct b.
    + intros ->. simpl in Ha. lia.
Qed.

Lemma division_by_zero_is_the_only_trap_witness :
  DivideByZero = DivideByZero /\ @nil Z = [] /\ [7; 8] <> [].
Proof.
  apply (division_by_zero_is_the_only_trap quiet_device LEFT_JOIN [7; 8] []
           None None None None false 32 fresh_host DivideByZero fair_quiet_device).
  - unfold INT_MAX. simpl. lia.
  - reflexivity.
Defined.

Lemma init_phase_accepted dev b b_count h :
  status dev cudaMalloc_joined_idx = cudaSuccess ->
  status dev cudaMemsetAsync_joined_idx = cudaSuccess ->
  status dev hash_tbl_prefetch = cudaSuccess ->
  status dev build_hash_tbl_launch = cudaSuccess ->
  last_error h = cudaSuccess ->
  init_phase dev b b_count h
  = Next (build_hash_tbl (new_multimap (hash_tbl_size b_count)) b b_count, cudaSuccess)
         (mk_host (joined_output h) cudaSuccess (trace h ++ [ev_build_hash_tbl b_count])).
Proof.
  intros H1 H2 H3 H4 He.
  unfold init_phase, bind, CUDA_RT_CALL, issue, cudaGetLastError, log.
  rewrite H1, H2, H3, !Z.eqb_refl. cbn [ret last_error joined_output trace].
  rewrite He, Z.eqb_refl. cbn [negb]. rewrite H4, Z.eqb_refl.
  cbn [last_error joined_output trace]. rewrite Z.eqb_refl. reflexivity.
Qed.

(** A probe column without rows joins to nothing.  The counting probe is
    launched over zero rows, that is with a grid of zero blocks, which a
    device may refuse; refused or not, the counter read back is 0 with the
    whole column sampled, and the status of the launch is not looked at: the
    call returns success with the output as the caller passed it, and the
    status of the launch stays in the error register of the runtime. *)
Theorem empty_probe_column_joins_to_nothing dev a b b_count a2 b2 a3 b3 fuel h :
  (forall call, call <> probe_hash_tbl_count_common_launch 0 ->
                status dev call = cudaSuccess) ->
  last_error h = cudaSuccess ->
  1 <= b_count -> 5 * b_count <= INT_MAX ->
  LeftJoinHash dev (S fuel) a 0 b b_count a2 b2 a3 b3 h
  = Return cudaSuccess
           (mk_host (joined_output h)
                    (status dev (probe_hash_tbl_count_common_launch 0))
                    (trace h ++ [ev_build_hash_tbl b_count;
                                 ev_probe_hash_tbl_count_common 0])).
Proof.
  intros Hok Herr Hb Hb5.
  unfold LeftJoinHash, GenericJoinHash, bind at 1.
  rewrite init_phase_accepted by (try apply Hok; try discriminate; assumption).
  cbn [fst snd]. unfold bind at 1, estimate, bind at 1.
  rewrite (to_size_type_small (5 * b_count)) by (unfold INT_MAX in *; lia).
  replace (5 * b_count <? 0) with false by lia.
  cbn [ret fst snd estimate_loop]. cbv zeta.
  change (if 0 <? 0 then 0 else 0) with 0.
  unfold bind, log, issue, CUDA_RT_CALL.
  rewrite (Hok (cudaMemcpy_common_probe 0)), (Hok (cudaFree_common_probe 0))
    by discriminate.
  unfold probe_hash_tbl_count_common. rewrite table_matches_nonpos by lia.
  cbn [joined_output last_error trace length Z.of_nat].
  destruct (Z.eqb_spec (status dev (probe_hash_tbl_count_common_launch 0)) cudaSuccess)
    as [E|E]; cbn [negb Z.eqb cudaSuccess ret return_ fst snd Z.ltb Z.compare orb
                   joined_output last_error trace];
    rewrite <- app_assoc; cbn [app]; [rewrite E|]; reflexivity.
Qed.

Lemma empty_probe_column_joins_to_nothing_witness :
  LeftJoinHash (only_fails (probe_hash_tbl_count_common_launch 0) 9) 1 [] 0 [4; 5; 6] 3
               None None None None (mk_host [9; 9] cudaSuccess [])
  = Return cudaSuccess
           (mk_host [9; 9]
                    (status (only_fails (probe_hash_tbl_count_common_launch 0) 9)
                            (probe_hash_tbl_count_common_launch 0))
                    ([] ++ [ev_build_hash_tbl 3; ev_probe_hash_tbl_count_common 0])).
Proof.
  apply (empty_probe_column_joins_to_nothing
           (only_fails (probe_hash_tbl_count_common_launch 0) 9) [] [4; 5; 6] 3
           None None None None 0 (mk_host [9; 9] cudaSuccess [])).
  - intros call Hne. unfold only_fails, status.
    destruct (api_eq_dec call (probe_hash_tbl_count_common_launch 0));
      [contradiction|reflexivity].
  - reflexivity.
  - lia.
  - unfold INT_MAX. lia.
Defined.

(** When the probed column has at most five times the rows of the column
    the table is built over, nothing is sampled: one counting probe over the
    whole column sizes the buffer at exactly the number of matches, so the
    materializing probe is launched once, nothing is freed and retried, and
    the output holds all matching pairs. *)
Theorem unsampled_join_probes_once dev join_type a b a2 b2 a3 b3 flip_results fuel h :
  no_faults dev -> fair dev ->
  last_error h = cudaSuccess ->
  Z.of_nat (length a) <= 5 * Z.of_nat (length b) ->
  5 * Z.of_nat (length b) <= INT_MAX ->
  cross_matches a b a2 b2 a3 b3 <> [] ->
  2 * Z.of_nat (length (cross_matches a b a2 b2 a3 b3)) <= INT_MAX ->
  exists h',
    GenericJoinHash dev join_type a (Z.of_nat (length a)) b (Z.of_nat (length b))
                    a2 b2 a3 b3 flip_results (S fuel) h = Return cudaSuccess h' /\
    trace h' = trace h
      ++ [ev_build_hash_tbl (Z.of_nat (length b));
          ev_probe_hash_tbl_count_common (Z.of_nat (length a));
          ev_probe_hash_tbl (Z.of_nat (length (cross_matches a b a2 b2 a3 b3)));
          ev_alloc_joined_output (2 * Z.of_nat (length (cross_matches a b a2 b2 a3 b3)));
          ev_pairs_to_decoupled (Z.of_nat (length (cross_matches a b a2 b2 a3 b3)))] /\
    Permutation (decoupled (joined_output h'))
                (map (oriented flip_results) (cross_matches a b a2 b2 a3 b3)).
Proof.
  intros Hquiet Hfair Herr Hab Hb5 Hne Hm2.
  set (found := cross_matches a b a2 b2 a3 b3) in *.
  set (hash_tbl := build_hash_tbl (new_multimap (hash_tbl_size (Z.of_nat (length b))))
                                  b (Z.of_nat (length b))).
  assert (Hfound : table_matches hash_tbl a (Z.of_nat (length a)) a2 b2 a3 b3 = found)
    by apply table_matches_full.
  assert (Hpos : 0 < Z.of_nat (length found)) by (destruct found; [congruence|simpl; lia]).
  unfold GenericJoinHash, bind at 1.
  rewrite init_phase_quiet by assumption. cbn [fst snd]. fold hash_tbl.
  unfold bind at 1.
  rewrite estimate_unsampled;
    [|assumption|rewrite to_size_type_small by (unfold INT_MAX in *; lia); lia].
  unfold probe_hash_tbl_count_common. rewrite Hfound. cbn [fst snd].
  rewrite (to_size_type_small (Z.of_nat (length found))) by (unfold INT_MAX in *; lia).
  rewrite Z.mul_1_r, to_size_type_small by (unfold INT_MAX in *; lia).
  replace (Z.of_nat (length found) =? 0) with false by lia.
  unfold bind at 1. cbn [joined_output last_error trace].
  assert (Hm2' : 2 * Z.of_nat (length (table_matches hash_tbl a (Z.of_nat (length a))
                                                     a2 b2 a3 b3)) <= INT_MAX)
    by (rewrite Hfound; exact Hm2).
  destruct (wpd_total_Next _ _ _
              (probe_loop_total dev Hquiet Hfair join_type a (Z.of_nat (length a))
                 a2 b2 a3 b3 hash_tbl Hm2' fuel 0%nat (Z.of_nat (length found))
                 (mk_host (joined_output h) cudaSuccess
                          ((trace h ++ [ev_build_hash_tbl (Z.of_nat (length b))])
                             ++ [ev_probe_hash_tbl_count_common (Z.of_nat (length a))]))
                 ltac:(lia)
                 ltac:(rewrite Hfound; pose proof (Z.pow_pos_nonneg 2 (Z.of_nat fuel)); nia)))
    as (res & h3 & -> & k & -> & Ho3 & He3 & Ht3 & _ & Hi).
  rewrite Hfound in *.
  destruct k as [|k]; [|specialize (Hi 0%nat ltac:(lia)); simpl in Hi; lia].
  cbn [fst snd growth app Nat.add] in *. rewrite Z.mul_1_r in Ht3.
  assert (Hlen : length (arrival dev 0 found) = length found)
    by apply Permutation_length, Hfair.
  rewrite <- Hlen.
  destruct (wpd_total_Return _ _ _
              (transpose_phase_spec False False dev flip_results cudaSuccess
                 (arrival dev 0 found) h3
                 ltac:(rewrite Hlen; unfold INT_MAX in *; lia)
                 ltac:(rewrite Hlen; lia)))
    as (e & h' & -> & He & _ & Hdec & Ht).
  assert (e = cudaSuccess) as ->.
  { destruct He as [He|[Hne' [He|[call He]]]]; [exact He| |].
    - cbn [last_error] in He3. congruence.
    - rewrite Hquiet in He. contradiction. }
  exists h'. split; [reflexivity|]. split.
  - rewrite Ht, Ht3, Hlen. cbn [trace]. rewrite <- !app_assoc. reflexivity.
  - rewrite Hdec. apply Permutation_map, Hfair.
Qed.

Lemma unsampled_join_probes_once_witness :
  exists h',
    GenericJoinHash quiet_device LEFT_JOIN [5; 6; 5] (Z.of_nat (length [5; 6; 5]))
                    [5; 5] (Z.of_nat (length [5; 5]))
                    None None None None false 1 fresh_host = Return cudaSuccess h' /\
    trace h' = trace fresh_host
      ++ [ev_build_hash_tbl (Z.of_nat (length [5; 5]));
          ev_probe_hash_tbl_count_common (Z.of_nat (length [5; 6; 5]));
          ev_probe_hash_tbl
            (Z.of_nat (length (cross_matches [5; 6; 5] [5; 5] None None None None)));
          ev_alloc_joined_output
            (2 * Z.of_nat (length (cross_matches [5; 6; 5] [5; 5] None None None None)));
          ev_pairs_to_decoupled
            (Z.of_nat (length (cross_matches [5; 6; 5] [5; 5] None None None None)))] /\
    Permutation (decoupled (joined_output h'))
                (map (oriented false) (cross_matches [5; 6; 5] [5; 5] None None None None)).
Proof.
  apply (unsampled_join_probes_once quiet_device LEFT_JOIN [5; 6; 5] [5; 5]
           None None None None false 0 fresh_host
           no_faults_quiet_device fair_quiet_device eq_refl).
  - simpl. lia.
  - unfold INT_MAX. simpl. lia.
  - vm_compute. discriminate.
  - unfold INT_MAX. vm_compute. discriminate.
Defined.

(** The output array changes by the transposition only: whatever fails
    before it, a call that returns without having transposed leaves the
    array as the caller passed it, and one that has transposed [n] pairs
    leaves an array of [2 * n] entries. *)
Theorem output_changes_by_the_transposition_only
        dev join_type a a_count b b_count a2 b2 a3 b3 flip_results fuel h e h' :
  GenericJoinHash dev join_type a a_count b b_count a2 b2 a3 b3 flip_results fuel h
  = Return e h' ->
  joined_output h' = joined_output h \/
  exists h_actual_found,
    In (ev_pairs_to_decoupled h_actual_found) (issued h h') /\
    length (joined_output h') = Z.to_nat (to_size_type (2 * h_actual_found)).
Proof.
  intros Hrun.
  apply GenericJoinHash_issued in Hrun as (p & E & _ & Hp).
  destruct p as [| |samples|samples|samples caps last|samples caps last n];
    try (left; apply Hp).
  right. exists n. split; [|apply Hp].
  rewrite E. cbn [work]. right. rewrite !in_app_iff. right. right. simpl. tauto.
Qed.

Lemma output_changes_by_the_transposition_only_witness :
  [9] = [9] \/
  exists h_actual_found,
    In (ev_pairs_to_decoupled h_actual_found)
       (issued (mk_host [9] cudaSuccess [])
               (mk_host [9] cudaSuccess
                        [ev_build_hash_tbl 1; ev_probe_hash_tbl_count_common 1;
                         ev_probe_hash_tbl 1])) /\
    length [9] = Z.to_nat (to_size_type (2 * h_actual_found)).
Proof.
  apply (output_changes_by_the_transposition_only
           (only_fails (cudaMemcpy_joined_idx 0) 4) LEFT_JOIN
           [1] 1 [1] 1 None None None None false 32 (mk_host [9] cudaSuccess []) 4
           (mk_host [9] cudaSuccess
                    [ev_build_hash_tbl 1; ev_probe_hash_tbl_count_common 1;
                     ev_probe_hash_tbl 1])).
  reflexivity.
Defined.

(** From [2^30] pairs on, the number of entries asked for the output array,
    [2 * h_actual_found], wraps around to a negative number. *)
Theorem output_size_is_negative_from_2_30_pairs
        dev flip_results error h_actual_found tempOut h :
  1073741824 <= h_actual_found <= INT_MAX ->
  transpose_phase dev flip_results error h_actual_found tempOut h = Trap BadAlloc.
Proof.
  unfold INT_MAX. intros H.
  unfold transpose_phase, bind, log, new_mem_t.
  replace (to_size_type (2 * h_actual_found) <? 0) with true; [reflexivity|].
  symmetry. apply Z.ltb_lt. unfold to_size_type.
  replace (2 * h_actual_found + 2147483648)
    with (2 * h_actual_found - 2147483648 + 1 * 4294967296) by lia.
  rewrite Z_mod_plus_full, Z.mod_small by lia. lia.
Qed.

Lemma output_size_is_negative_from_2_30_pairs_witness :
  transpose_phase quiet_device false cudaSuccess 1073741824 [] fresh_host = Trap BadAlloc.
Proof.
  apply (output_size_is_negative_from_2_30_pairs quiet_device false cudaSuccess
           1073741824 [] fresh_host).
  unfold INT_MAX. lia.
Defined.
